(** * Centrifugo node core (lib/node/node.go): a shallow embedding

    The development follows node.go function by function.  Go values are
    modelled as the code has them: a Go [string] is a sequence of bytes
    (Rocq's [string] of [ascii]), a Go [int] is a [Z], a Go [error] is an
    optional error value ([None] is [nil]), and a method that mutates the
    node, the hub, the engine or a client threads an explicit [World].
    A run-time panic (index out of range, close of a closed channel) is an
    explicit outcome. *)

From Stdlib Require Import ZArith Ascii String List Lia.
From stdpp Require Import base option list gmap strings.

Open Scope Z_scope.

(** ** Outcomes of Go code: a returned value or a run-time panic *)

Inductive PanicKind :=
| IndexOutOfRange
| CloseOfClosedChannel.

Inductive Res (A : Type) :=
| Ret (a : A)
| Throw (p : PanicKind).

Arguments Ret {A} a.
Arguments Throw {A} p.

(** ** Go's [strings] and [unicode/utf8], as far as node.go uses them *)

Module GoStrings.

Definition len (s : string) : Z := Z.of_nat (String.length s).

(** [s[:n]] and [s[n:]] for an in-range [n]. *)
Fixpoint slice_to (n : nat) (s : string) : string :=
  match n, s with
  | S n', String c s' => String c (slice_to n' s')
  | _, _ => EmptyString
  end.

Fixpoint slice_from (n : nat) (s : string) : string :=
  match n, s with
  | S n', String _ s' => slice_from n' s'
  | _, _ => s
  end.

(** [strings.HasPrefix]: [len(s) >= len(prefix) && s[0:len(prefix)] == prefix]. *)
Definition HasPrefix (s prefix : string) : bool :=
  (len prefix <=? len s) && String.eqb (slice_to (String.length prefix) s) prefix.

(** [strings.TrimPrefix]. *)
Definition TrimPrefix (s prefix : string) : string :=
  if HasPrefix s prefix then slice_from (String.length prefix) s else s.

(** [strings.Index]: the index of the first instance of [substr] in [s],
    or -1.  [index_at i] scans the suffix of [s] that starts at byte [i]. *)
Fixpoint index_at (i : Z) (s substr : string) : Z :=
  if HasPrefix s substr then i
  else match s with
       | EmptyString => -1
       | String _ s' => index_at (i + 1) s' substr
       end.

Definition Index (s substr : string) : Z := index_at 0 s substr.

(** [strings.Contains]: [Index(s, substr) >= 0]. *)
Definition Contains (s substr : string) : bool := 0 <=? Index s substr.

(** [utf8.DecodeRuneInString], width only: the number of bytes of the
    first rune of [s]; an invalid or short encoding has width 1, the
    empty string width 0.  [locb .. hicb] is the range of a continuation
    byte, and the second byte's range depends on the first ([acceptRanges]). *)
Definition byte_at (s : string) (i : nat) : option Z :=
  match String.get i s with
  | Some c => Some (Z.of_N (N_of_ascii c))
  | None => None
  end.

Definition in_range (lo hi : Z) (b : option Z) : bool :=
  match b with
  | Some x => (lo <=? x) && (x <=? hi)
  | None => false
  end.

Definition locb : Z := 128.
Definition hicb : Z := 191.

(** The [first] table: size of the encoding (0 for an invalid first
    byte, 1 for ASCII) and the accepted range of the second byte. *)
Definition first (s0 : Z) : nat * (Z * Z) :=
  if s0 <? 128 then (1%nat, (0, 0))
  else if s0 <? 194 then (0%nat, (0, 0))
  else if s0 <? 224 then (2%nat, (locb, hicb))
  else if s0 =? 224 then (3%nat, (160, hicb))
  else if s0 <? 237 then (3%nat, (locb, hicb))
  else if s0 =? 237 then (3%nat, (locb, 159))
  else if s0 <? 240 then (3%nat, (locb, hicb))
  else if s0 =? 240 then (4%nat, (144, hicb))
  else if s0 <? 244 then (4%nat, (locb, hicb))
  else if s0 =? 244 then (4%nat, (locb, 143))
  else (0%nat, (0, 0)).

Definition rune_width (s : string) : nat :=
  match byte_at s 0 with
  | None => 0%nat
  | Some s0 =>
      let '(sz, (lo, hi)) := first s0 in
      match sz with
      | O | S O => 1%nat
      | _ =>
          if (String.length s <? sz)%nat then 1%nat
          else if negb (in_range lo hi (byte_at s 1)) then 1%nat
          else if (sz <=? 2)%nat then 2%nat
          else if negb (in_range locb hicb (byte_at s 2)) then 1%nat
          else if (sz <=? 3)%nat then 3%nat
          else if negb (in_range locb hicb (byte_at s 3)) then 1%nat
          else 4%nat
      end
  end.

(** [utf8.RuneCountInString]; the fuel is the byte length, every rune
    taking at least one byte. *)
Fixpoint rune_count (fuel : nat) (s : string) : Z :=
  match fuel, s with
  | S fuel', String _ _ => 1 + rune_count fuel' (slice_from (rune_width s) s)
  | _, _ => 0
  end.

Definition RuneCountInString (s : string) : Z := rune_count (String.length s) s.

(** [strings.explode]: split [s] into runes, up to [n] of them (the
    last one takes the rest); [n < 0] or [n] beyond the rune count means
    all of them. *)
Fixpoint explode_loop (k : nat) (s : string) : list string :=
  match k with
  | O => [s]
  | S k' =>
      let size := rune_width s in
      slice_to size s :: explode_loop k' (slice_from size s)
  end.

Definition explode (s : string) (n : Z) : list string :=
  let l := RuneCountInString s in
  let n := if (n <? 0) || (l <? n) then l else n in
  if 0 <? n then explode_loop (Z.to_nat (n - 1)) s else [].

(** [strings.Count] for a non-empty [substr] (non-overlapping instances);
    for the empty one, the rune count plus one. *)
Fixpoint count_loop (fuel : nat) (s substr : string) : Z :=
  match fuel with
  | O => 0
  | S fuel' =>
      let i := Index s substr in
      if i =? -1 then 0
      else 1 + count_loop fuel' (slice_from (Z.to_nat (i + len substr)) s) substr
  end.

Definition Count (s substr : string) : Z :=
  if len substr =? 0 then RuneCountInString s + 1
  else count_loop (S (String.length s)) s substr.

(** [strings.genSplit]: at most [n - 1] cuts at the first instances of
    [sep], the last element being the unsplit remainder. *)
Fixpoint split_loop (cuts : nat) (s sep : string) (sepSave : Z) : list string :=
  match cuts with
  | O => [s]
  | S cuts' =>
      let m := Index s sep in
      if m <? 0 then [s]
      else slice_to (Z.to_nat (m + sepSave)) s
             :: split_loop cuts' (slice_from (Z.to_nat (m + len sep)) s) sep sepSave
  end.

Definition genSplit (s sep : string) (sepSave n : Z) : list string :=
  if n =? 0 then []
  else if String.eqb sep "" then explode s n
  else
    let n := if n <? 0 then Count s sep + 1 else n in
    split_loop (Z.to_nat (n - 1)) s sep sepSave.

(** [strings.SplitN]. *)
Definition SplitN (s sep : string) (n : Z) : list string := genSplit s sep 0 n.

End GoStrings.

(** ** Values of lib/proto, lib/channel and lib/proto/control *)

(** [proto.ErrBadRequest], [proto.ErrNamespaceNotFound] and
    [proto.ErrInternalServerError] are the error values node.go returns
    itself, [ErrAlreadyExists] is the hub's; [ErrOther] stands for any
    other error value that an engine, a hub, a client or a codec hands back.  A Go [error] is [None] when it is [nil]. *)
Inductive Error :=
| ErrBadRequest
| ErrNamespaceNotFound
| ErrInternalServerError
| ErrAlreadyExists
| ErrOther (msg : string).

Definition error : Type := option Error.

(** A [<-chan error] used as a future: it delivers exactly one value.
    [makeErrChan] builds one that already holds its value; [recv] is [<-c]. *)
Inductive ErrChan := chan_of (delivered : error).

Definition recv (c : ErrChan) : error := let 'chan_of e := c in e.

Definition makeErrChan (err : error) : ErrChan := chan_of err.

(** Modelled from the spec: [proto.ClientInfo], [proto.Publication] and
    [proto.Disconnect] (lib/proto is not under src/).  node.go reads and
    writes [UID] of a publication and builds a disconnect advice from
    [Reason] and [Reconnect]. *)
Module ClientInfo.
Record t := { User : string; Client : string }.
End ClientInfo.

Module Publication.
Record t := { UID : string; Data : string; Info : option ClientInfo.t }.
Definition with_UID (u : string) (p : t) : t :=
  {| UID := u; Data := Data p; Info := Info p |}.
End Publication.

Module Disconnect.
Record t := { Reason : string; Reconnect : bool }.
End Disconnect.

(** Modelled from the spec: [channel.Options] (lib/channel is not under
    src/); node.go only passes the value on to the engine. *)
Module Options.
Record t := { Presence : bool; JoinLeave : bool; HistorySize : Z; HistoryLifetime : Z }.
End Options.

(** The fields of [Config] that node.go's channel functions read.  The
    method [Config.channelOpts] lives in config.go, which is not under
    src/: it is taken as a parameter, carried by the configuration whose
    namespaces it looks up. *)
Module Config.
Record t := {
  Name : string;
  PrivateChannelPrefix : string;
  NamespaceChannelBoundary : string;
  channelOpts : string -> Options.t * bool
}.
End Config.

(** The payloads of control commands, with the fields node.go sets or
    reads: [control.Node], [control.Unsubscribe], [control.Disconnect] and
    the envelope [control.Command].  [Params] is a byte slice. *)
Module ControlNode.
Record t := {
  UID : string;
  Name : string;
  Version : string;
  StartedAt : Z;
  MetricsUpdateInterval : Z;
  Metrics : gmap string Z
}.
End ControlNode.

Module ControlUnsubscribe.
Record t := { User : string; Channel : string }.
End ControlUnsubscribe.

Module ControlDisconnect.
Record t := { User : string }.
End ControlDisconnect.

Module Command.
Record t := { UID : string; Method : string; Params : string }.
End Command.

(** ** The interfaces node.go programs against *)

(** A [Client] interface value is a reference to a connection object. *)
Definition ClientRef : Type := string.

(** Result of a [control.Decoder] method: the decoded value or an error. *)
Inductive Decoded (T : Type) :=
| DecodedOk (v : T)
| DecodedErr (e : Error).

Arguments DecodedOk {T} v.
Arguments DecodedErr {T} e.

(** [control.Encoder] and [control.Decoder]. *)
Class ControlCodec := {
  EncodeNode : ControlNode.t -> string * error;
  EncodeUnsubscribe : ControlUnsubscribe.t -> string * error;
  EncodeDisconnect : ControlDisconnect.t -> string * error;
  DecodeNode : string -> Decoded ControlNode.t;
  DecodeUnsubscribe : string -> Decoded ControlUnsubscribe.t;
  DecodeDisconnect : string -> Decoded ControlDisconnect.t
}.

(** [engine.Engine]: each method steps the engine and answers. *)
Class Engine (E : Type) := {
  engine_Publish : E -> string -> Publication.t -> Options.t -> E * ErrChan;
  engine_PublishControl : E -> Command.t -> E * ErrChan;
  engine_Subscribe : E -> string -> E * error;
  engine_Unsubscribe : E -> string -> E * error
}.

(** [Hub].  [hub_Shutdown] also answers which connections it closed, with
    which advice. *)
Class Hub (H : Type) := {
  hub_AddSub : H -> string -> ClientRef -> H * (bool * error);
  hub_RemoveSub : H -> string -> ClientRef -> H * (bool * error);
  hub_NumSubscribers : H -> string -> Z;
  hub_UserConnections : H -> string -> list ClientRef;
  hub_Shutdown : H -> H * list (ClientRef * Disconnect.t) * error
}.

(** [Client]: the state of a connection object and the two methods that
    [unsubscribeUser] calls on it. *)
Class Client (C : Type) := {
  client_Channels : C -> list string;
  client_Unsubscribe : C -> string -> C * error
}.

(** [nodeRegistry]: [add] is what [nodeCmd] calls. *)
Class Registry (R : Type) := {
  registry_add : R -> ControlNode.t -> R
}.

(** [nuid.Next] of github.com/nats-io/nuid, with its generator state. *)
Class Nuid (G : Type) := {
  nuid_Next : G -> string * G
}.

(** ** What the node leaves behind: calls, goroutines, log lines *)

(** A call made on a collaborator, in the order the calls happen. *)
Inductive Call :=
| EnginePublish (ch : string) (pub : Publication.t) (opts : Options.t)
| EnginePublishControl (cmd : Command.t)
| EngineSubscribe (ch : string)
| EngineUnsubscribe (ch : string)
| HubAddSub (ch : string) (c : ClientRef)
| HubRemoveSub (ch : string) (c : ClientRef)
| HubShutdown
| ClientUnsubscribe (c : ClientRef) (ch : string)
| ClientClose (c : ClientRef) (advice : Disconnect.t)
| RegistryAdd (node : ControlNode.t)
| CloseShutdownCh.

(** [go func(cc Client) { cc.Close(advice) }(c)]: started, not awaited. *)
Inductive Goroutine :=
| GoClose (cc : ClientRef) (advice : Disconnect.t).

Inductive LogArg :=
| ArgError (e : Error)
| ArgString (s : string).

Inductive LogLevel := ERROR | CRITICAL.

Record LogLine := { level : LogLevel; format : string; args : list LogArg }.

Inductive ChanState := ChanOpen | ChanClosed.

Definition Call_eqb_EngineSubscribe (ch : string) (c : Call) : bool :=
  match c with EngineSubscribe ch' => String.eqb ch ch' | _ => false end.

Definition Call_eqb_EngineUnsubscribe (ch : string) (c : Call) : bool :=
  match c with EngineUnsubscribe ch' => String.eqb ch ch' | _ => false end.

Definition is_EnginePublish (c : Call) : bool :=
  match c with EnginePublish _ _ _ => true | _ => false end.

Definition is_EnginePublishControl (c : Call) : bool :=
  match c with EnginePublishControl _ => true | _ => false end.

Definition is_HubShutdown (c : Call) : bool :=
  match c with HubShutdown => true | _ => false end.

Definition is_CloseShutdownCh (c : Call) : bool :=
  match c with CloseShutdownCh => true | _ => false end.

Definition count_calls (p : Call -> bool) (l : list Call) : nat :=
  List.length (List.filter p l).

(** ** The world a node runs in *)

Section NodeModel.

Context {H E R C G : Type}.
Context `{!Hub H, !Engine E, !Registry R, !Client C, !Nuid G, !ControlCodec}.

(** The fields of the [Node] struct that the modelled methods use
    ([version] to [shutdownCh]), followed by the state of the process
    around it: the counters of the global [metricsRegistry], the [nuid]
    generator, the connection objects that [Client] values point to, the
    goroutines started, the log, and the calls made on collaborators.
    The mutexes are left out (every method runs to completion here), and
    so are the metrics snapshot and its [sync.Once], which only [pubNode]
    and [updateMetricsOnce] use. *)
Record World := {
  version : string;
  uid : string;
  startedAt : Z;
  hub : H;
  config : Config.t;
  engine : E;
  nodes : R;
  shutdown : bool;
  shutdownCh : ChanState;
  counters : gmap string Z;
  nuid : G;
  objects : ClientRef -> C;
  goroutines : list Goroutine;
  logs : list LogLine;
  calls : list Call
}.

Definition set_hub (x : H) (w : World) : World :=
  {| version := version w; uid := uid w; startedAt := startedAt w; hub := x;
     config := config w; engine := engine w; nodes := nodes w;
     shutdown := shutdown w; shutdownCh := shutdownCh w; counters := counters w;
     nuid := nuid w; objects := objects w; goroutines := goroutines w;
     logs := logs w; calls := calls w |}.


Definition set_engine (x : E) (w : World) : World :=
  {| version := version w; uid := uid w; startedAt := startedAt w; hub := hub w;
     config := config w; engine := x; nodes := nodes w;
     shutdown := shutdown w; shutdownCh := shutdownCh w; counters := counters w;
     nuid := nuid w; objects := objects w; goroutines := goroutines w;
     logs := logs w; calls := calls w |}.

Definition set_nodes (x : R) (w : World) : World :=
  {| version := version w; uid := uid w; startedAt := startedAt w; hub := hub w;
     config := config w; engine := engine w; nodes := x;
     shutdown := shutdown w; shutdownCh := shutdownCh w; counters := counters w;
     nuid := nuid w; objects := objects w; goroutines := goroutines w;
     logs := logs w; calls := calls w |}.

Definition set_shutdown (x : bool) (w : World) : World :=
  {| version := version w; uid := uid w; startedAt := startedAt w; hub := hub w;
     config := config w; engine := engine w; nodes := nodes w;
     shutdown := x; shutdownCh := shutdownCh w; counters := counters w;
     nuid := nuid w; objects := objects w; goroutines := goroutines w;
     logs := logs w; calls := calls w |}.

Definition set_shutdownCh (x : ChanState) (w : World) : World :=
  {| version := version w; uid := uid w; startedAt := startedAt w; hub := hub w;
     config := config w; engine := engine w; nodes := nodes w;
     shutdown := shutdown w; shutdownCh := x; counters := counters w;
     nuid := nuid w; objects := objects w; goroutines := goroutines w;
     logs := logs w; calls := calls w |}.

Definition set_counters (x : gmap string Z) (w : World) : World :=
  {| version := version w; uid := uid w; startedAt := startedAt w; hub := hub w;
     config := config w; engine := engine w; nodes := nodes w;
     shutdown := shutdown w; shutdownCh := shutdownCh w; counters := x;
     nuid := nuid w; objects := objects w; goroutines := goroutines w;
     logs := logs w; calls := calls w |}.

Definition set_nuid (x : G) (w : World) : World :=
  {| version := version w; uid := uid w; startedAt := startedAt w; hub := hub w;
     config := config w; engine := engine w; nodes := nodes w;
     shutdown := shutdown w; shutdownCh := shutdownCh w; counters := counters w;
     nuid := x; objects := objects w; goroutines := goroutines w;
     logs := logs w; calls := calls w |}.

Definition set_objects (x : ClientRef -> C) (w : World) : World :=
  {| version := version w; uid := uid w; startedAt := startedAt w; hub := hub w;
     config := config w; engine := engine w; nodes := nodes w;
     shutdown := shutdown w; shutdownCh := shutdownCh w; counters := counters w;
     nuid := nuid w; objects := x; goroutines := goroutines w;
     logs := logs w; calls := calls w |}.

Definition set_goroutines (x : list Goroutine) (w : World) : World :=
  {| version := version w; uid := uid w; startedAt := startedAt w; hub := hub w;
     config := config w; engine := engine w; nodes := nodes w;
     shutdown := shutdown w; shutdownCh := shutdownCh w; counters := counters w;
     nuid := nuid w; objects := objects w; goroutines := x;
     logs := logs w; calls := calls w |}.

Definition set_logs (x : list LogLine) (w : World) : World :=
  {| version := version w; uid := uid w; startedAt := startedAt w; hub := hub w;
     config := config w; engine := engine w; nodes := nodes w;
     shutdown := shutdown w; shutdownCh := shutdownCh w; counters := counters w;
     nuid := nuid w; objects := objects w; goroutines := goroutines w;
     logs := x; calls := calls w |}.

Definition set_calls (x : list Call) (w : World) : World :=
  {| version := version w; uid := uid w; startedAt := startedAt w; hub := hub w;
     config := config w; engine := engine w; nodes := nodes w;
     shutdown := shutdown w; shutdownCh := shutdownCh w; counters := counters w;
     nuid := nuid w; objects := objects w; goroutines := goroutines w;
     logs := logs w; calls := x |}.

(** ** The monad of node methods: state passing, with panics *)

Definition M (A : Type) : Type := World -> Res (A * World).

Definition ret {A} (a : A) : M A := fun w => Ret (a, w).

Definition bind {A B} (m : M A) (k : A -> M B) : M B :=
  fun w => match m w with
           | Ret (a, w') => k a w'
           | Throw p => Throw p
           end.

Definition get : M World := fun w => Ret (w, w).

Definition modify (f : World -> World) : M unit := fun w => Ret (tt, f w).

Definition lift {A} (r : Res A) : M A :=
  fun w => match r with Ret a => Ret (a, w) | Throw p => Throw p end.

End NodeModel.

Arguments World : clear implicits.
Arguments M : clear implicits.

Declare Scope node_scope.
Delimit Scope node_scope with node.
Notation "x <- m ;; k" := (bind m (fun x => k))
  (at level 100, m at next level, right associativity) : node_scope.
Notation "m ;; k" := (bind m (fun _ => k))
  (at level 100, right associativity) : node_scope.

(** ** node.go *)

Section Node.

Context {H E R C G : Type}.
Context `{!Hub H, !Engine E, !Registry R, !Client C, !Nuid G, !ControlCodec}.

Local Open Scope node_scope.

Local Abbreviation World := (World H E R C G).
Local Abbreviation M := (M H E R C G).

(** [New], with the engine that [Run] binds: the values that [uuid],
    [time.Now], [NewHub] and [newNodeRegistry] produce, and the state of
    the process, are passed in.  [shutdown] starts as Go's zero value and
    [shutdownCh] as a fresh, open channel. *)
Definition New (c : Config.t) (VERSION uid0 : string) (now : Z)
    (h : H) (e : E) (r : R) (g : G) (objs : ClientRef -> C)
    (registry : gmap string Z) : World :=
  {| version := VERSION; uid := uid0; startedAt := now; hub := h; config := c;
     engine := e; nodes := r; shutdown := false; shutdownCh := ChanOpen;
     counters := registry; nuid := g; objects := objs; goroutines := [];
     logs := []; calls := [] |}.

Definition record (c : Call) : M unit :=
  modify (fun w => set_calls (calls w ++ [c]) w).

Definition logger_Printf (l : LogLevel) (fmt : string) (a : list LogArg) : M unit :=
  modify (fun w => set_logs (logs w ++ [{| level := l; format := fmt; args := a |}]) w).

(** Modelled from the spec: [metricsRegistry.Counters.Inc] (lib/metrics is
    not under src/): a counter that is not registered yet counts from 0. *)
Definition Counters_Inc (name : string) : M unit :=
  modify (fun w =>
    set_counters (<[name := default 0 (counters w !! name) + 1]> (counters w)) w).

(** Calls on the collaborators: step the collaborator, note the call. *)
Definition call_engine_Publish (ch : string) (pub : Publication.t) (opts : Options.t)
    : M ErrChan :=
  w <- get ;;
  let '(e', c) := engine_Publish (engine w) ch pub opts in
  modify (set_engine e') ;;
  record (EnginePublish ch pub opts) ;;
  ret c.

Definition call_engine_PublishControl (msg : Command.t) : M ErrChan :=
  w <- get ;;
  let '(e', c) := engine_PublishControl (engine w) msg in
  modify (set_engine e') ;;
  record (EnginePublishControl msg) ;;
  ret c.

Definition call_engine_Subscribe (ch : string) : M error :=
  w <- get ;;
  let '(e', err) := engine_Subscribe (engine w) ch in
  modify (set_engine e') ;;
  record (EngineSubscribe ch) ;;
  ret err.

Definition call_engine_Unsubscribe (ch : string) : M error :=
  w <- get ;;
  let '(e', err) := engine_Unsubscribe (engine w) ch in
  modify (set_engine e') ;;
  record (EngineUnsubscribe ch) ;;
  ret err.

Definition call_hub_AddSub (ch : string) (c : ClientRef) : M (bool * error) :=
  w <- get ;;
  let '(h', r) := hub_AddSub (hub w) ch c in
  modify (set_hub h') ;;
  record (HubAddSub ch c) ;;
  ret r.

Definition call_hub_RemoveSub (ch : string) (c : ClientRef) : M (bool * error) :=
  w <- get ;;
  let '(h', r) := hub_RemoveSub (hub w) ch c in
  modify (set_hub h') ;;
  record (HubRemoveSub ch c) ;;
  ret r.

Definition call_hub_UserConnections (user : string) : M (list ClientRef) :=
  w <- get ;;
  ret (hub_UserConnections (hub w) user).

Definition call_hub_Shutdown : M error :=
  w <- get ;;
  let '(h', closed, err) := hub_Shutdown (hub w) in
  modify (set_hub h') ;;
  record HubShutdown ;;
  modify (fun w => set_calls (calls w ++ map (fun ca => ClientClose ca.1 ca.2) closed) w) ;;
  ret err.

Definition call_client_Channels (c : ClientRef) : M (list string) :=
  w <- get ;;
  ret (client_Channels (objects w c)).

Definition call_client_Unsubscribe (c : ClientRef) (channel : string) : M error :=
  w <- get ;;
  let '(o', err) := client_Unsubscribe (objects w c) channel in
  modify (set_objects (fun c' => if String.eqb c c' then o' else objects w c')) ;;
  record (ClientUnsubscribe c channel) ;;
  ret err.

Definition call_nodes_add (node : ControlNode.t) : M unit :=
  w <- get ;;
  modify (set_nodes (registry_add (nodes w) node)) ;;
  record (RegistryAdd node).

Definition call_nuid_Next : M string :=
  w <- get ;;
  let '(s, g') := nuid_Next (nuid w) in
  modify (set_nuid g') ;;
  ret s.

Definition go (g : Goroutine) : M unit :=
  modify (fun w => set_goroutines (goroutines w ++ [g]) w).

(** [close(n.shutdownCh)]: closing a closed channel panics. *)
Definition close_shutdownCh : M unit :=
  w <- get ;;
  match shutdownCh w with
  | ChanOpen => modify (set_shutdownCh ChanClosed) ;; record CloseShutdownCh
  | ChanClosed => lift (Throw CloseOfClosedChannel)
  end.

(** [Shutdown] sets shutdown flag and does various clean ups. *)
Definition Shutdown : M error :=
  w <- get ;;
  if shutdown w then ret None
  else
    modify (set_shutdown true) ;;
    close_shutdownCh ;;
    call_hub_Shutdown.

(** [namespaceName] returns namespace name from channel if exists.
    [parts[0]] panics when [SplitN] answers an empty slice. *)
Definition namespaceName (c : Config.t) (ch : string) : Res string :=
  let cTrim := GoStrings.TrimPrefix ch (Config.PrivateChannelPrefix c) in
  if GoStrings.Contains cTrim (Config.NamespaceChannelBoundary c) then
    let parts := GoStrings.SplitN cTrim (Config.NamespaceChannelBoundary c) 2 in
    match parts with
    | p0 :: _ => Ret p0
    | [] => Throw IndexOutOfRange
    end
  else Ret EmptyString.

(** [ChannelOpts] returns channel options for channel using current
    channel config. *)
Definition ChannelOpts (ch : string) : M (Options.t * bool) :=
  w <- get ;;
  ns <- lift (namespaceName (config w) ch) ;;
  ret (Config.channelOpts (config w) ns).

(** [PrivateChannel]. *)
Definition PrivateChannel (ch : string) : M bool :=
  w <- get ;;
  ret (GoStrings.HasPrefix ch (Config.PrivateChannelPrefix (config w))).

(** [nodeCmd] handles ping control command. *)
Definition nodeCmd (node : ControlNode.t) : M error :=
  call_nodes_add node ;;
  ret None.

(** The inner loop of [unsubscribeUser]: [for _, channel := range channels]. *)
Fixpoint unsubscribe_channels (c : ClientRef) (channels : list string) : M error :=
  match channels with
  | [] => ret None
  | channel :: rest =>
      err <- call_client_Unsubscribe c channel ;;
      match err with
      | Some e => ret (Some e)
      | None => unsubscribe_channels c rest
      end
  end.

(** The outer loop: [for _, c := range userConnections]. *)
Fixpoint unsubscribe_connections (userConnections : list ClientRef) (ch : string)
    : M error :=
  match userConnections with
  | [] => ret None
  | c :: rest =>
      channels <- (if String.eqb ch "" then call_client_Channels c else ret [ch]) ;;
      err <- unsubscribe_channels c channels ;;
      match err with
      | Some e => ret (Some e)
      | None => unsubscribe_connections rest ch
      end
  end.

(** [unsubscribeUser] unsubscribes user from channel on this node. *)
Definition unsubscribeUser (user ch : string) : M error :=
  userConnections <- call_hub_UserConnections user ;;
  unsubscribe_connections userConnections ch.

(** [disconnectUser] closes client connections of user on current node:
    one goroutine per connection, none of them awaited. *)
Fixpoint disconnect_connections (userConnections : list ClientRef)
    (advice : Disconnect.t) : M unit :=
  match userConnections with
  | [] => ret tt
  | c :: rest => go (GoClose c advice) ;; disconnect_connections rest advice
  end.

Definition disconnectUser (user : string) (reconnect : bool) : M error :=
  userConnections <- call_hub_UserConnections user ;;
  let advice := {| Disconnect.Reason := "disconnect"; Disconnect.Reconnect := reconnect |} in
  disconnect_connections userConnections advice ;;
  ret None.

(** [HandleControl] handles messages from control channel. *)
Definition HandleControl (cmd : Command.t) : M error :=
  Counters_Inc "node_num_control_received" ;;
  w <- get ;;
  if String.eqb (Command.UID cmd) (uid w) then ret None
  else
    let method := Command.Method cmd in
    let params := Command.Params cmd in
    if String.eqb method "node" then
      match DecodeNode params with
      | DecodedErr err =>
          logger_Printf ERROR "error decoding node control params: %v" [ArgError err] ;;
          ret (Some ErrBadRequest)
      | DecodedOk cmd => nodeCmd cmd
      end
    else if String.eqb method "unsubscribe" then
      match DecodeUnsubscribe params with
      | DecodedErr err =>
          logger_Printf ERROR "error decoding unsubscribe control params: %v" [ArgError err] ;;
          ret (Some ErrBadRequest)
      | DecodedOk cmd =>
          unsubscribeUser (ControlUnsubscribe.User cmd) (ControlUnsubscribe.Channel cmd)
      end
    else if String.eqb method "disconnect" then
      match DecodeDisconnect params with
      | DecodedErr err =>
          logger_Printf ERROR "error decoding disconnect control params: %v" [ArgError err] ;;
          ret (Some ErrBadRequest)
      | DecodedOk cmd => disconnectUser (ControlDisconnect.User cmd) false
      end
    else
      logger_Printf ERROR "unknown control message method: %s" [ArgString method] ;;
      ret (Some ErrBadRequest).

(** [Publish], from the counter increment on (the part after the
    resolution of the options). *)
Definition publish_resolved (ch : string) (pub : Publication.t) (opts : Options.t)
    : M (Publication.t * ErrChan) :=
  Counters_Inc "node_num_publication_sent" ;;
  pub <- (if String.eqb (Publication.UID pub) ""
          then u <- call_nuid_Next ;; ret (Publication.with_UID u pub)
          else ret pub) ;;
  c <- call_engine_Publish ch pub opts ;;
  ret (pub, c).

(** [Publish] sends a message to all clients subscribed on channel.  The
    publication is passed by pointer: the answer carries it as the caller
    finds it afterwards, next to the returned channel. *)
Definition Publish (ch : string) (pub : Publication.t) (opts : option Options.t)
    : M (Publication.t * ErrChan) :=
  match opts with
  | None =>
      r <- ChannelOpts ch ;;
      let '(chOpts, ok) := r in
      if negb ok then ret (pub, makeErrChan (Some ErrNamespaceNotFound))
      else publish_resolved ch pub chOpts
  | Some opts => publish_resolved ch pub opts
  end.

(** [publishControl] publishes message into control channel. *)
Definition publishControl (msg : Command.t) : M ErrChan :=
  Counters_Inc "node_num_control_sent" ;;
  call_engine_PublishControl msg.

(** [pubUnsubscribe] publishes unsubscribe control message to all nodes.
    The payload is built from [user] alone; [Channel] keeps Go's zero value. *)
Definition pubUnsubscribe (user ch : string) : M error :=
  let unsubscribe :=
    {| ControlUnsubscribe.User := user; ControlUnsubscribe.Channel := "" |} in
  let params := (EncodeUnsubscribe unsubscribe).1 in
  w <- get ;;
  let cmd := {| Command.UID := uid w; Command.Method := "unsubscribe";
                Command.Params := params |} in
  c <- publishControl cmd ;;
  ret (recv c).

(** [pubDisconnect] publishes disconnect control message to all nodes. *)
Definition pubDisconnect (user : string) (reconnect : bool) : M error :=
  let disconnect := {| ControlDisconnect.User := user |} in
  let params := (EncodeDisconnect disconnect).1 in
  w <- get ;;
  let cmd := {| Command.UID := uid w; Command.Method := "unsubscribe";
                Command.Params := params |} in
  c <- publishControl cmd ;;
  ret (recv c).

(** [AddSubscription] registers subscription of connection on channel in
    both engine and the hub. *)
Definition AddSubscription (ch : string) (c : ClientRef) : M error :=
  Counters_Inc "node_num_add_client_sub" ;;
  r <- call_hub_AddSub ch c ;;
  let '(first, err) := r in
  match err with
  | Some e => ret (Some e)
  | None => if first then call_engine_Subscribe ch else ret None
  end.

(** [RemoveSubscription] removes subscription of connection on channel
    from both engine and the hub. *)
Definition RemoveSubscription (ch : string) (c : ClientRef) : M error :=
  Counters_Inc "node_num_remove_client_sub" ;;
  r <- call_hub_RemoveSub ch c ;;
  let '(empty, err) := r in
  match err with
  | Some e => ret (Some e)
  | None => if empty then call_engine_Unsubscribe ch else ret None
  end.

(** [Unsubscribe] unsubscribes user from channel, if channel is equal to
    empty string then user will be unsubscribed from all channels. *)
Definition Unsubscribe (user ch : string) : M error :=
  if String.eqb user "" then ret (Some ErrBadRequest)
  else
    ok <- (if negb (String.eqb ch "")
           then r <- ChannelOpts ch ;; ret r.2
           else ret true) ;;
    if negb ok then ret (Some ErrNamespaceNotFound)
    else
      err <- unsubscribeUser user ch ;;
      match err with
      | Some _ => ret (Some ErrInternalServerError)
      | None =>
          err <- pubUnsubscribe user ch ;;
          match err with
          | Some _ => ret (Some ErrInternalServerError)
          | None => ret None
          end
      end.

(** [Disconnect] allows to close all user connections to Centrifugo. *)
Definition Disconnect (user : string) (reconnect : bool) : M error :=
  if String.eqb user "" then ret (Some ErrBadRequest)
  else
    err <- disconnectUser user reconnect ;;
    match err with
    | Some _ => ret (Some ErrInternalServerError)
    | None =>
        err <- pubDisconnect user reconnect ;;
        match err with
        | Some _ => ret (Some ErrInternalServerError)
        | None => ret None
        end
    end.

End Node.

(** ** Sequences of calls *)

Section Runs.

Context {H E R C G : Type}.
Context `{!Hub H, !Engine E, !Registry R, !Client C, !Nuid G, !ControlCodec}.

Local Abbreviation World := (World H E R C G).

(** [n] invocations of [Shutdown] in a row, with what each one returned. *)
Fixpoint Shutdown_times (n : nat) (w : World) : Res (list error * World) :=
  match n with
  | O => Ret ([], w)
  | S n' =>
      match Shutdown w with
      | Ret (e, w') =>
          match Shutdown_times n' w' with
          | Ret (es, w'') => Ret (e :: es, w'')
          | Throw p => Throw p
          end
      | Throw p => Throw p
      end
  end.

(** A sequence of subscription operations on one node. *)
Inductive SubOp :=
| OpAdd (ch : string) (c : ClientRef)
| OpRemove (ch : string) (c : ClientRef).

Definition run_op (o : SubOp) : M H E R C G error :=
  match o with
  | OpAdd ch c => AddSubscription ch c
  | OpRemove ch c => RemoveSubscription ch c
  end.

Fixpoint run_ops (ops : list SubOp) (w : World) : Res World :=
  match ops with
  | [] => Ret w
  | o :: rest =>
      match run_op o w with
      | Ret (_, w') => run_ops rest w'
      | Throw p => Throw p
      end
  end.

(** The number of steps of the run at which the local subscriber count of
    [ch] goes from 0 to at least 1, and from at least 1 to 0. *)
Definition goes_up (ch : string) (before after : H) : bool :=
  (hub_NumSubscribers before ch =? 0) && (1 <=? hub_NumSubscribers after ch).

Definition goes_down (ch : string) (before after : H) : bool :=
  (1 <=? hub_NumSubscribers before ch) && (hub_NumSubscribers after ch =? 0).

Fixpoint transitions (step : string -> H -> H -> bool) (ch : string)
    (ops : list SubOp) (w : World) : nat :=
  match ops with
  | [] => 0%nat
  | o :: rest =>
      match run_op o w with
      | Ret (_, w') =>
          ((if step ch (hub w) (hub w') then 1 else 0) + transitions step ch rest w')%nat
      | Throw _ => 0%nat
      end
  end.

(** What the node relies on from a hub: [AddSub] and [RemoveSub] touch the
    subscriber count of their own channel only, leave it alone when they
    fail, report [first] exactly when the count was 0 before a successful
    add, and report [empty] exactly when a successful remove brought a
    positive count to 0. *)
Record HubContract : Prop := {
  num_nonneg : forall h ch, 0 <= hub_NumSubscribers h ch;
  add_other : forall h ch c ch', ch' <> ch ->
    hub_NumSubscribers (hub_AddSub h ch c).1 ch' = hub_NumSubscribers h ch';
  add_failed : forall h ch c e, (hub_AddSub h ch c).2.2 = Some e ->
    hub_NumSubscribers (hub_AddSub h ch c).1 ch = hub_NumSubscribers h ch;
  add_done : forall h ch c, (hub_AddSub h ch c).2.2 = None ->
    1 <= hub_NumSubscribers (hub_AddSub h ch c).1 ch /\
    ((hub_AddSub h ch c).2.1 = true <-> hub_NumSubscribers h ch = 0);
  remove_other : forall h ch c ch', ch' <> ch ->
    hub_NumSubscribers (hub_RemoveSub h ch c).1 ch' = hub_NumSubscribers h ch';
  remove_failed : forall h ch c e, (hub_RemoveSub h ch c).2.2 = Some e ->
    hub_NumSubscribers (hub_RemoveSub h ch c).1 ch = hub_NumSubscribers h ch;
  remove_done : forall h ch c, (hub_RemoveSub h ch c).2.2 = None ->
    hub_NumSubscribers (hub_RemoveSub h ch c).1 ch <= hub_NumSubscribers h ch /\
    ((hub_RemoveSub h ch c).2.1 = true <->
     1 <= hub_NumSubscribers h ch /\ hub_NumSubscribers (hub_RemoveSub h ch c).1 ch = 0)
}.

(** The channels a connection is asked to leave: all of its own when [ch]
    is empty, [ch] otherwise. *)
Definition channels_to_leave (ch : string) (o : C) : list string :=
  if String.eqb ch "" then client_Channels o else [ch].

Definition on_clients (cs : list ClientRef) (c : Call) : Prop :=
  exists c' ch', c = ClientUnsubscribe c' ch' /\ In c' cs.

(** An [Unsubscribe] call, from the connection and the channel. *)
Definition unsubscribe_call (a : ClientRef * string) : Call :=
  ClientUnsubscribe a.1 a.2.

(** The calls [l] made one after the other on the connection objects
    [objs]: each of them is answered nil, except that the last one may be
    answered an error; [r] is that error, and nil when every call is
    answered nil.  [objs'] are the connection objects after the calls. *)
Inductive asked_in_turn
    : (ClientRef -> C) -> list (ClientRef * string) -> error -> (ClientRef -> C) -> Prop :=
| asked_none (objs : ClientRef -> C) : asked_in_turn objs [] None objs
| asked_last (objs : ClientRef -> C) (c : ClientRef) (x : string) (o' : C) (e : Error) :
    client_Unsubscribe (objs c) x = (o', Some e) ->
    asked_in_turn objs [(c, x)] (Some e)
      (fun c' => if String.eqb c c' then o' else objs c')
| asked_next (objs : ClientRef -> C) (c : ClientRef) (x : string) (o' : C)
    (l : list (ClientRef * string)) (r : error) (objs' : ClientRef -> C) :
    client_Unsubscribe (objs c) x = (o', None) ->
    asked_in_turn (fun c' => if String.eqb c c' then o' else objs c') l r objs' ->
    asked_in_turn objs ((c, x) :: l) r objs'.

(** The calls that it takes to unsubscribe the connections [cs] when none
    is refused: on each connection in turn, one for each channel that the
    connection is asked to leave. *)
Definition calls_to_leave (ch : string) (objs : ClientRef -> C) (cs : list ClientRef)
    : list (ClientRef * string) :=
  flat_map (fun c => map (pair c) (channels_to_leave ch (objs c))) cs.

(** [w'] differs from [w] by [Unsubscribe] calls on the connections [cs]
    at most: every other field of the world is the same, the calls added
    are such calls, and the other connection objects are as they were. *)
Definition client_frame (cs : list ClientRef) (w w' : World) : Prop :=
  w' = set_calls (calls w') (set_objects (objects w') w) /\
  (exists l, calls w' = calls w ++ l /\ Forall (on_clients cs) l) /\
  (forall c', ~ In c' cs -> objects w' c' = objects w c').

(** The advice of [disconnectUser]. *)
Definition disconnect_advice (reconnect : bool) : Disconnect.t :=
  {| Disconnect.Reason := "disconnect"; Disconnect.Reconnect := reconnect |}.

End Runs.

(** ** A hub, from its description *)

Module SpecHub.

(** Modelled from the spec: the Hub (hub.go is not under src/), section
    4.2: [clients] maps a client id to its user, [subs] a channel to the
    set of its subscribers' ids, [users] a user to the set of its
    connections' ids.  A channel with no subscriber has no entry. *)
Record t := {
  clients : gmap string string;
  subs : gmap string (gset string);
  users : gmap string (gset string)
}.

Definition empty : t := {| clients := ∅; subs := ∅; users := ∅ |}.

Definition subscribers (h : t) (ch : string) : gset string :=
  default ∅ (subs h !! ch).

Definition num_subscribers (h : t) (ch : string) : Z :=
  Z.of_nat (size (subscribers h ch)).

(** Modelled from the spec: [add(client)] fails with [AlreadyExists] if
    another client shares the id. *)
Definition add (h : t) (c : ClientRef) (user : string) : t * error :=
  match clients h !! c with
  | Some _ => (h, Some ErrAlreadyExists)
  | None =>
      ({| clients := <[c := user]> (clients h);
          subs := subs h;
          users := <[user := {[c]} ∪ default ∅ (users h !! user)]> (users h) |}, None)
  end.

(** Modelled from the spec: [add_sub] registers the subscription;
    [first_subscriber] is true iff the channel set went from empty to
    non-empty. *)
Definition add_sub (h : t) (ch : string) (c : ClientRef) : t * (bool * error) :=
  let old := subscribers h ch in
  ({| clients := clients h; subs := <[ch := {[c]} ∪ old]> (subs h); users := users h |},
   (bool_decide (old = ∅), None)).

(** Modelled from the spec: [remove_sub] unregisters; [channel_empty] is
    true iff the channel set went to empty and was removed. *)
Definition remove_sub (h : t) (ch : string) (c : ClientRef) : t * (bool * error) :=
  let old := subscribers h ch in
  let new := old ∖ {[c]} in
  if bool_decide (new = ∅) then
    ({| clients := clients h; subs := delete ch (subs h); users := users h |},
     (negb (bool_decide (old = ∅)), None))
  else
    ({| clients := clients h; subs := <[ch := new]> (subs h); users := users h |},
     (false, None)).

Definition user_connections (h : t) (user : string) : list ClientRef :=
  elements (default ∅ (users h !! user)).

Definition shutdown_advice : Disconnect.t :=
  {| Disconnect.Reason := "shutdown"; Disconnect.Reconnect := true |}.

(** Modelled from the spec: [shutdown] closes every client with a
    shutdown advice and empties all indices. *)
Definition shutdown (h : t) : t * list (ClientRef * Disconnect.t) * error :=
  (empty, map (fun c => (c, shutdown_advice)) (elements (dom (clients h))), None).

#[global] Instance hub : Hub t := {|
  hub_AddSub := add_sub;
  hub_RemoveSub := remove_sub;
  hub_NumSubscribers := num_subscribers;
  hub_UserConnections := user_connections;
  hub_Shutdown := shutdown
|}.

End SpecHub.

(** ** Stand-ins for the other collaborators, to run the node on *)

Module Sample.

(** An engine that answers every call with what it was set up to answer. *)
Record engine := {
  publish_answer : error;
  control_answer : error;
  subscribe_answer : error;
  unsubscribe_answer : error
}.

Definition quiet : engine :=
  {| publish_answer := None; control_answer := None;
     subscribe_answer := None; unsubscribe_answer := None |}.

Definition control_down : engine :=
  {| publish_answer := None; control_answer := Some (ErrOther "control channel down");
     subscribe_answer := None; unsubscribe_answer := None |}.

#[global] Instance engine_Engine : Engine engine := {|
  engine_Publish := fun e _ _ _ => (e, chan_of (publish_answer e));
  engine_PublishControl := fun e _ => (e, chan_of (control_answer e));
  engine_Subscribe := fun e _ => (e, subscribe_answer e);
  engine_Unsubscribe := fun e _ => (e, unsubscribe_answer e)
|}.

(** A connection that knows its channels, and refuses to leave those in
    [stuck]. *)
Record conn := { channels : list string; stuck : list string }.

Definition mem (x : string) (l : list string) : bool := existsb (String.eqb x) l.

Definition leave (o : conn) (ch : string) : conn * error :=
  if mem ch (stuck o) then (o, Some (ErrOther "unsubscribe failed"))
  else ({| channels := List.filter (fun x => negb (String.eqb x ch)) (channels o);
           stuck := stuck o |}, None).

#[global] Instance conn_Client : Client conn := {|
  client_Channels := channels;
  client_Unsubscribe := leave
|}.

Definition idle : conn := {| channels := []; stuck := [] |}.

(** A registry that keeps the last information heard from each node. *)
#[global] Instance registry_Registry : Registry (gmap string ControlNode.t) := {|
  registry_add := fun r n => <[ControlNode.UID n := n]> r
|}.

(** A generator of identifiers numbered from its state on. *)
Definition digit (n : nat) : ascii := ascii_of_nat (48 + n mod 10).

#[global] Instance nat_Nuid : Nuid nat := {|
  nuid_Next := fun g => (String "N" (String (digit (g / 10)) (String (digit g) "")), S g)
|}.

(** A codec that writes the text fields of a payload on lines of their own. *)
Definition nl : string := String (ascii_of_nat 10) "".

Definition encode_node (n : ControlNode.t) : string * error :=
  (ControlNode.UID n +:+ nl +:+ ControlNode.Name n +:+ nl +:+ ControlNode.Version n, None).

Definition decode_node (s : string) : Decoded ControlNode.t :=
  match GoStrings.SplitN s nl 3 with
  | [u; n; v] =>
      DecodedOk {| ControlNode.UID := u; ControlNode.Name := n; ControlNode.Version := v;
                   ControlNode.StartedAt := 0; ControlNode.MetricsUpdateInterval := 0;
                   ControlNode.Metrics := ∅ |}
  | _ => DecodedErr (ErrOther "malformed node")
  end.

Definition encode_unsubscribe (u : ControlUnsubscribe.t) : string * error :=
  (ControlUnsubscribe.User u +:+ nl +:+ ControlUnsubscribe.Channel u, None).

Definition decode_unsubscribe (s : string) : Decoded ControlUnsubscribe.t :=
  match GoStrings.SplitN s nl 2 with
  | [u; c] => DecodedOk {| ControlUnsubscribe.User := u; ControlUnsubscribe.Channel := c |}
  | _ => DecodedErr (ErrOther "malformed unsubscribe")
  end.

#[global] Instance codec : ControlCodec := {|
  EncodeNode := encode_node;
  EncodeUnsubscribe := encode_unsubscribe;
  EncodeDisconnect := fun d => (ControlDisconnect.User d, None);
  DecodeNode := decode_node;
  DecodeUnsubscribe := decode_unsubscribe;
  DecodeDisconnect := fun s => DecodedOk {| ControlDisconnect.User := s |}
|}.

(** A configuration with the usual separators and one namespace, "chat". *)
Definition plain : Options.t :=
  {| Options.Presence := false; Options.JoinLeave := false;
     Options.HistorySize := 0; Options.HistoryLifetime := 0 |}.

Definition cfg : Config.t :=
  {| Config.Name := "sample";
     Config.PrivateChannelPrefix := "$";
     Config.NamespaceChannelBoundary := ":";
     Config.channelOpts := fun ns =>
       if String.eqb ns "" || String.eqb ns "chat" then (plain, true) else (plain, false) |}.

(** The same configuration with an empty namespace boundary. *)
Definition cfg_no_boundary : Config.t :=
  {| Config.Name := "sample";
     Config.PrivateChannelPrefix := "$";
     Config.NamespaceChannelBoundary := "";
     Config.channelOpts := Config.channelOpts cfg |}.

Abbreviation world := (World SpecHub.t engine (gmap string ControlNode.t) conn nat).

(** Two nodes.  On each, user "u" has one connection, subscribed to "room"
    and "other". *)
Definition in_rooms : conn := {| channels := ["room"; "other"]; stuck := [] |}.

Definition node_with (uid0 c : string) (o : conn) (e : engine) : world :=
  New cfg "2.0" uid0 0 (SpecHub.add SpecHub.empty c "u").1 e ∅ 0%nat
      (fun r => if String.eqb r c then o else idle) ∅.

Definition n1 : world := node_with "n1" "c1" in_rooms quiet.
Definition n2 : world := node_with "n2" "c2" in_rooms quiet.

(** A node on which user "u" has three connections; the second one the
    hub lists, "c1", refuses to leave "b". *)
Definition three : SpecHub.t :=
  (SpecHub.add (SpecHub.add (SpecHub.add SpecHub.empty "c1" "u").1 "c2" "u").1 "c3" "u").1.

Definition crowd (r : ClientRef) : conn :=
  if String.eqb r "c3" then {| channels := ["a"; "b"]; stuck := [] |}
  else if String.eqb r "c1" then {| channels := ["a"; "b"; "c"]; stuck := ["b"] |}
  else if String.eqb r "c2" then in_rooms
  else idle.

Definition n3 : world := New cfg "2.0" "n3" 0 three quiet ∅ 0%nat crowd ∅.

(** The worlds that the node "n3" goes through when user "u" is
    unsubscribed from all channels: after the connection "c3", after the
    channel "a" of "c1", after the refused call for "b". *)
Definition world_of (r : Res (error * world)) (otherwise : world) : world :=
  match r with
  | Ret (_, w) => w
  | Throw _ => otherwise
  end.

Definition n3_after_c3 : world := world_of (unsubscribe_connections ["c3"] "" n3) n3.
Definition n3_after_a : world := world_of (unsubscribe_channels "c1" ["a"] n3_after_c3) n3.
Definition n3_after_b : world := world_of (call_client_Unsubscribe "c1" "b" n3_after_a) n3.



(** The commands that a run published on the control channel. *)
Definition published (w : world) : list Command.t :=
  omap (fun c => match c with EnginePublishControl cmd => Some cmd | _ => None end) (calls w).

End Sample.

(** ** Channel names that carry an allow-list *)

(** [strings.Split]: [genSplit(s, sep, 0, -1)]. *)
Definition Split (s sep : string) : list string := GoStrings.genSplit s sep 0 (-1).

(** The elements joined with [sep] between them, as [strings.Join] writes
    them; node.go does not call it, the statements about allow-lists do. *)
Fixpoint joined (elems : list string) (sep : string) : string :=
  match elems with
  | [] => ""
  | [x] => x
  | x :: rest => x +:+ sep +:+ joined rest sep
  end.

(** The further fields of [Config] that [UserAllowed] and [ClientAllowed]
    read. *)
Module Boundaries.
Record t := {
  UserChannelBoundary : string;
  UserChannelSeparator : string;
  ClientChannelBoundary : string
}.
End Boundaries.

(** [parts[len(parts)-1]]: panics on an empty slice. *)
Definition last_part (parts : list string) : Res string :=
  match last parts with
  | Some p => Ret p
  | None => Throw IndexOutOfRange
  end.

(** The loop of [UserAllowed]: [for _, allowedUser := range allowedUsers]. *)
Fixpoint user_listed (user : string) (allowedUsers : list string) : bool :=
  match allowedUsers with
  | [] => false
  | allowedUser :: rest =>
      if String.eqb user allowedUser then true else user_listed user rest
  end.

(** [UserAllowed] checks if user can subscribe on channel. *)
Definition UserAllowed (c : Boundaries.t) (ch user : string) : Res bool :=
  if negb (GoStrings.Contains ch (Boundaries.UserChannelBoundary c)) then Ret true
  else
    let parts := Split ch (Boundaries.UserChannelBoundary c) in
    match last_part parts with
    | Throw p => Throw p
    | Ret tail =>
        let allowedUsers := Split tail (Boundaries.UserChannelSeparator c) in
        Ret (user_listed user allowedUsers)
    end.

(** [ClientAllowed] checks if client can subscribe on channel. *)
Definition ClientAllowed (c : Boundaries.t) (ch client : string) : Res bool :=
  if negb (GoStrings.Contains ch (Boundaries.ClientChannelBoundary c)) then Ret true
  else
    let parts := Split ch (Boundaries.ClientChannelBoundary c) in
    match last_part parts with
    | Throw p => Throw p
    | Ret allowedClient => Ret (String.eqb client allowedClient)
    end.

(** The separators of a stock configuration: "#", "," and "&". *)
Definition stock_boundaries : Boundaries.t :=
  {| Boundaries.UserChannelBoundary := "#";
     Boundaries.UserChannelSeparator := ",";
     Boundaries.ClientChannelBoundary := "&" |}.

(** ** Control commands, classified *)

Definition decode_failed {T : Type} (d : Decoded T) : bool :=
  match d with
  | DecodedOk _ => false
  | DecodedErr _ => true
  end.

(** A command that [HandleControl] cannot act on: its method is none of
    "node", "unsubscribe" and "disconnect", or its params do not decode as
    the payload of its method. *)
Definition malformed `{!ControlCodec} (cmd : Command.t) : bool :=
  if String.eqb (Command.Method cmd) "node" then
    decode_failed (DecodeNode (Command.Params cmd))
  else if String.eqb (Command.Method cmd) "unsubscribe" then
    decode_failed (DecodeUnsubscribe (Command.Params cmd))
  else if String.eqb (Command.Method cmd) "disconnect" then
    decode_failed (DecodeDisconnect (Command.Params cmd))
  else true.

(** More stand-ins: an engine that refuses subscriptions, and the node
    "n1" on it. *)
Module Sample2.

Definition deaf : Sample.engine :=
  {| Sample.publish_answer := None; Sample.control_answer := None;
     Sample.subscribe_answer := Some (ErrOther "subscribe failed");
     Sample.unsubscribe_answer := Some (ErrOther "unsubscribe failed") |}.

Definition n1_deaf : Sample.world := Sample.node_with "n1" "c1" Sample.in_rooms deaf.

End Sample2.

(** ** Messages from the engine, joins and leaves, reads *)

(** Modelled from the spec: [proto.Join] and [proto.Leave] (lib/proto is
    not under src/); node.go passes them on without reading them. *)
Module Join.
Record t := { Info : ClientInfo.t }.
End Join.

Module Leave.
Record t := { Info : ClientInfo.t }.
End Leave.

(** [proto.Message] and the message types that [HandleClientMessage]
    tells apart; any other type falls to the [default] of its switch. *)
Inductive MessageType :=
| MessageTypePublication
| MessageTypeJoin
| MessageTypeLeave
| MessageTypeOther (code : Z).

Module Message.
Record t := { Type_ : MessageType; Channel : string; Data : string }.
End Message.

(** [proto.MessageDecoder]. *)
Class MessageDecoder := {
  DecodePublication : string -> Decoded Publication.t;
  DecodeJoin : string -> Decoded Join.t;
  DecodeLeave : string -> Decoded Leave.t
}.

(** The methods of [Hub] that the functions below call. *)
Class HubRest (H : Type) := {
  hub_NumClients : H -> Z;
  hub_NumUniqueClients : H -> Z;
  hub_NumChannels : H -> Z;
  hub_BroadcastPublication : H -> string -> Publication.t -> H * error;
  hub_BroadcastJoin : H -> string -> Join.t -> H * error;
  hub_BroadcastLeave : H -> string -> Leave.t -> H * error
}.

(** The methods of [engine.Engine] that the functions below call. *)
Class EngineRest (E : Type) := {
  engine_Run : E -> E * error;
  engine_PublishJoin : E -> string -> Join.t -> Options.t -> E * ErrChan;
  engine_PublishLeave : E -> string -> Leave.t -> Options.t -> E * ErrChan;
  engine_Presence : E -> string -> E * (gmap string ClientInfo.t * error);
  engine_History : E -> string -> Z -> E * (list Publication.t * error)
}.

Section NodeRest.

Context {H E R C G : Type}.
Context `{!Hub H, !Engine E, !Registry R, !Client C, !Nuid G, !ControlCodec}.
Context `{!HubRest H, !EngineRest E, !MessageDecoder}.

Local Open Scope node_scope.

Local Abbreviation World := (World H E R C G).
Local Abbreviation M := (M H E R C G).

(** Calls on the hub and the engine: the collaborator is stepped; these
    calls are not entered in [calls]. *)
Definition step_hub {A : Type} (f : H -> H * A) : M A :=
  w <- get ;;
  let '(h', a) := f (hub w) in
  modify (set_hub h') ;;
  ret a.

Definition step_engine {A : Type} (f : E -> E * A) : M A :=
  w <- get ;;
  let '(e', a) := f (engine w) in
  modify (set_engine e') ;;
  ret a.

(** [HandlePublication] handles messages published by web application or
    client into channel. *)
Definition HandlePublication (ch : string) (publication : Publication.t) : M error :=
  Counters_Inc "node_num_publication_received" ;;
  w <- get ;;
  let numSubscribers := hub_NumSubscribers (hub w) ch in
  let hasCurrentSubscribers := 0 <? numSubscribers in
  if negb hasCurrentSubscribers then ret None
  else step_hub (fun h => hub_BroadcastPublication h ch publication).

(** [HandleJoin] handles join messages. *)
Definition HandleJoin (ch : string) (join : Join.t) : M error :=
  Counters_Inc "node_num_join_received" ;;
  w <- get ;;
  let hasCurrentSubscribers := 0 <? hub_NumSubscribers (hub w) ch in
  if negb hasCurrentSubscribers then ret None
  else step_hub (fun h => hub_BroadcastJoin h ch join).

(** [HandleLeave] handles leave messages. *)
Definition HandleLeave (ch : string) (leave : Leave.t) : M error :=
  Counters_Inc "node_num_leave_received" ;;
  w <- get ;;
  let hasCurrentSubscribers := 0 <? hub_NumSubscribers (hub w) ch in
  if negb hasCurrentSubscribers then ret None
  else step_hub (fun h => hub_BroadcastLeave h ch leave).

(** [HandleClientMessage]: the result of the handler it calls is dropped. *)
Definition HandleClientMessage (message : Message.t) : M error :=
  match Message.Type_ message with
  | MessageTypePublication =>
      match DecodePublication (Message.Data message) with
      | DecodedErr err => ret (Some err)
      | DecodedOk publication =>
          HandlePublication (Message.Channel message) publication ;;
          ret None
      end
  | MessageTypeJoin =>
      match DecodeJoin (Message.Data message) with
      | DecodedErr err => ret (Some err)
      | DecodedOk join =>
          HandleJoin (Message.Channel message) join ;;
          ret None
      end
  | MessageTypeLeave =>
      match DecodeLeave (Message.Data message) with
      | DecodedErr err => ret (Some err)
      | DecodedOk leave =>
          HandleLeave (Message.Channel message) leave ;;
          ret None
      end
  | MessageTypeOther _ => ret None
  end.

(** [PublishJoin] allows to publish join message into channel. *)
Definition PublishJoin (ch : string) (join : Join.t) (opts : option Options.t)
    : M ErrChan :=
  let publish (opts : Options.t) : M ErrChan :=
    Counters_Inc "node_num_join_sent" ;;
    step_engine (fun e => engine_PublishJoin e ch join opts) in
  match opts with
  | None =>
      r <- ChannelOpts ch ;;
      let '(chOpts, ok) := r in
      if negb ok then ret (makeErrChan (Some ErrNamespaceNotFound))
      else publish chOpts
  | Some opts => publish opts
  end.

(** [PublishLeave] allows to publish leave message into channel. *)
Definition PublishLeave (ch : string) (leave : Leave.t) (opts : option Options.t)
    : M ErrChan :=
  let publish (opts : Options.t) : M ErrChan :=
    Counters_Inc "node_num_leave_sent" ;;
    step_engine (fun e => engine_PublishLeave e ch leave opts) in
  match opts with
  | None =>
      r <- ChannelOpts ch ;;
      let '(chOpts, ok) := r in
      if negb ok then ret (makeErrChan (Some ErrNamespaceNotFound))
      else publish chOpts
  | Some opts => publish opts
  end.

(** [Presence] returns a map with information about active clients in
    channel; a nil map is the empty one. *)
Definition Presence (ch : string) : M (gmap string ClientInfo.t * error) :=
  Counters_Inc "node_num_presence" ;;
  r <- step_engine (fun e => engine_Presence e ch) ;;
  let '(presence, err) := r in
  match err with
  | Some e =>
      logger_Printf ERROR "error getting presence: %v" [ArgError e] ;;
      ret (∅, Some ErrInternalServerError)
  | None => ret (presence, None)
  end.

(** [History] returns a slice of last messages published into channel. *)
Definition History (ch : string) : M (list Publication.t * error) :=
  Counters_Inc "node_num_history" ;;
  r <- step_engine (fun e => engine_History e ch 0) ;;
  let '(publications, err) := r in
  match err with
  | Some e => ret ([], Some e)
  | None => ret (publications, None)
  end.

(** [LastMessageID] return last message id for channel. *)
Definition LastMessageID (ch : string) : M (string * error) :=
  Counters_Inc "node_num_last_message_id" ;;
  r <- step_engine (fun e => engine_History e ch 1) ;;
  let '(publications, err) := r in
  match err with
  | Some e => ret ("", Some e)
  | None =>
      match publications with
      | [] => ret ("", None)
      | p0 :: _ => ret (Publication.UID p0, None)
      end
  end.

(** The error of the decoder for the payload of a message, if any. *)
Definition undecodable (message : Message.t) : error :=
  match Message.Type_ message with
  | MessageTypePublication =>
      match DecodePublication (Message.Data message) with
      | DecodedErr err => Some err
      | DecodedOk _ => None
      end
  | MessageTypeJoin =>
      match DecodeJoin (Message.Data message) with
      | DecodedErr err => Some err
      | DecodedOk _ => None
      end
  | MessageTypeLeave =>
      match DecodeLeave (Message.Data message) with
      | DecodedErr err => Some err
      | DecodedOk _ => None
      end
  | MessageTypeOther _ => None
  end.

End NodeRest.

(** ** Node information on the control channel *)

(** What [metricsRegistry] holds beyond the totals of the counters: the
    interval values of the counters and the histograms (lib/metrics is not
    under src/).  [Counters_UpdateDelta] is given the totals. *)
Class MetricsRest (MR : Type) := {
  Counters_UpdateDelta : MR -> gmap string Z -> MR;
  Counters_LoadIntervalValues : MR -> gmap string Z;
  HDRHistograms_LoadValues : MR -> gmap string Z;
  HDRHistograms_Rotate : MR -> MR
}.

(** The loops that [Run] starts as goroutines. *)
Inductive Loop := sendNodePingMsg | cleanNodeInfo | updateMetrics.

(** The metrics fields of the [Node] struct ([metricsSnapshot] and
    [metricsOnce], a [sync.Once] that is [true] once its [Do] has run), the
    gauges and the rest of [metricsRegistry], and the loops started. *)
Module Gossip.
Record t (MR : Type) := {
  metricsSnapshot : gmap string Z;
  metricsOnce : bool;
  Gauges : gmap string Z;
  rest : MR;
  loops : list Loop
}.
Arguments metricsSnapshot {MR} _.
Arguments metricsOnce {MR} _.
Arguments Gauges {MR} _.
Arguments rest {MR} _.
Arguments loops {MR} _.
End Gossip.

(** What the runtime answers when it is asked: [runtime.MemStats],
    [cpuUsage] (nothing when it fails), [runtime.NumGoroutine],
    [time.Now().Unix()], and the configured metrics interval in seconds,
    [uint64(n.config.NodeMetricsInterval.Seconds())]. *)
Module Readings.
Record t := {
  Sys : Z;
  HeapSys : Z;
  HeapAlloc : Z;
  StackInuse : Z;
  cpuUsage : option Z;
  NumGoroutine : Z;
  Now : Z;
  MetricsUpdateInterval : Z
}.
End Readings.

Section GossipModel.

Context {H E R C G MR : Type}.
Context `{!Hub H, !Engine E, !Registry R, !Client C, !Nuid G, !ControlCodec}.
Context `{!HubRest H, !EngineRest E, !MetricsRest MR}.

Local Open Scope node_scope.

Local Abbreviation World := (World H E R C G).
Local Abbreviation M := (M H E R C G).

(** Modelled from the spec: [metricsRegistry.Gauges.Set] (lib/metrics is
    not under src/): the gauge takes the value. *)
Definition Gauges_Set (name : string) (v : Z) (g : Gossip.t MR) : Gossip.t MR :=
  {| Gossip.metricsSnapshot := Gossip.metricsSnapshot g;
     Gossip.metricsOnce := Gossip.metricsOnce g;
     Gossip.Gauges := <[name := v]> (Gossip.Gauges g);
     Gossip.rest := Gossip.rest g;
     Gossip.loops := Gossip.loops g |}.


(** [logger.X.Println(err)]: a line without format. *)
Definition logger_Println (l : LogLevel) (a : list LogArg) : M unit :=
  logger_Printf l "" a.

(** The function that [pubNode] hands to [metricsOnce.Do]. *)
Definition share_metrics (rd : Readings.t) (w : World) (g : Gossip.t MR)
    : gmap string Z * Gossip.t MR :=
  let g := Gauges_Set "node_num_clients" (hub_NumClients (hub w)) g in
  let g := Gauges_Set "node_num_unique_clients" (hub_NumUniqueClients (hub w)) g in
  let g := Gauges_Set "node_num_channels" (hub_NumChannels (hub w)) g in
  let g := Gauges_Set "node_num_goroutine" (Readings.NumGoroutine rd) g in
  let g := Gauges_Set "node_uptime_seconds" (Readings.Now rd - startedAt w) g in
  (Gossip.metricsSnapshot g, g).

(** [pubNode] sends control message to all nodes - this message contains
    information about current node. *)
Definition pubNode (rd : Readings.t) (g : Gossip.t MR) : M (error * Gossip.t MR) :=
  w <- get ;;
  let node := {| ControlNode.UID := uid w;
                 ControlNode.Name := Config.Name (config w);
                 ControlNode.Version := version w;
                 ControlNode.StartedAt := startedAt w;
                 ControlNode.MetricsUpdateInterval := Readings.MetricsUpdateInterval rd;
                 ControlNode.Metrics := ∅ |} in
  let '(node, g) :=
    if Gossip.metricsOnce g then (node, g)
    else
      let '(metricsSnapshot, g) := share_metrics rd w g in
      ({| ControlNode.UID := ControlNode.UID node;
          ControlNode.Name := ControlNode.Name node;
          ControlNode.Version := ControlNode.Version node;
          ControlNode.StartedAt := ControlNode.StartedAt node;
          ControlNode.MetricsUpdateInterval := ControlNode.MetricsUpdateInterval node;
          ControlNode.Metrics := metricsSnapshot |},
       {| Gossip.metricsSnapshot := Gossip.metricsSnapshot g;
          Gossip.metricsOnce := true;
          Gossip.Gauges := Gossip.Gauges g;
          Gossip.rest := Gossip.rest g;
          Gossip.loops := Gossip.loops g |}) in
  let params := (EncodeNode node).1 in
  let cmd := {| Command.UID := uid w; Command.Method := "node";
                Command.Params := params |} in
  err <- nodeCmd node ;;
  match err with
  | Some e => logger_Println ERROR [ArgError e]
  | None => ret tt
  end ;;
  c <- publishControl cmd ;;
  ret (recv c, g).


(** [Run] performs all startup actions. *)
Definition Run (e : E) (rd : Readings.t) (g : Gossip.t MR) : M (error * Gossip.t MR) :=
  modify (set_engine e) ;;
  err <- step_engine engine_Run ;;
  match err with
  | Some err => ret (Some err, g)
  | None =>
      r <- pubNode rd g ;;
      let '(err, g) := r in
      match err with
      | Some err => logger_Println CRITICAL [ArgError err]
      | None => ret tt
      end ;;
      ret (None,
           {| Gossip.metricsSnapshot := Gossip.metricsSnapshot g;
              Gossip.metricsOnce := Gossip.metricsOnce g;
              Gossip.Gauges := Gossip.Gauges g;
              Gossip.rest := Gossip.rest g;
              Gossip.loops := Gossip.loops g
                                ++ [sendNodePingMsg; cleanNodeInfo; updateMetrics] |})
  end.


End GossipModel.



(** ** Stand-ins for the rest of the collaborators *)

Module Sample3.

(** A hub that counts from the indices of [SpecHub] and answers every
    broadcast with what it was set up to answer. *)
Record hub := { indices : SpecHub.t; broadcast_answer : error }.

Definition on_indices {A : Type} (f : SpecHub.t -> SpecHub.t * A) (h : hub) : hub * A :=
  ({| indices := (f (indices h)).1; broadcast_answer := broadcast_answer h |},
   (f (indices h)).2).

#[global] Instance hub_Hub : Hub hub := {|
  hub_AddSub := fun h ch c => on_indices (fun i => SpecHub.add_sub i ch c) h;
  hub_RemoveSub := fun h ch c => on_indices (fun i => SpecHub.remove_sub i ch c) h;
  hub_NumSubscribers := fun h ch => SpecHub.num_subscribers (indices h) ch;
  hub_UserConnections := fun h user => SpecHub.user_connections (indices h) user;
  hub_Shutdown := fun h =>
    ({| indices := (SpecHub.shutdown (indices h)).1.1;
        broadcast_answer := broadcast_answer h |},
     (SpecHub.shutdown (indices h)).1.2, (SpecHub.shutdown (indices h)).2)
|}.

#[global] Instance hub_HubRest : HubRest hub := {|
  hub_NumClients := fun h => Z.of_nat (size (SpecHub.clients (indices h)));
  hub_NumUniqueClients := fun h => Z.of_nat (size (SpecHub.users (indices h)));
  hub_NumChannels := fun h => Z.of_nat (size (SpecHub.subs (indices h)));
  hub_BroadcastPublication := fun h _ _ => (h, broadcast_answer h);
  hub_BroadcastJoin := fun h _ _ => (h, broadcast_answer h);
  hub_BroadcastLeave := fun h _ _ => (h, broadcast_answer h)
|}.

(** An engine with a history, which answers reads and [Run] with what it
    was set up to answer. *)
Record store := {
  answers : Sample.engine;
  run_answer : error;
  read_answer : error;
  kept : list Publication.t
}.

#[global] Instance store_Engine : Engine store := {|
  engine_Publish := fun s _ _ _ => (s, chan_of (Sample.publish_answer (answers s)));
  engine_PublishControl := fun s _ => (s, chan_of (Sample.control_answer (answers s)));
  engine_Subscribe := fun s _ => (s, Sample.subscribe_answer (answers s));
  engine_Unsubscribe := fun s _ => (s, Sample.unsubscribe_answer (answers s))
|}.

#[global] Instance store_EngineRest : EngineRest store := {|
  engine_Run := fun s => (s, run_answer s);
  engine_PublishJoin := fun s _ _ _ => (s, chan_of (Sample.publish_answer (answers s)));
  engine_PublishLeave := fun s _ _ _ => (s, chan_of (Sample.publish_answer (answers s)));
  engine_Presence := fun s _ => (s, (∅, read_answer s));
  engine_History := fun s _ limit =>
    (s, (if limit =? 0 then kept s else take (Z.to_nat limit) (kept s), read_answer s))
|}.

(** A decoder that takes the data for the uid of a publication and for
    the client of a join or leave, and refuses empty data. *)
Definition someone (data : string) : ClientInfo.t :=
  {| ClientInfo.User := ""; ClientInfo.Client := data |}.

#[global] Instance decoder : MessageDecoder := {|
  DecodePublication := fun data =>
    if String.eqb data "" then DecodedErr (ErrOther "empty publication")
    else DecodedOk {| Publication.UID := data; Publication.Data := data;
                      Publication.Info := None |};
  DecodeJoin := fun data =>
    if String.eqb data "" then DecodedErr (ErrOther "empty join")
    else DecodedOk {| Join.Info := someone data |};
  DecodeLeave := fun data =>
    if String.eqb data "" then DecodedErr (ErrOther "empty leave")
    else DecodedOk {| Leave.Info := someone data |}
|}.

(** A registry of metrics that keeps, for each counter, the total at the
    last update and the growth up to it, and has no histograms. *)
Record meter := { last_totals : gmap string Z; growth : gmap string Z }.

#[global] Instance meter_MetricsRest : MetricsRest meter := {|
  Counters_UpdateDelta := fun m totals =>
    {| last_totals := totals;
       growth := map_imap (fun name total =>
                             Some (total - default 0 (last_totals m !! name))) totals |};
  Counters_LoadIntervalValues := growth;
  HDRHistograms_LoadValues := fun _ => ∅;
  HDRHistograms_Rotate := fun m => m
|}.

Abbreviation world := (World hub store (gmap string ControlNode.t) Sample.conn nat).

Definition idle_engine : store :=
  {| answers := Sample.quiet; run_answer := None; read_answer := None; kept := [] |}.

Definition cut_off_engine : store :=
  {| answers := Sample.control_down; run_answer := None; read_answer := None; kept := [] |}.

Definition broken_engine : store :=
  {| answers := Sample.quiet; run_answer := Some (ErrOther "engine does not start");
     read_answer := None; kept := [] |}.

(** A node whose hub fails every broadcast, with connection "c1" of user
    "u" subscribed to "news"; and the same hub without subscription. *)
Definition lossy : hub :=
  {| indices := (SpecHub.add_sub (SpecHub.add SpecHub.empty "c1" "u").1 "news" "c1").1;
     broadcast_answer := Some (ErrOther "send buffer full") |}.

(** A hub without connections that broadcasts without error. *)
Definition silent : hub := {| indices := SpecHub.empty; broadcast_answer := None |}.

(** An engine whose reads fail, and one that keeps two publications. *)
Definition unreadable_engine : store :=
  {| answers := Sample.quiet; run_answer := None;
     read_answer := Some (ErrOther "storage is down"); kept := [] |}.

Definition stocked_engine : store :=
  {| answers := Sample.quiet; run_answer := None; read_answer := None;
     kept := [{| Publication.UID := "p2"; Publication.Data := "second";
                 Publication.Info := None |};
              {| Publication.UID := "p1"; Publication.Data := "first";
                 Publication.Info := None |}] |}.

Definition node_on (h : hub) (e : store) : world :=
  New Sample.cfg "2.0" "n1" 100 h e ∅ 0%nat (fun _ => Sample.idle) ∅.

Definition n_lossy : world := node_on lossy idle_engine.

(** Another node of the cluster, "n2". *)
Definition peer : world :=
  New Sample.cfg "2.0" "n2" 200 silent idle_engine ∅ 0%nat (fun _ => Sample.idle) ∅.

Definition fresh : Gossip.t meter :=
  {| Gossip.metricsSnapshot := ∅; Gossip.metricsOnce := false; Gossip.Gauges := ∅;
     Gossip.rest := {| last_totals := ∅; growth := ∅ |}; Gossip.loops := [] |}.

Definition calm : Readings.t :=
  {| Readings.Sys := 1000; Readings.HeapSys := 800; Readings.HeapAlloc := 500;
     Readings.StackInuse := 64; Readings.cpuUsage := Some 3;
     Readings.NumGoroutine := 7; Readings.Now := 160;
     Readings.MetricsUpdateInterval := 60 |}.

End Sample3.

(** * Properties *)

(** ** Go strings *)

Section GoStringsFacts.

Import GoStrings.

Lemma app_nil (b : string) : "" +:+ b = b.
Proof. reflexivity. Qed.

Lemma app_cons (x : ascii) (a b : string) : String x a +:+ b = String x (a +:+ b).
Proof. reflexivity. Qed.

Lemma slice_to_0 (s : string) : slice_to 0 s = "".
Proof. by destruct s. Qed.

Lemma slice_to_app (a b : string) : slice_to (String.length a) (a +:+ b) = a.
Proof.
  induction a as [|x a IH]; rewrite ?app_nil, ?app_cons; simpl.
  - done.
  - by rewrite IH.
Qed.

Lemma slice_to_length (n : nat) (s : string) :
  (n <= String.length s)%nat -> String.length (slice_to n s) = n.
Proof.
  revert s; induction n as [|n IH]; intros [|x s] Hn; simpl in *; try lia.
  rewrite IH; lia.
Qed.

Lemma slice_to_app_le (n : nat) (a b : string) :
  (n <= String.length a)%nat -> slice_to n (a +:+ b) = slice_to n a.
Proof.
  revert a; induction n as [|n IH]; intros [|x a] Hn;
    rewrite ?app_nil, ?app_cons; simpl in *; try lia; try done.
  rewrite IH; [done | lia].
Qed.

Lemma app_length (a b : string) :
  String.length (a +:+ b) = (String.length a + String.length b)%nat.
Proof.
  induction a as [|x a IH]; rewrite ?app_nil, ?app_cons; simpl; [done | by rewrite IH].
Qed.

(** [HasPrefix] holds of every string that starts with the prefix. *)
Lemma HasPrefix_app (p t : string) : HasPrefix (p +:+ t) p = true.
Proof.
  unfold HasPrefix, len. rewrite slice_to_app, String.eqb_refl, app_length.
  apply andb_true_intro; split; [apply Z.leb_le; lia | done].
Qed.

Lemma TrimPrefix_none (s p : string) : HasPrefix s p = false -> TrimPrefix s p = s.
Proof. unfold TrimPrefix. by intros ->. Qed.

(** [index_at] counts from its starting offset. *)
Lemma index_at_shift (i : Z) (s sub : string) :
  index_at i s sub = if index_at 0 s sub <? 0 then -1 else i + index_at 0 s sub.
Proof.
  revert i; induction s as [|x s IH]; intros i; simpl.
  - destruct (HasPrefix "" sub); simpl; [f_equal; lia | done].
  - destruct (HasPrefix (String x s) sub); simpl; [lia |].
    rewrite (IH (i + 1)), (IH (0 + 1)).
    destruct (index_at 0 s sub <? 0) eqn:Hneg; simpl; [done |].
    apply Z.ltb_ge in Hneg.
    match goal with |- context [?a <? 0] => destruct (Z.ltb_spec a 0) end; lia.
Qed.

(** A string that contains [sub] after [a] has its first instance of
    [sub] at offset [len a] at the latest. *)
Lemma Index_app_bounds (a sub t : string) :
  0 <= Index (a +:+ sub +:+ t) sub <= len a.
Proof.
  unfold Index, len. induction a as [|x a IH]; rewrite ?app_nil, ?app_cons.
  - pose proof (HasPrefix_app sub t) as Hp.
    destruct (sub +:+ t) eqn:Hs; simpl; rewrite Hp; simpl; lia.
  - simpl index_at.
    destruct (HasPrefix (String x (a +:+ sub +:+ t)) sub); [simpl; lia |].
    rewrite index_at_shift.
    destruct (index_at 0 (a +:+ sub +:+ t) sub <? 0) eqn:Hneg.
    + apply Z.ltb_lt in Hneg; lia.
    + simpl String.length. lia.
Qed.

End GoStringsFacts.

(** ** Channel names *)

Section ChannelNames.

Import GoStrings.

(** With a non-empty boundary, the namespace of a channel that does not
    start with the private prefix is what precedes the first instance of
    the boundary. *)
Lemma namespaceName_first_instance (c : Config.t) (ch : string) :
  Config.NamespaceChannelBoundary c <> "" ->
  HasPrefix ch (Config.PrivateChannelPrefix c) = false ->
  0 <= Index ch (Config.NamespaceChannelBoundary c) ->
  namespaceName c ch
  = Ret (slice_to (Z.to_nat (Index ch (Config.NamespaceChannelBoundary c))) ch).
Proof.
  intros Hb Hp Hi. unfold namespaceName.
  rewrite (TrimPrefix_none _ _ Hp).
  unfold Contains. destruct (Z.leb_spec 0 (Index ch (Config.NamespaceChannelBoundary c)));
    [| lia].
  unfold SplitN, genSplit. simpl (2 =? 0). cbv iota.
  destruct (String.eqb_spec (Config.NamespaceChannelBoundary c) "") as [He | _];
    [done |].
  simpl (2 <? 0). cbv iota. change (Z.to_nat (2 - 1)) with 1%nat.
  simpl split_loop.
  destruct (Z.ltb_spec (Index ch (Config.NamespaceChannelBoundary c)) 0); [lia |].
  by rewrite Z.add_0_r.
Qed.


(** C9, as amended: for a configuration with a non-empty namespace
    boundary [b] and a namespace [ns] such that the channel
    [ns + b + "foo"] does not start with the private prefix,
    [namespaceName] answers [ns] if and only if the first instance of [b]
    in the channel is the one at offset [len(ns)]. *)
Theorem namespaceName_round_trip (c : Config.t) (ns : string) :
  let b := Config.NamespaceChannelBoundary c in
  let ch := ns +:+ b +:+ "foo" in
  b <> "" ->
  HasPrefix ch (Config.PrivateChannelPrefix c) = false ->
  (namespaceName c ch = Ret ns <-> Index ch b = len ns).
Proof.
  intros b ch Hb Hp.
  pose proof (Index_app_bounds ns b "foo") as Hbounds. fold ch in Hbounds.
  assert (Hfound : 0 <= Index ch b) by lia.
  rewrite (namespaceName_first_instance c ch Hb Hp Hfound). fold b.
  unfold len in *. split.
  - intros Heq. injection Heq as Heq.
    assert (Hlen : String.length (slice_to (Z.to_nat (Index ch b)) ch)
                   = Z.to_nat (Index ch b)).
    { apply slice_to_length.
      assert (String.length ch = (String.length ns + String.length (b +:+ "foo"))%nat)
        by apply app_length.
      lia. }
    rewrite Heq in Hlen. lia.
  - intros ->. rewrite Nat2Z.id. unfold ch. by rewrite slice_to_app.
Qed.

(** The round trip at namespace "chat" of the sample configuration. *)
Lemma namespaceName_round_trip_witness :
  Config.NamespaceChannelBoundary Sample.cfg <> "" /\
  HasPrefix "chat:foo" (Config.PrivateChannelPrefix Sample.cfg) = false /\
  Index "chat:foo" ":" = len "chat" /\
  namespaceName Sample.cfg "chat:foo" = Ret "chat".
Proof.
  assert (Hb : Config.NamespaceChannelBoundary Sample.cfg <> "") by (simpl; congruence).
  assert (Hp : HasPrefix ("chat" +:+ Config.NamespaceChannelBoundary Sample.cfg +:+ "foo")
                 (Config.PrivateChannelPrefix Sample.cfg) = false) by reflexivity.
  split; [exact Hb |]. split; [exact Hp |]. split; [reflexivity |].
  apply (proj2 (namespaceName_round_trip Sample.cfg "chat" Hb Hp)). reflexivity.
Defined.

(** C9 as stated fails: a namespace that contains the boundary is cut at
    the first instance of it, so "a:b" comes back as "a". *)
Lemma namespaceName_round_trip_counterexample :
  ~ (forall (c : Config.t) (ns : string),
       HasPrefix (ns +:+ Config.NamespaceChannelBoundary c +:+ "foo")
         (Config.PrivateChannelPrefix c) = false ->
       namespaceName c (ns +:+ Config.NamespaceChannelBoundary c +:+ "foo") = Ret ns).
Proof.
  intros Hall. specialize (Hall Sample.cfg "a:b" eq_refl). vm_compute in Hall. congruence.
Qed.

(** What the code answers where the round trip fails: the part before the
    first boundary, and with an empty boundary the first character. *)
Example namespaceName_cut_short :
  namespaceName Sample.cfg ("a:b" +:+ ":" +:+ "foo") = Ret "a"
  /\ namespaceName Sample.cfg_no_boundary ("ab" +:+ "" +:+ "foo") = Ret "a"
  /\ namespaceName Sample.cfg_no_boundary ("" +:+ "" +:+ "foo") = Ret "f"
  /\ namespaceName Sample.cfg_no_boundary "" = Throw IndexOutOfRange.
Proof. repeat split; reflexivity. Qed.

End ChannelNames.

(** ** The node *)

Section NodeFacts.

Context {H E R C G : Type}.
Context `{!Hub H, !Engine E, !Registry R, !Client C, !Nuid G, !ControlCodec}.

Local Abbreviation World := (World H E R C G).

Ltac run :=
  cbv [bind ret get modify lift record logger_Printf Counters_Inc
       call_engine_Publish call_engine_PublishControl call_engine_Subscribe
       call_engine_Unsubscribe call_hub_AddSub call_hub_RemoveSub
       call_hub_UserConnections call_hub_Shutdown call_client_Channels
       call_client_Unsubscribe call_nodes_add call_nuid_Next go close_shutdownCh].

Lemma count_calls_app (p : Call -> bool) (l1 l2 : list Call) :
  count_calls p (l1 ++ l2) = (count_calls p l1 + count_calls p l2)%nat.
Proof. unfold count_calls. by rewrite List.filter_app, List.length_app. Qed.

Lemma count_calls_closes (p : Call -> bool) (closed : list (ClientRef * Disconnect.t)) :
  (forall c a, p (ClientClose c a) = false) ->
  count_calls p (map (fun ca => ClientClose ca.1 ca.2) closed) = 0%nat.
Proof.
  intros Hp. unfold count_calls. induction closed as [|[c a] l IH]; simpl; [done |].
  by rewrite Hp.
Qed.

(** C6: a control command that carries the node's own uid is dropped:
    [HandleControl] returns nil and the only thing that changes is the
    counter of received control commands, one higher; registry, hub,
    connections, goroutines, log and calls stay as they were, whatever the
    method and the params of the command. *)
Theorem HandleControl_own_command (cmd : Command.t) (w : World) :
  Command.UID cmd = uid w ->
  exists w',
    HandleControl cmd w = Ret (None, w') /\
    w' = set_counters
           (<["node_num_control_received" :=
                default 0 (counters w !! "node_num_control_received") + 1]> (counters w)) w /\
    counters w' !! "node_num_control_received"
      = Some (default 0 (counters w !! "node_num_control_received") + 1) /\
    (forall name, name <> "node_num_control_received" ->
       counters w' !! name = counters w !! name) /\
    nodes w' = nodes w /\ hub w' = hub w /\ engine w' = engine w /\
    objects w' = objects w /\ goroutines w' = goroutines w /\
    logs w' = logs w /\ calls w' = calls w.
Proof.
  intros Hown. eexists. split.
  - unfold HandleControl. run. simpl. rewrite Hown, String.eqb_refl. reflexivity.
  - split; [reflexivity |]. simpl. split; [apply lookup_insert_eq |].
    split; [| done]. intros name Hname. by apply lookup_insert_ne.
Qed.

(** Once the flag is set, [Shutdown] does nothing and returns nil. *)
Lemma Shutdown_again (w : World) : shutdown w = true -> Shutdown w = Ret (None, w).
Proof. intros Hs. unfold Shutdown. run. by rewrite Hs. Qed.

Lemma Shutdown_times_again (n : nat) (w : World) :
  shutdown w = true -> Shutdown_times n w = Ret (replicate n None, w).
Proof.
  intros Hs. induction n as [|n IH]; simpl; [done |].
  by rewrite (Shutdown_again w Hs), IH.
Qed.

(** The first [Shutdown] of a node: flag, channel, hub, in this order. *)
Lemma Shutdown_first (w : World) :
  shutdown w = false -> shutdownCh w = ChanOpen ->
  Shutdown w
  = Ret ((hub_Shutdown (hub w)).2,
         set_calls (calls w ++ CloseShutdownCh :: HubShutdown
                      :: map (fun ca => ClientClose ca.1 ca.2) (hub_Shutdown (hub w)).1.2)
           (set_hub (hub_Shutdown (hub w)).1.1
              (set_shutdownCh ChanClosed (set_shutdown true w)))).
Proof.
  intros Hs Hc. unfold Shutdown. run. rewrite Hs. simpl. rewrite Hc. simpl.
  destruct (hub_Shutdown (hub w)) as [[h' closed] err]. simpl.
  by rewrite <- !(assoc_L (++)).
Qed.

Lemma count_calls_cons (p : Call -> bool) (a : Call) (l : list Call) :
  count_calls p (a :: l) = ((if p a then 1 else 0) + count_calls p l)%nat.
Proof. unfold count_calls. simpl. by destruct (p a). Qed.

(** C7: on a node that was not shut down before, any number [n + 1] of
    invocations of [Shutdown] leaves the node as the first one left it:
    the shutdown channel is closed once, [hub.Shutdown] is called once,
    and every invocation after the first changes nothing and returns nil. *)
Theorem Shutdown_idempotent (n : nat) (w : World) :
  shutdown w = false -> shutdownCh w = ChanOpen ->
  exists e1 w1,
    Shutdown w = Ret (e1, w1) /\
    Shutdown_times (S n) w = Ret (e1 :: replicate n None, w1) /\
    shutdown w1 = true /\ shutdownCh w1 = ChanClosed /\
    count_calls is_CloseShutdownCh (calls w1)
      = S (count_calls is_CloseShutdownCh (calls w)) /\
    count_calls is_HubShutdown (calls w1) = S (count_calls is_HubShutdown (calls w)) /\
    Shutdown w1 = Ret (None, w1).
Proof.
  intros Hs Hc. eexists _, _. split; [by apply Shutdown_first |].
  split.
  - simpl. rewrite (Shutdown_first w Hs Hc).
    by rewrite Shutdown_times_again.
  - simpl. repeat split.
    + rewrite count_calls_app, !count_calls_cons, count_calls_closes by done. simpl. lia.
    + rewrite count_calls_app, !count_calls_cons, count_calls_closes by done. simpl. lia.
Qed.

(** The options [Publish] works with once they are resolved. *)
Lemma Publish_resolved (ch : string) (pub : Publication.t) (opts : option Options.t)
    (o : Options.t) (w : World) :
  opts = Some o \/ (opts = None /\ ChannelOpts ch w = Ret ((o, true), w)) ->
  Publish ch pub opts w = publish_resolved ch pub o w.
Proof.
  intros [-> | [-> Hres]]; [done |].
  unfold Publish. unfold bind at 1. by rewrite Hres.
Qed.

(** C3: when the options are given or resolve, [Publish] returns, the
    publication then has a non-empty uid, a non-empty uid supplied by the
    caller is kept (the publication is unchanged), and this very
    publication is what [engine.Publish] received.  [nuid.Next] is assumed
    to answer non-empty identifiers. *)
Theorem Publish_uid (ch : string) (pub : Publication.t) (opts : option Options.t)
    (o : Options.t) (w : World) :
  (forall g : G, (nuid_Next g).1 <> "") ->
  opts = Some o \/ (opts = None /\ ChannelOpts ch w = Ret ((o, true), w)) ->
  exists pub' c w',
    Publish ch pub opts w = Ret ((pub', c), w') /\
    Publication.UID pub' <> "" /\
    (Publication.UID pub <> "" -> pub' = pub) /\
    Publication.Data pub' = Publication.Data pub /\
    Publication.Info pub' = Publication.Info pub /\
    calls w' = calls w ++ [EnginePublish ch pub' o].
Proof.
  intros Hnuid Hres. rewrite (Publish_resolved ch pub opts o w Hres).
  unfold publish_resolved. run. simpl.
  destruct (String.eqb_spec (Publication.UID pub) "") as [Hempty | Hgiven].
  - simpl. specialize (Hnuid (nuid w)).
    destruct (nuid_Next (nuid w)) as [u g'] eqn:Hnext. simpl in *.
    destruct (engine_Publish (engine w) ch (Publication.with_UID u pub) o) as [e' c].
    simpl. eexists _, _, _. split; [reflexivity |]. simpl. repeat split; try done.
  - simpl. destruct (engine_Publish (engine w) ch pub o) as [e' c].
    simpl. eexists _, _, _. split; [reflexivity |]. simpl. repeat split; done.
Qed.

(** C4: when the options are not given and the namespace of the channel
    does not resolve, [Publish] returns a channel that delivers
    [ErrNamespaceNotFound] and leaves the whole world untouched: no call on
    the engine, no counter.  When options are given, the outcome is the
    engine's, for every configuration: the publication goes to
    [engine.Publish] with the given options and the engine's channel is
    returned, whether or not the namespace of the channel resolves. *)
Theorem Publish_namespace_not_found (ch : string) (pub : Publication.t) (w : World) :
  (forall o, ChannelOpts ch w = Ret ((o, false), w) ->
     exists c,
       Publish ch pub None w = Ret ((pub, c), w) /\
       recv c = Some ErrNamespaceNotFound)
  /\
  (forall o, exists pub' w',
     Publish ch pub (Some o) w
       = Ret ((pub', (engine_Publish (engine w) ch pub' o).2), w') /\
     calls w' = calls w ++ [EnginePublish ch pub' o] /\
     engine w' = (engine_Publish (engine w) ch pub' o).1).
Proof.
  split.
  - intros o Hres. eexists. split.
    + unfold Publish. unfold bind at 1. rewrite Hres. reflexivity.
    + reflexivity.
  - intros o. unfold Publish, publish_resolved. run. simpl.
    destruct (String.eqb (Publication.UID pub) ""); simpl.
    + destruct (nuid_Next (nuid w)) as [u g']. simpl.
      destruct (engine_Publish (engine w) ch (Publication.with_UID u pub) o) as [e' c] eqn:He.
      simpl. eexists _, _. rewrite He. simpl. done.
    + destruct (engine_Publish (engine w) ch pub o) as [e' c] eqn:He.
      simpl. eexists _, _. rewrite He. simpl. done.
Qed.

(** *** Unsubscribing a user on this node *)

Lemma client_frame_refl (cs : list ClientRef) (w : World) : client_frame cs w w.
Proof.
  split; [by destruct w |]. split; [| done].
  exists []. by rewrite app_nil_r.
Qed.

Lemma client_frame_trans (cs : list ClientRef) (w w' w'' : World) :
  client_frame cs w w' -> client_frame cs w' w'' -> client_frame cs w w''.
Proof.
  intros (Hw' & (l & Hl & Hon) & Hobj) (Hw'' & (l' & Hl' & Hon') & Hobj').
  split; [| split].
  - rewrite Hw'' at 1. rewrite Hw'. reflexivity.
  - exists (l ++ l'). split.
    + by rewrite Hl', Hl, (assoc_L (++)).
    + by apply Forall_app.
  - intros c' Hc'. by rewrite Hobj', Hobj.
Qed.

Lemma client_frame_mono (cs cs' : list ClientRef) (w w' : World) :
  (forall c, In c cs -> In c cs') -> client_frame cs w w' -> client_frame cs' w w'.
Proof.
  intros Hincl (Hw' & (l & Hl & Hon) & Hobj). split; [done |]. split.
  - exists l. split; [done |]. eapply Forall_impl; [exact Hon |].
    intros call (c' & ch' & -> & Hin). exists c', ch'. auto.
  - intros c' Hc'. apply Hobj. auto.
Qed.

(** One [Unsubscribe] call on a connection: it returns, only that
    connection object changes, and the call is noted. *)
Lemma call_client_Unsubscribe_returns (c : ClientRef) (x : string) (w : World) :
  exists w',
    call_client_Unsubscribe c x w = Ret ((client_Unsubscribe (objects w c) x).2, w') /\
    calls w' = calls w ++ [ClientUnsubscribe c x] /\
    objects w' c = (client_Unsubscribe (objects w c) x).1 /\
    client_frame [c] w w'.
Proof.
  unfold call_client_Unsubscribe. run. simpl.
  destruct (client_Unsubscribe (objects w c) x) as [o' err]. simpl.
  eexists. split; [reflexivity |]. simpl. split; [done |].
  split; [by rewrite String.eqb_refl |].
  split; [done |]. simpl. split.
  - exists [ClientUnsubscribe c x]. split; [done |].
    constructor; [| done]. exists c, x. split; [done | by left].
  - intros c' Hc'. destruct (String.eqb_spec c c') as [-> | _]; [| done].
    exfalso. apply Hc'. by left.
Qed.

Lemma unsubscribe_channels_returns (c : ClientRef) (chs : list string) (w : World) :
  exists e w', unsubscribe_channels c chs w = Ret (e, w') /\ client_frame [c] w w'.
Proof.
  revert w. induction chs as [|x chs IH]; intros w; simpl.
  - exists None, w. split; [done | apply client_frame_refl].
  - destruct (call_client_Unsubscribe_returns c x w) as (w1 & Hcall & _ & _ & Hframe).
    unfold bind at 1. rewrite Hcall.
    destruct (client_Unsubscribe (objects w c) x).2 as [e|].
    + exists (Some e), w1. done.
    + destruct (IH w1) as (e & w' & Hrest & Hframe').
      exists e, w'. split; [done |]. by eapply client_frame_trans.
Qed.

Lemma unsubscribe_connections_returns (cs : list ClientRef) (ch : string) (w : World) :
  exists e w', unsubscribe_connections cs ch w = Ret (e, w') /\ client_frame cs w w'.
Proof.
  revert w. induction cs as [|c cs IH]; intros w; simpl.
  - exists None, w. split; [done | apply client_frame_refl].
  - assert (Hchs : exists chs,
      (if String.eqb ch "" then call_client_Channels c else ret [ch]) w = Ret (chs, w)).
    { destruct (String.eqb ch ""); eexists; reflexivity. }
    destruct Hchs as (chs & Hchs). unfold bind at 1. rewrite Hchs.
    destruct (unsubscribe_channels_returns c chs w) as (e1 & w1 & Hone & Hframe1).
    unfold bind at 1. rewrite Hone.
    assert (Hframe1' : client_frame (c :: cs) w w1).
    { eapply client_frame_mono; [| exact Hframe1]. intros c' [-> | []]. by left. }
    destruct e1 as [e1|].
    + exists (Some e1), w1. done.
    + destruct (IH w1) as (e & w' & Hrest & Hframe').
      exists e, w'. split; [done |]. eapply client_frame_trans; [exact Hframe1' |].
      eapply client_frame_mono; [| exact Hframe']. intros c' Hin. by right.
Qed.

(** A loop that got through its first part without an error goes on with
    the rest. *)
Lemma unsubscribe_channels_app (c : ClientRef) (chs1 chs2 : list string) (w w1 : World) :
  unsubscribe_channels c chs1 w = Ret (None, w1) ->
  unsubscribe_channels c (chs1 ++ chs2) w = unsubscribe_channels c chs2 w1.
Proof.
  revert w. induction chs1 as [|x chs1 IH]; intros w; simpl.
  - by intros [= ->].
  - unfold bind. destruct (call_client_Unsubscribe c x w) as [[[e|] w']|]; try done.
    apply IH.
Qed.

Lemma unsubscribe_connections_app (cs1 cs2 : list ClientRef) (ch : string) (w w1 : World) :
  unsubscribe_connections cs1 ch w = Ret (None, w1) ->
  unsubscribe_connections (cs1 ++ cs2) ch w = unsubscribe_connections cs2 ch w1.
Proof.
  revert w. induction cs1 as [|c cs1 IH]; intros w; simpl.
  - by intros [= ->].
  - unfold bind.
    destruct ((if String.eqb ch "" then call_client_Channels c else ret [ch]) w)
      as [[chs w0]|]; [| done].
    destruct (unsubscribe_channels c chs w0) as [[[e|] w']|]; try done.
    apply IH.
Qed.

(** C10: [unsubscribeUser] stops at the first [Unsubscribe] call that
    fails.  When the connections before [c] are done without an error, the
    channels [chs1] of [c] too, and [c.Unsubscribe(x)] answers the error
    [e], then [unsubscribeUser] returns [e] in the world that this call
    left: the call is the last one made, all calls made are on the
    connections up to [c], the connections after [c] are untouched, and
    [c] itself is as the failed call left it, the channels [chs2] not
    having been asked for. *)
Theorem unsubscribeUser_stops_at_first_failure
    (user ch : string) (cs1 cs2 : list ClientRef) (c : ClientRef)
    (chs1 chs2 : list string) (x : string) (e : Error) (w w1 w2 w3 : World) :
  hub_UserConnections (hub w) user = cs1 ++ c :: cs2 ->
  unsubscribe_connections cs1 ch w = Ret (None, w1) ->
  channels_to_leave ch (objects w1 c) = chs1 ++ x :: chs2 ->
  unsubscribe_channels c chs1 w1 = Ret (None, w2) ->
  call_client_Unsubscribe c x w2 = Ret (Some e, w3) ->
  unsubscribeUser user ch w = Ret (Some e, w3) /\
  calls w3 = calls w2 ++ [ClientUnsubscribe c x] /\
  client_frame (cs1 ++ [c]) w w3 /\
  objects w3 c = (client_Unsubscribe (objects w2 c) x).1.
Proof.
  intros Hconns Hbefore Hchs Hsome Hfail.
  assert (Hleft : (if String.eqb ch "" then call_client_Channels c else ret [ch]) w1
                  = Ret (chs1 ++ x :: chs2, w1)).
  { unfold channels_to_leave in Hchs. destruct (String.eqb ch "").
    - unfold call_client_Channels. run. by rewrite Hchs.
    - unfold ret. by rewrite Hchs. }
  destruct (call_client_Unsubscribe_returns c x w2) as (w3' & Hcall & Hcalls & Hobj & Hframe3).
  rewrite Hfail in Hcall. injection Hcall as Herr <-.
  split; [| split; [done | split; [| done]]].
  - unfold unsubscribeUser, call_hub_UserConnections. run. rewrite Hconns.
    rewrite (unsubscribe_connections_app cs1 (c :: cs2) ch w w1 Hbefore). simpl.
    unfold bind at 1. rewrite Hleft. unfold bind at 1.
    rewrite (unsubscribe_channels_app c chs1 (x :: chs2) w1 w2 Hsome). simpl.
    unfold bind at 1. by rewrite Hfail.
  - destruct (unsubscribe_connections_returns cs1 ch w) as (e1 & w1' & Hrun1 & Hframe1).
    rewrite Hbefore in Hrun1. injection Hrun1 as <- <-.
    destruct (unsubscribe_channels_returns c chs1 w1) as (e2 & w2' & Hrun2 & Hframe2).
    rewrite Hsome in Hrun2. injection Hrun2 as <- <-.
    eapply client_frame_trans; [| eapply client_frame_trans].
    + eapply client_frame_mono; [| exact Hframe1]. intros c' Hin. apply in_or_app. by left.
    + eapply client_frame_mono; [| exact Hframe2]. intros c' [-> | []].
      apply in_or_app. right. by left.
    + eapply client_frame_mono; [| exact Hframe3]. intros c' [-> | []].
      apply in_or_app. right. by left.
Qed.

(** *** Fan-out over the control channel *)

(** [pubUnsubscribe] publishes one command.  Its params encode the user
    and an empty channel: the argument [ch] does not reach the encoder. *)
Lemma pubUnsubscribe_returns (user ch : string) (w : World) :
  let cmd := {| Command.UID := uid w; Command.Method := "unsubscribe";
                Command.Params :=
                  (EncodeUnsubscribe {| ControlUnsubscribe.User := user;
                                        ControlUnsubscribe.Channel := "" |}).1 |} in
  exists w',
    pubUnsubscribe user ch w = Ret (recv (engine_PublishControl (engine w) cmd).2, w') /\
    calls w' = calls w ++ [EnginePublishControl cmd] /\
    objects w' = objects w /\ hub w' = hub w /\ goroutines w' = goroutines w /\
    uid w' = uid w /\ config w' = config w.
Proof.
  intros cmd. unfold pubUnsubscribe, publishControl. run. simpl. fold cmd.
  destruct (engine_PublishControl (engine w) cmd) as [e' c]. simpl.
  eexists. split; [reflexivity |]. done.
Qed.

Lemma pubUnsubscribe_ignores_channel (user ch ch' : string) (w : World) :
  pubUnsubscribe user ch w = pubUnsubscribe user ch' w.
Proof. reflexivity. Qed.

(** [pubDisconnect] publishes one command, under the method name
    "unsubscribe"; its params encode the user, and no reconnect flag. *)
Lemma pubDisconnect_returns (user : string) (reconnect : bool) (w : World) :
  let cmd := {| Command.UID := uid w; Command.Method := "unsubscribe";
                Command.Params :=
                  (EncodeDisconnect {| ControlDisconnect.User := user |}).1 |} in
  exists w',
    pubDisconnect user reconnect w
      = Ret (recv (engine_PublishControl (engine w) cmd).2, w') /\
    calls w' = calls w ++ [EnginePublishControl cmd] /\
    objects w' = objects w /\ hub w' = hub w /\ goroutines w' = goroutines w.
Proof.
  intros cmd. unfold pubDisconnect, publishControl. run. simpl. fold cmd.
  destruct (engine_PublishControl (engine w) cmd) as [e' c]. simpl.
  eexists. split; [reflexivity |]. done.
Qed.

(** [disconnectUser] starts one closing goroutine per connection of the
    user, with the advice built from [reconnect], and returns nil. *)
Lemma disconnect_connections_returns (cs : list ClientRef) (advice : Disconnect.t)
    (w : World) :
  disconnect_connections cs advice w
  = Ret (tt, set_goroutines (goroutines w ++ map (fun c => GoClose c advice) cs) w).
Proof.
  revert w. induction cs as [|c cs IH]; intros w; simpl.
  - unfold ret. rewrite app_nil_r. by destruct w.
  - unfold bind, go, modify. rewrite IH. simpl. by rewrite <- (assoc_L (++)).
Qed.

Lemma disconnectUser_returns (user : string) (reconnect : bool) (w : World) :
  disconnectUser user reconnect w
  = Ret (None, set_goroutines
                 (goroutines w ++ map (fun c => GoClose c (disconnect_advice reconnect))
                                   (hub_UserConnections (hub w) user)) w).
Proof.
  unfold disconnectUser, call_hub_UserConnections. run.
  by rewrite disconnect_connections_returns.
Qed.

(** *** The calls of the local step, one by one *)

(** Calls answered nil, followed by further calls. *)
Lemma asked_in_turn_app (objs objs1 objs2 : ClientRef -> C)
    (l1 l2 : list (ClientRef * string)) (r : error) :
  asked_in_turn objs l1 None objs1 ->
  asked_in_turn objs1 l2 r objs2 ->
  asked_in_turn objs (l1 ++ l2) r objs2.
Proof.
  intros Hfirst. revert l2 r objs2.
  remember None as r1 eqn:Hr1.
  induction Hfirst as [objs | objs c x o' e Hcall | objs c x o' l r' objs' Hcall _ IH];
    intros l2 r objs2 Hrest.
  - exact Hrest.
  - discriminate.
  - simpl. eapply asked_next; [exact Hcall |]. by apply IH.
Qed.

(** One [Unsubscribe] call on a connection, in full. *)
Lemma call_client_Unsubscribe_exact (c : ClientRef) (x : string) (w : World) :
  call_client_Unsubscribe c x w
  = Ret ((client_Unsubscribe (objects w c) x).2,
         set_calls (calls w ++ [ClientUnsubscribe c x])
           (set_objects (fun c' => if String.eqb c c'
                                   then (client_Unsubscribe (objects w c) x).1
                                   else objects w c') w)).
Proof.
  unfold call_client_Unsubscribe. run.
  by destruct (client_Unsubscribe (objects w c) x).
Qed.

Lemma unsubscribe_call_pairs (c : ClientRef) (chs : list string) :
  map unsubscribe_call (map (pair c) chs) = map (ClientUnsubscribe c) chs.
Proof. induction chs as [| x chs IH]; [done |]. simpl. by rewrite IH. Qed.

(** The inner loop asks the connection to leave the channels in turn, up
    to the first refusal. *)
Lemma unsubscribe_channels_asked (c : ClientRef) (chs : list string) (w : World) :
  exists e w' asked,
    unsubscribe_channels c chs w = Ret (e, w') /\
    client_frame [c] w w' /\
    calls w' = calls w ++ map (ClientUnsubscribe c) asked /\
    asked_in_turn (objects w) (map (pair c) asked) e (objects w') /\
    asked `prefix_of` chs /\
    (e = None -> asked = chs).
Proof.
  revert w. induction chs as [| x chs IH]; intros w.
  - exists None, w, []. simpl. split; [done |]. split; [apply client_frame_refl |].
    split; [by rewrite app_nil_r |]. split; [constructor |]. done.
  - simpl. unfold bind at 1. rewrite call_client_Unsubscribe_exact.
    destruct (call_client_Unsubscribe_returns c x w) as (w1 & Hcall & _ & _ & Hframe1).
    rewrite call_client_Unsubscribe_exact in Hcall. injection Hcall as Hw1.
    rewrite Hw1.
    destruct (client_Unsubscribe (objects w c) x) as [o' [e |]] eqn:Hanswer; simpl.
    + exists (Some e), w1, [x]. split; [done |]. split; [done |].
      split; [by rewrite <- Hw1 |]. split.
      * rewrite <- Hw1. simpl. by apply asked_last.
      * split; [| done]. by exists chs.
    + destruct (IH w1) as (e & w' & asked & Hrun & Hframe & Hcalls & Hasked & Hpre & Hall).
      exists e, w', (x :: asked). split; [done |].
      split; [by eapply client_frame_trans |].
      split; [rewrite Hcalls, <- Hw1; simpl; by rewrite <- (assoc_L (++)) |].
      split.
      * simpl. eapply asked_next; [exact Hanswer |]. rewrite <- Hw1 in Hasked. exact Hasked.
      * split; [by apply prefix_cons | intros He; by rewrite (Hall He)].
Qed.

(** [calls_to_leave] reads the channels of the listed connections only. *)
Lemma calls_to_leave_ext (ch : string) (objs objs' : ClientRef -> C) (cs : list ClientRef) :
  (forall c, In c cs -> channels_to_leave ch (objs' c) = channels_to_leave ch (objs c)) ->
  calls_to_leave ch objs' cs = calls_to_leave ch objs cs.
Proof.
  induction cs as [| c cs IH]; intros Hsame; [done |].
  unfold calls_to_leave in *. simpl. rewrite (Hsame c) by (by left).
  f_equal. apply IH. intros c' Hin. apply Hsame. by right.
Qed.

Lemma calls_to_leave_one_channel (ch : string) (objs : ClientRef -> C)
    (cs : list ClientRef) :
  ch <> "" -> calls_to_leave ch objs cs = map (fun c => (c, ch)) cs.
Proof.
  intros Hch. induction cs as [| c cs IH]; [done |].
  unfold calls_to_leave in *. simpl. rewrite IH. unfold channels_to_leave.
  by destruct (String.eqb_spec ch "").
Qed.

(** The outer loop: the calls are made in turn and answered nil up to the
    last.  When the channel is not empty, or the hub lists each connection
    once, they are the first of [calls_to_leave], and all of them when the
    loop returns nil. *)
Lemma unsubscribe_connections_asked (cs : list ClientRef) (ch : string) (w : World) :
  exists e w' l,
    unsubscribe_connections cs ch w = Ret (e, w') /\
    client_frame cs w w' /\
    calls w' = calls w ++ map unsubscribe_call l /\
    asked_in_turn (objects w) l e (objects w') /\
    ((ch = "" -> NoDup cs) ->
     l `prefix_of` calls_to_leave ch (objects w) cs /\
     (e = None -> l = calls_to_leave ch (objects w) cs)).
Proof.
  revert w. induction cs as [| c cs IH]; intros w.
  - exists None, w, []. simpl. split; [done |]. split; [apply client_frame_refl |].
    split; [by rewrite app_nil_r |]. split; [constructor |]. done.
  - assert (Hchs : (if String.eqb ch "" then call_client_Channels c else ret [ch]) w
                   = Ret (channels_to_leave ch (objects w c), w)).
    { unfold channels_to_leave. by destruct (String.eqb ch ""). }
    simpl unsubscribe_connections. unfold bind at 1. rewrite Hchs. unfold bind at 1.
    destruct (unsubscribe_channels_asked c (channels_to_leave ch (objects w c)) w)
      as (e1 & w1 & asked & Hone & Hframe1 & Hcalls1 & Hasked1 & Hpre1 & Hall1).
    rewrite Hone.
    assert (Hframe1' : client_frame (c :: cs) w w1).
    { eapply client_frame_mono; [| exact Hframe1]. intros c' [-> | []]. by left. }
    destruct e1 as [e1 |].
    + exists (Some e1), w1, (map (pair c) asked). split; [done |]. split; [done |].
      split; [by rewrite unsubscribe_call_pairs |]. split; [done |].
      intros _. split; [| done]. unfold calls_to_leave. simpl.
      destruct Hpre1 as (k & ->). rewrite map_app, <- (assoc_L (++)). by eexists.
    + specialize (Hall1 eq_refl). subst asked.
      destruct (IH w1) as (e & w' & l & Hrun & Hframe & Hcalls & Hasked & Hlist).
      exists e, w', (map (pair c) (channels_to_leave ch (objects w c)) ++ l).
      split; [done |]. split.
      { eapply client_frame_trans; [exact Hframe1' |].
        eapply client_frame_mono; [| exact Hframe]. intros c' Hin. by right. }
      split.
      { by rewrite Hcalls, Hcalls1, map_app, unsubscribe_call_pairs, <- (assoc_L (++)). }
      split; [by eapply asked_in_turn_app |].
      intros Honce.
      assert (Honce' : ch = "" -> NoDup cs).
      { intros Hch. specialize (Honce Hch). by apply NoDup_cons in Honce as [_ ?]. }
      destruct (Hlist Honce') as (Hpre & Hall).
      assert (Hsame : calls_to_leave ch (objects w1) cs = calls_to_leave ch (objects w) cs).
      { apply calls_to_leave_ext. intros c' Hin. unfold channels_to_leave.
        destruct (String.eqb_spec ch "") as [Hch | _]; [| done].
        f_equal. destruct Hframe1 as (_ & _ & Hothers). apply Hothers.
        intros [-> | []]. specialize (Honce Hch). apply NoDup_cons in Honce as [Hnot _].
        apply Hnot. by apply list_elem_of_In. }
      rewrite Hsame in Hpre, Hall.
      change (calls_to_leave ch (objects w) (c :: cs))
        with (map (pair c) (channels_to_leave ch (objects w c))
                ++ calls_to_leave ch (objects w) cs).
      split; [by apply prefix_app | intros He; by rewrite (Hall He)].
Qed.


(** C2, as amended: for a non-empty user, [Disconnect] closes the
    user's local connections with the caller's reconnect flag and
    publishes exactly one control command, which carries the node's uid
    and params that encode the user alone, without the flag.  A peer that
    handles a "disconnect" command with these params, decoding to the
    user, calls its local [disconnectUser] with reconnect false, whatever
    the caller's flag was. *)
Theorem Disconnect_fan_out (user : string) (reconnect : bool) (w : World) :
  user <> "" ->
  exists e w' cmd,
    Disconnect user reconnect w = Ret (e, w') /\
    calls w' = calls w ++ [EnginePublishControl cmd] /\
    Command.UID cmd = uid w /\
    Command.Params cmd = (EncodeDisconnect {| ControlDisconnect.User := user |}).1 /\
    goroutines w'
      = goroutines w ++ map (fun c => GoClose c (disconnect_advice reconnect))
                          (hub_UserConnections (hub w) user) /\
    forall p : World,
      uid p <> uid w ->
      DecodeDisconnect (Command.Params cmd)
        = DecodedOk {| ControlDisconnect.User := user |} ->
      exists p',
        HandleControl {| Command.UID := Command.UID cmd; Command.Method := "disconnect";
                         Command.Params := Command.Params cmd |} p
          = Ret (None, p') /\
        goroutines p'
          = goroutines p ++ map (fun c => GoClose c (disconnect_advice false))
                              (hub_UserConnections (hub p) user) /\
        calls p' = calls p.
Proof.
  intros Huser. unfold Disconnect.
  destruct (String.eqb_spec user "") as [? | _]; [done |].
  unfold bind at 1. rewrite disconnectUser_returns.
  set (w1 := set_goroutines _ w).
  destruct (pubDisconnect_returns user reconnect w1) as (w2 & Hpub & Hcalls & _ & _ & Hgo).
  unfold bind. rewrite Hpub.
  clear Hpub.
  assert (Hret : exists e,
            match recv (engine_PublishControl (engine w1)
                          {| Command.UID := uid w1; Command.Method := "unsubscribe";
                             Command.Params :=
                               (EncodeDisconnect {| ControlDisconnect.User := user |}).1 |}).2
            with
            | Some _ => ret (Some ErrInternalServerError)
            | None => ret None
            end w2 = Ret (e, w2)).
  { destruct (recv _); eexists; reflexivity. }
  destruct Hret as (e & Hret). rewrite Hret.
  eexists e, w2, _. split; [reflexivity |].
  split; [exact Hcalls |]. split; [done |]. split; [done |]. split; [by rewrite Hgo |].
  intros p Hpeer Hdec. unfold HandleControl. run. simpl.
  destruct (String.eqb_spec (uid w) (uid p)) as [Heq | _]; [by rewrite Heq in Hpeer |].
  simpl in Hdec. rewrite Hdec. simpl.
  unfold disconnectUser, call_hub_UserConnections. run. simpl.
  rewrite disconnect_connections_returns. simpl.
  eexists. split; [reflexivity |]. done.
Qed.

(** *** Subscriptions and the engine *)

(** One [AddSubscription]: the hub is asked, and the engine is told to
    subscribe exactly when the hub answers [first] without an error. *)
Lemma AddSubscription_returns (ch : string) (c : ClientRef) (w : World) :
  exists e w',
    AddSubscription ch c w = Ret (e, w') /\
    hub w' = (hub_AddSub (hub w) ch c).1 /\
    calls w' = calls w ++ HubAddSub ch c ::
                 match (hub_AddSub (hub w) ch c).2 with
                 | (true, None) => [EngineSubscribe ch]
                 | _ => []
                 end.
Proof.
  unfold AddSubscription. run. simpl.
  destruct (hub_AddSub (hub w) ch c) as [h' [first [e|]]]; simpl.
  - eexists _, _. split; [reflexivity |]. simpl. by destruct first.
  - destruct first.
    + run. simpl. destruct (engine_Subscribe (engine w) ch) as [e' err]. simpl.
      eexists _, _. split; [reflexivity |]. simpl. by rewrite <- (assoc_L (++)).
    + eexists _, _. split; [reflexivity |]. done.
Qed.

(** One [RemoveSubscription]: the engine is told to unsubscribe exactly
    when the hub answers [empty] without an error. *)
Lemma RemoveSubscription_returns (ch : string) (c : ClientRef) (w : World) :
  exists e w',
    RemoveSubscription ch c w = Ret (e, w') /\
    hub w' = (hub_RemoveSub (hub w) ch c).1 /\
    calls w' = calls w ++ HubRemoveSub ch c ::
                 match (hub_RemoveSub (hub w) ch c).2 with
                 | (true, None) => [EngineUnsubscribe ch]
                 | _ => []
                 end.
Proof.
  unfold RemoveSubscription. run. simpl.
  destruct (hub_RemoveSub (hub w) ch c) as [h' [empty [e|]]]; simpl.
  - eexists _, _. split; [reflexivity |]. simpl. by destruct empty.
  - destruct empty.
    + run. simpl. destruct (engine_Unsubscribe (engine w) ch) as [e' err]. simpl.
      eexists _, _. split; [reflexivity |]. simpl. by rewrite <- (assoc_L (++)).
    + eexists _, _. split; [reflexivity |]. done.
Qed.

Lemma run_op_step (ch : string) (o : SubOp) (w : World) :
  HubContract ->
  exists e w',
    run_op o w = Ret (e, w') /\
    count_calls (Call_eqb_EngineSubscribe ch) (calls w')
      = (count_calls (Call_eqb_EngineSubscribe ch) (calls w)
         + if goes_up ch (hub w) (hub w') then 1 else 0)%nat /\
    count_calls (Call_eqb_EngineUnsubscribe ch) (calls w')
      = (count_calls (Call_eqb_EngineUnsubscribe ch) (calls w)
         + if goes_down ch (hub w) (hub w') then 1 else 0)%nat.
Proof.
  intros Hhub. destruct o as [ch0 c | ch0 c]; simpl.
  - destruct (AddSubscription_returns ch0 c w) as (e & w' & Hrun & Hh & Hcalls).
    exists e, w'. split; [done |]. rewrite Hcalls, Hh, !count_calls_app, !count_calls_cons.
    simpl. unfold goes_up, goes_down.
    pose proof (num_nonneg Hhub (hub w) ch) as Hn.
    destruct (String.eqb_spec ch ch0) as [<- | Hne].
    + destruct (hub_AddSub (hub w) ch c) as [h' [first [err|]]] eqn:Hadd.
      * pose proof (add_failed Hhub (hub w) ch c err) as Hsame.
        rewrite Hadd in Hsame. simpl in *. rewrite (Hsame eq_refl).
        assert (Hnone : count_calls (Call_eqb_EngineSubscribe ch)
                          (if first then [] else []) = 0%nat) by by destruct first.
        assert (Hnone' : count_calls (Call_eqb_EngineUnsubscribe ch)
                           (if first then [] else []) = 0%nat) by by destruct first.
        rewrite Hnone, Hnone'.
        split; [destruct (Z.eqb_spec (hub_NumSubscribers (hub w) ch) 0),
                         (Z.leb_spec 1 (hub_NumSubscribers (hub w) ch)); simpl; lia
               | destruct (Z.eqb_spec (hub_NumSubscribers (hub w) ch) 0),
                          (Z.leb_spec 1 (hub_NumSubscribers (hub w) ch)); simpl; lia].
      * pose proof (add_done Hhub (hub w) ch c) as Hdone.
        rewrite Hadd in Hdone. simpl in *. destruct (Hdone eq_refl) as [Hpos Hfirst].
        destruct (Z.eqb_spec (hub_NumSubscribers (hub w) ch) 0) as [Hz | Hnz],
                 (Z.leb_spec 1 (hub_NumSubscribers h' ch)),
                 (Z.eqb_spec (hub_NumSubscribers h' ch) 0),
                 (Z.leb_spec 1 (hub_NumSubscribers (hub w) ch)); try lia;
          destruct first; simpl; rewrite ?count_calls_cons; simpl;
          rewrite ?String.eqb_refl; unfold count_calls; simpl; try lia;
          try (exfalso; apply Hnz; by apply Hfirst);
          try (by pose proof (proj2 Hfirst Hz)).
    + pose proof (add_other Hhub (hub w) ch0 c ch Hne) as Hsame. rewrite Hsame.
      assert (Hnone : count_calls (Call_eqb_EngineSubscribe ch)
                match (hub_AddSub (hub w) ch0 c).2 with
                | (true, None) => [EngineSubscribe ch0]
                | _ => []
                end = 0%nat).
      { destruct (hub_AddSub (hub w) ch0 c).2 as [[|] [|]]; try done.
        rewrite count_calls_cons. simpl.
        by destruct (String.eqb_spec ch ch0). }
      assert (Hnone' : count_calls (Call_eqb_EngineUnsubscribe ch)
                match (hub_AddSub (hub w) ch0 c).2 with
                | (true, None) => [EngineSubscribe ch0]
                | _ => []
                end = 0%nat).
      { by destruct (hub_AddSub (hub w) ch0 c).2 as [[|] [|]]. }
      rewrite Hnone, Hnone'.
      split; destruct (Z.eqb_spec (hub_NumSubscribers (hub w) ch) 0),
                      (Z.leb_spec 1 (hub_NumSubscribers (hub w) ch)); simpl; lia.
  - destruct (RemoveSubscription_returns ch0 c w) as (e & w' & Hrun & Hh & Hcalls).
    exists e, w'. split; [done |]. rewrite Hcalls, Hh, !count_calls_app, !count_calls_cons.
    simpl. unfold goes_up, goes_down.
    pose proof (num_nonneg Hhub (hub w) ch) as Hn.
    destruct (String.eqb_spec ch ch0) as [<- | Hne].
    + pose proof (num_nonneg Hhub (hub_RemoveSub (hub w) ch c).1 ch) as Hn'.
      destruct (hub_RemoveSub (hub w) ch c) as [h' [empty [err|]]] eqn:Hrem.
      * pose proof (remove_failed Hhub (hub w) ch c err) as Hsame.
        rewrite Hrem in Hsame. simpl in *. rewrite (Hsame eq_refl).
        assert (Hnone : count_calls (Call_eqb_EngineSubscribe ch)
                          (if empty then [] else []) = 0%nat) by by destruct empty.
        assert (Hnone' : count_calls (Call_eqb_EngineUnsubscribe ch)
                           (if empty then [] else []) = 0%nat) by by destruct empty.
        rewrite Hnone, Hnone'.
        split; destruct (Z.eqb_spec (hub_NumSubscribers (hub w) ch) 0),
                        (Z.leb_spec 1 (hub_NumSubscribers (hub w) ch)); simpl; lia.
      * pose proof (remove_done Hhub (hub w) ch c) as Hdone.
        rewrite Hrem in Hdone. simpl in *. destruct (Hdone eq_refl) as [Hle Hempty].
        destruct (Z.eqb_spec (hub_NumSubscribers (hub w) ch) 0) as [Hz | Hnz],
                 (Z.leb_spec 1 (hub_NumSubscribers h' ch)),
                 (Z.eqb_spec (hub_NumSubscribers h' ch) 0) as [Hz' | Hnz'],
                 (Z.leb_spec 1 (hub_NumSubscribers (hub w) ch)); try lia;
          destruct empty; simpl; rewrite ?count_calls_cons; simpl;
          rewrite ?String.eqb_refl; unfold count_calls; simpl; try lia;
          try (exfalso; destruct (proj1 Hempty eq_refl); lia);
          try (by pose proof (proj2 Hempty (conj ltac:(lia) Hz'))).
    + pose proof (remove_other Hhub (hub w) ch0 c ch Hne) as Hsame. rewrite Hsame.
      assert (Hnone : count_calls (Call_eqb_EngineSubscribe ch)
                match (hub_RemoveSub (hub w) ch0 c).2 with
                | (true, None) => [EngineUnsubscribe ch0]
                | _ => []
                end = 0%nat).
      { by destruct (hub_RemoveSub (hub w) ch0 c).2 as [[|] [|]]. }
      assert (Hnone' : count_calls (Call_eqb_EngineUnsubscribe ch)
                match (hub_RemoveSub (hub w) ch0 c).2 with
                | (true, None) => [EngineUnsubscribe ch0]
                | _ => []
                end = 0%nat).
      { destruct (hub_RemoveSub (hub w) ch0 c).2 as [[|] [|]]; try done.
        rewrite count_calls_cons. simpl.
        by destruct (String.eqb_spec ch ch0). }
      rewrite Hnone, Hnone'.
      split; destruct (Z.eqb_spec (hub_NumSubscribers (hub w) ch) 0),
                      (Z.leb_spec 1 (hub_NumSubscribers (hub w) ch)); simpl; lia.
Qed.

(** C8: with a hub that keeps its contract, any sequence of
    [AddSubscription] and [RemoveSubscription] runs to its end, and for
    every channel the run calls [engine.Subscribe] on it as many times as
    its subscriber count goes from 0 to at least 1, and
    [engine.Unsubscribe] as many times as the count goes from at least 1
    to 0.  In each single operation, for any hub, the engine is called
    exactly when the hub answers true ([first], resp. [empty]) and no
    error, once, right after the hub call; on a hub error it is not. *)
Theorem subscription_engine_parity (ch : string) (ops : list SubOp) (w : World) :
  HubContract ->
  (exists w',
     run_ops ops w = Ret w' /\
     count_calls (Call_eqb_EngineSubscribe ch) (calls w')
       = (count_calls (Call_eqb_EngineSubscribe ch) (calls w)
          + transitions goes_up ch ops w)%nat /\
     count_calls (Call_eqb_EngineUnsubscribe ch) (calls w')
       = (count_calls (Call_eqb_EngineUnsubscribe ch) (calls w)
          + transitions goes_down ch ops w)%nat) /\
  (forall (c : ClientRef) (v : World), exists e v',
     AddSubscription ch c v = Ret (e, v') /\
     calls v' = calls v ++ HubAddSub ch c ::
                  match (hub_AddSub (hub v) ch c).2 with
                  | (true, None) => [EngineSubscribe ch]
                  | _ => []
                  end) /\
  (forall (c : ClientRef) (v : World), exists e v',
     RemoveSubscription ch c v = Ret (e, v') /\
     calls v' = calls v ++ HubRemoveSub ch c ::
                  match (hub_RemoveSub (hub v) ch c).2 with
                  | (true, None) => [EngineUnsubscribe ch]
                  | _ => []
                  end).
Proof.
  intros Hhub. split; [| split].
  - revert w. induction ops as [|o ops IH]; intros w; simpl.
    + exists w. split; [done |]. split; lia.
    + destruct (run_op_step ch o w Hhub) as (e & w1 & Hrun & Hup & Hdown).
      rewrite Hrun. destruct (IH w1) as (w' & Hrest & Hup' & Hdown').
      exists w'. split; [done |]. rewrite Hup', Hdown', Hup, Hdown. split; lia.
  - intros c v. destruct (AddSubscription_returns ch c v) as (e & v' & Hrun & _ & Hcalls).
    by exists e, v'.
  - intros c v. destruct (RemoveSubscription_returns ch c v) as (e & v' & Hrun & _ & Hcalls).
    by exists e, v'.
Qed.

End NodeFacts.

(** ** The hub of the specification keeps the contract *)

Section SpecHubFacts.

Import SpecHub.

Lemma subscribers_add_sub (h : t) (ch : string) (c : ClientRef) :
  subscribers (add_sub h ch c).1 ch = {[c]} ∪ subscribers h ch.
Proof. unfold subscribers at 1. simpl. by rewrite lookup_insert_eq. Qed.

Lemma subscribers_remove_sub (h : t) (ch : string) (c : ClientRef) :
  subscribers (remove_sub h ch c).1 ch = subscribers h ch ∖ {[c]}.
Proof.
  unfold remove_sub. case_bool_decide as Hempty; unfold subscribers at 1; simpl.
  - by rewrite lookup_delete_eq, Hempty.
  - by rewrite lookup_insert_eq.
Qed.

Lemma size_zero (X : gset string) : Z.of_nat (size X) = 0 <-> X = ∅.
Proof.
  split.
  - intros Hz. apply leibniz_equiv, size_empty_inv. lia.
  - intros ->. by rewrite size_empty.
Qed.

Lemma SpecHub_keeps_contract : @HubContract SpecHub.t SpecHub.hub.
Proof.
  constructor; cbn [hub_AddSub hub_RemoveSub hub_NumSubscribers hub].
  - intros h ch. unfold num_subscribers. lia.
  - intros h ch c ch' Hne. unfold num_subscribers, subscribers. simpl.
    by rewrite lookup_insert_ne.
  - intros h ch c e. discriminate.
  - intros h ch c _. unfold num_subscribers. rewrite subscribers_add_sub. split.
    + assert (Hne : size ({[c]} ∪ subscribers h ch) ≠ 0%nat).
      { apply size_non_empty_iff. set_solver. }
      lia.
    + simpl. rewrite bool_decide_eq_true. by rewrite size_zero.
  - intros h ch c ch' Hne. unfold num_subscribers, subscribers, remove_sub.
    case_bool_decide; simpl; [by rewrite lookup_delete_ne | by rewrite lookup_insert_ne].
  - intros h ch c e. unfold remove_sub. destruct (bool_decide _); discriminate.
  - intros h ch c _. unfold num_subscribers. rewrite subscribers_remove_sub. split.
    + apply inj_le, subseteq_size. by apply subseteq_difference_l.
    + unfold remove_sub. case_bool_decide as Hempty; simpl.
      * rewrite negb_true_iff, bool_decide_eq_false, Hempty, size_empty.
        rewrite <- size_zero. lia.
      * rewrite size_zero. split; [done | tauto].
Qed.

End SpecHubFacts.

(** ** The node on the sample collaborators *)

Section Scenarios.

Import Sample.

(** The command of node "n2" itself, handled by "n2". *)
Lemma HandleControl_own_command_witness :
  let cmd := {| Command.UID := "n2"; Command.Method := "unsubscribe";
                Command.Params := "u" +:+ nl +:+ "room" |} in
  Command.UID cmd = uid n2 /\
  exists w',
    HandleControl cmd n2 = Ret (None, w') /\
    counters w' !! "node_num_control_received" = Some 1 /\
    objects w' = objects n2 /\ calls w' = calls n2.
Proof.
  intros cmd. split; [reflexivity |].
  destruct (HandleControl_own_command cmd n2 eq_refl)
    as (w' & Hrun & _ & Hcount & _ & _ & _ & _ & Hobj & _ & _ & Hcalls).
  exists w'. split; [exact Hrun |]. split; [exact Hcount |]. split; [exact Hobj | exact Hcalls].
Defined.

(** Three invocations of [Shutdown] on the fresh node "n1". *)
Lemma Shutdown_idempotent_witness :
  shutdown n1 = false /\ shutdownCh n1 = ChanOpen /\
  exists w1,
    Shutdown_times 3 n1 = Ret ([None; None; None], w1) /\
    count_calls is_CloseShutdownCh (calls w1) = 1%nat /\
    count_calls is_HubShutdown (calls w1) = 1%nat.
Proof.
  split; [reflexivity |]. split; [reflexivity |].
  destruct (Shutdown_idempotent 2 n1 eq_refl eq_refl)
    as (e1 & w1 & Hfirst & Htimes & _ & _ & Hclose & Hhub & _).
  assert (He1 : e1 = None).
  { assert (Hrun : exists v, Shutdown n1 = Ret (None, v)) by (eexists; reflexivity).
    destruct Hrun as (v & Hrun). rewrite Hrun in Hfirst. congruence. }
  subst e1. exists w1. split; [exact Htimes |]. split; [exact Hclose | exact Hhub].
Defined.

(** A publication without uid into the channel "chat:x", whose namespace
    resolves. *)
Lemma Publish_uid_witness :
  let pub := {| Publication.UID := ""; Publication.Data := "x"; Publication.Info := None |} in
  (forall g : nat, (nuid_Next g).1 <> "") /\
  ChannelOpts "chat:x" n1 = Ret ((plain, true), n1) /\
  exists pub' c w',
    Publish "chat:x" pub None n1 = Ret ((pub', c), w') /\
    Publication.UID pub' <> "" /\
    calls w' = calls n1 ++ [EnginePublish "chat:x" pub' plain].
Proof.
  intros pub.
  assert (Hnuid : forall g : nat, (nuid_Next g).1 <> "") by (intros g; simpl; discriminate).
  assert (Hres : ChannelOpts "chat:x" n1 = Ret ((plain, true), n1)) by reflexivity.
  split; [exact Hnuid |]. split; [exact Hres |].
  destruct (Publish_uid "chat:x" pub None plain n1 Hnuid (or_intror (conj eq_refl Hres)))
    as (pub' & c & w' & Hrun & Huid & _ & _ & _ & Hcalls).
  exists pub', c, w'. split; [exact Hrun |]. split; [exact Huid | exact Hcalls].
Defined.

(** A publication into the channel "x:foo": the sample configuration has
    no namespace "x". *)
Lemma Publish_namespace_not_found_witness :
  let pub := {| Publication.UID := ""; Publication.Data := "x"; Publication.Info := None |} in
  ChannelOpts "x:foo" n1 = Ret ((plain, false), n1) /\
  exists c,
    Publish "x:foo" pub None n1 = Ret ((pub, c), n1) /\
    recv c = Some ErrNamespaceNotFound.
Proof.
  intros pub.
  assert (Hres : ChannelOpts "x:foo" n1 = Ret ((plain, false), n1)) by reflexivity.
  split; [exact Hres |].
  exact (proj1 (Publish_namespace_not_found "x:foo" pub n1) plain Hres).
Defined.



(** User "u" leaves all channels on "n3": "c3" leaves its two channels,
    "c1" leaves "a" and refuses "b"; "c" of "c1" and the connection "c2"
    are not asked. *)
Lemma unsubscribeUser_stops_at_first_failure_witness :
  hub_UserConnections (hub n3) "u" = ["c3"] ++ "c1" :: ["c2"] /\
  unsubscribe_connections ["c3"] "" n3 = Ret (None, n3_after_c3) /\
  channels_to_leave "" (objects n3_after_c3 "c1") = ["a"] ++ "b" :: ["c"] /\
  unsubscribe_channels "c1" ["a"] n3_after_c3 = Ret (None, n3_after_a) /\
  call_client_Unsubscribe "c1" "b" n3_after_a
    = Ret (Some (ErrOther "unsubscribe failed"), n3_after_b) /\
  unsubscribeUser "u" "" n3 = Ret (Some (ErrOther "unsubscribe failed"), n3_after_b) /\
  client_frame (["c3"] ++ ["c1"]) n3 n3_after_b.
Proof.
  assert (H1 : hub_UserConnections (hub n3) "u" = ["c3"] ++ "c1" :: ["c2"])
    by (vm_compute; reflexivity).
  assert (H2 : unsubscribe_connections ["c3"] "" n3 = Ret (None, n3_after_c3))
    by reflexivity.
  assert (H3 : channels_to_leave "" (objects n3_after_c3 "c1") = ["a"] ++ "b" :: ["c"])
    by reflexivity.
  assert (H4 : unsubscribe_channels "c1" ["a"] n3_after_c3 = Ret (None, n3_after_a))
    by reflexivity.
  assert (H5 : call_client_Unsubscribe "c1" "b" n3_after_a
               = Ret (Some (ErrOther "unsubscribe failed"), n3_after_b))
    by reflexivity.
  split; [exact H1 |]. split; [exact H2 |]. split; [exact H3 |].
  split; [exact H4 |]. split; [exact H5 |].
  destruct (unsubscribeUser_stops_at_first_failure "u" "" ["c3"] ["c2"] "c1" ["a"] ["c"] "b"
              (ErrOther "unsubscribe failed") n3 n3_after_c3 n3_after_a n3_after_b
              H1 H2 H3 H4 H5) as (Hrun & _ & Hframe & _).
  split; [exact Hrun | exact Hframe].
Defined.

(** Two connections subscribe to "news" and leave it again on "n1". *)
Lemma subscription_engine_parity_witness :
  exists w',
    run_ops [OpAdd "news" "c1"; OpAdd "news" "c2";
             OpRemove "news" "c1"; OpRemove "news" "c2"] n1 = Ret w' /\
    count_calls (Call_eqb_EngineSubscribe "news") (calls w') = 1%nat /\
    count_calls (Call_eqb_EngineUnsubscribe "news") (calls w') = 1%nat.
Proof.
  destruct (proj1 (subscription_engine_parity "news"
                     [OpAdd "news" "c1"; OpAdd "news" "c2";
                      OpRemove "news" "c1"; OpRemove "news" "c2"] n1
                     SpecHub_keeps_contract))
    as (w' & Hrun & Hup & Hdown).
  exists w'. split; [exact Hrun |].
  assert (Hups : transitions goes_up "news"
                   [OpAdd "news" "c1"; OpAdd "news" "c2";
                    OpRemove "news" "c1"; OpRemove "news" "c2"] n1 = 1%nat)
    by (vm_compute; reflexivity).
  assert (Hdowns : transitions goes_down "news"
                     [OpAdd "news" "c1"; OpAdd "news" "c2";
                      OpRemove "news" "c1"; OpRemove "news" "c2"] n1 = 1%nat)
    by (vm_compute; reflexivity).
  rewrite Hups in Hup. rewrite Hdowns in Hdown. split; [exact Hup | exact Hdown].
Defined.

(** The calls of that run, one by one. *)
Example first_and_last_subscriber :
  exists w',
    run_ops [OpAdd "news" "c1"; OpAdd "news" "c2";
             OpRemove "news" "c1"; OpRemove "news" "c2"] n1 = Ret w' /\
    calls w' = [HubAddSub "news" "c1"; EngineSubscribe "news";
                HubAddSub "news" "c2";
                HubRemoveSub "news" "c1";
                HubRemoveSub "news" "c2"; EngineUnsubscribe "news"].
Proof. eexists. split; vm_compute; reflexivity. Qed.

(** [Disconnect] of user "u" with reconnect true on "n1". *)
Lemma Disconnect_fan_out_witness :
  "u" <> "" /\
  exists e w' cmd,
    Disconnect "u" true n1 = Ret (e, w') /\
    calls w' = calls n1 ++ [EnginePublishControl cmd] /\
    Command.Params cmd = (EncodeDisconnect {| ControlDisconnect.User := "u" |}).1.
Proof.
  assert (Hu : "u" <> "") by discriminate.
  split; [exact Hu |].
  destruct (Disconnect_fan_out "u" true n1 Hu) as (e & w' & cmd & Hrun & Hcalls & _ & Hp & _).
  exists e, w', cmd. split; [exact Hrun |]. split; [exact Hcalls | exact Hp].
Defined.

(** C2 as stated fails on "n1" and "n2".  The command that
    [Disconnect "u" true] publishes has the method "unsubscribe", not
    "disconnect".  And a peer that is handed a "disconnect" command with
    the published params closes the user's connection with reconnect
    false, where [disconnectUser "u" true] closes it with reconnect true. *)
Lemma Disconnect_fan_out_counterexample :
  ~ (exists w' cmd,
       Disconnect "u" true n1 = Ret (None, w') /\
       published w' = [cmd] /\
       Command.Method cmd = "disconnect")
  /\
  (exists w' cmd p p',
     Disconnect "u" true n1 = Ret (None, w') /\
     published w' = [cmd] /\
     Command.Method cmd = "unsubscribe" /\
     HandleControl {| Command.UID := Command.UID cmd; Command.Method := "disconnect";
                      Command.Params := Command.Params cmd |} n2 = Ret (None, p) /\
     goroutines p = [GoClose "c2" (disconnect_advice false)] /\
     disconnectUser "u" true n2 = Ret (None, p') /\
     goroutines p' = [GoClose "c2" (disconnect_advice true)]).
Proof.
  split.
  - intros (w' & cmd & Hrun & Hpub & Hmethod).
    assert (Hcode : exists v, Disconnect "u" true n1 = Ret (None, v) /\
                              published v = [{| Command.UID := "n1";
                                                Command.Method := "unsubscribe";
                                                Command.Params := "u" |}]).
    { eexists. split; vm_compute; reflexivity. }
    destruct Hcode as (v & Hrun' & Hpub'). rewrite Hrun' in Hrun.
    injection Hrun as <-. rewrite Hpub' in Hpub. injection Hpub as <-.
    discriminate.
  - eexists _, _, _, _. repeat split; vm_compute; reflexivity.
Qed.

(** C1 fails on "n1" and "n2": [Unsubscribe "u" "room"] on "n1" takes the
    local connection out of "room" only and publishes one "unsubscribe"
    command, whose params decode to user "u" and an empty channel; the
    peer "n2" that handles it takes the user's connection out of "room"
    and out of "other". *)
Theorem Unsubscribe_peer_loses_all_channels :
  exists w1 cmd w2,
    Unsubscribe "u" "room" n1 = Ret (None, w1) /\
    published w1 = [cmd] /\
    Command.Method cmd = "unsubscribe" /\
    DecodeUnsubscribe (Command.Params cmd)
      = DecodedOk {| ControlUnsubscribe.User := "u"; ControlUnsubscribe.Channel := "" |} /\
    client_Channels (objects w1 "c1") = ["other"] /\
    HandleControl cmd n2 = Ret (None, w2) /\
    calls w2 = [ClientUnsubscribe "c2" "room"; ClientUnsubscribe "c2" "other"] /\
    client_Channels (objects w2 "c2") = [].
Proof. eexists _, _, _. repeat split; vm_compute; reflexivity. Qed.

End Scenarios.

(** ** Cutting strings at a separator *)

Section SplitFacts.

Import GoStrings.

Lemma app_empty_r (s : string) : s +:+ "" = s.
Proof. induction s as [|x s IH]; rewrite ?app_nil, ?app_cons; [done | by rewrite IH]. Qed.

Lemma app_assoc_str (a b c : string) : (a +:+ b) +:+ c = a +:+ b +:+ c.
Proof. induction a as [|x a IH]; rewrite ?app_nil, ?app_cons; [done | by rewrite IH]. Qed.

Lemma slice_from_app (a b : string) : slice_from (String.length a) (a +:+ b) = b.
Proof. induction a as [|x a IH]; rewrite ?app_nil, ?app_cons; simpl; [by destruct b | done]. Qed.

Lemma slice_rejoin (n : nat) (s : string) : slice_to n s +:+ slice_from n s = s.
Proof.
  revert s; induction n as [|n IH]; intros [|x s]; simpl; rewrite ?app_nil, ?app_cons;
    try done.
  by rewrite IH.
Qed.

Lemma slice_from_from (a b : nat) (s : string) :
  slice_from (a + b) s = slice_from b (slice_from a s).
Proof.
  revert s; induction a as [|a IH]; intros s; simpl; [done |].
  destruct s as [|x s]; [by destruct b | apply IH].
Qed.

Lemma slice_from_length (n : nat) (s : string) :
  String.length (slice_from n s) = (String.length s - n)%nat.
Proof.
  revert s; induction n as [|n IH]; intros [|x s]; simpl; try lia. apply IH.
Qed.

Lemma HasPrefix_inv (s p : string) :
  HasPrefix s p = true -> s = p +:+ slice_from (String.length p) s.
Proof.
  unfold HasPrefix. intros Hp. apply andb_prop in Hp as [_ Heq].
  apply String.eqb_eq in Heq. rewrite <- Heq at 1. symmetry. apply slice_rejoin.
Qed.

Lemma HasPrefix_length (s p : string) :
  HasPrefix s p = true -> (String.length p <= String.length s)%nat.
Proof.
  unfold HasPrefix, len. intros Hp. apply andb_prop in Hp as [Hle _].
  apply Z.leb_le in Hle. lia.
Qed.

Lemma Index_lower (s sub : string) : -1 <= Index s sub.
Proof.
  unfold Index. induction s as [|x s IH]; simpl.
  - destruct (HasPrefix "" sub); lia.
  - destruct (HasPrefix (String x s) sub); [lia |].
    rewrite index_at_shift. destruct (Z.ltb_spec (index_at 0 s sub) 0); lia.
Qed.

(** Where [Index] points, the substring starts. *)
Lemma Index_found (s sub : string) :
  0 <= Index s sub ->
  (Z.to_nat (Index s sub) <= String.length s)%nat /\
  HasPrefix (slice_from (Z.to_nat (Index s sub)) s) sub = true.
Proof.
  unfold Index. induction s as [|x s IH]; simpl.
  - destruct (HasPrefix "" sub) eqn:Hp; [done | lia].
  - destruct (HasPrefix (String x s) sub) eqn:Hp; [simpl; split; [lia | done] |].
    rewrite index_at_shift. destruct (Z.ltb_spec (index_at 0 s sub) 0) as [Hneg | Hpos]; [lia |].
    intros _. destruct (IH Hpos) as [Hle Hhere].
    replace (Z.to_nat (0 + 1 + index_at 0 s sub)) with (S (Z.to_nat (index_at 0 s sub))) by lia.
    simpl. split; [lia | done].
Qed.

(** The string around the first instance of the separator. *)
Lemma Index_cut (s sub : string) :
  0 <= Index s sub ->
  s = slice_to (Z.to_nat (Index s sub)) s +:+ sub
        +:+ slice_from (Z.to_nat (Index s sub + len sub)) s /\
  (Z.to_nat (Index s sub + len sub) <= String.length s)%nat.
Proof.
  intros Hfound. destruct (Index_found s sub Hfound) as [Hle Hp].
  pose proof (HasPrefix_inv _ _ Hp) as Hcut.
  pose proof (HasPrefix_length _ _ Hp) as Hlen. rewrite slice_from_length in Hlen.
  unfold len. replace (Z.to_nat (Index s sub + Z.of_nat (String.length sub)))
    with (Z.to_nat (Index s sub) + String.length sub)%nat by lia.
  split; [| lia]. rewrite slice_from_from, <- Hcut. symmetry. apply slice_rejoin.
Qed.

(** A one-byte separator right after a string that does not contain it
    is the first instance. *)
Lemma HasPrefix_byte (b c : ascii) (t : string) :
  HasPrefix (String c t) (String b "") = Ascii.eqb c b.
Proof.
  unfold HasPrefix, len. simpl.
  destruct (Z.leb_spec (Z.of_nat 1) (Z.of_nat (S (String.length t)))); [| lia].
  by destruct (Ascii.eqb c b).
Qed.

Lemma Index_none_app_byte (b : ascii) (x y : string) :
  Index x (String b "") < 0 ->
  Index (x +:+ String b "" +:+ y) (String b "") = len x.
Proof.
  rewrite app_cons, app_nil.
  unfold Index, len. induction x as [|c x IH]; rewrite ?app_nil, ?app_cons; intros Hnone.
  - simpl index_at. by rewrite HasPrefix_byte, Ascii.eqb_refl.
  - simpl index_at in *. rewrite HasPrefix_byte in *.
    destruct (Ascii.eqb c b); [lia |].
    rewrite index_at_shift in Hnone |- *.
    destruct (Z.ltb_spec (index_at 0 x (String b "")) 0) as [Hneg | Hpos]; [| lia].
    rewrite (IH Hneg). simpl String.length.
    destruct (Z.ltb_spec (Z.of_nat (String.length x)) 0); lia.
Qed.

(** [split_loop] answers at least the remainder. *)
Lemma split_loop_cons (k : nat) (s sep : string) :
  exists x l, split_loop k s sep 0 = x :: l.
Proof.
  destruct k as [|k]; simpl; [by eexists _, _ |].
  destruct (Index s sep <? 0); by eexists _, _.
Qed.

(** The last piece is the whole string, or what follows a separator. *)
Lemma split_loop_last (k : nat) (s sep t : string) :
  last (split_loop k s sep 0) = Some t ->
  (t = s /\ split_loop k s sep 0 = [s]) \/ exists pre, s = pre +:+ sep +:+ t.
Proof.
  revert s. induction k as [|k IH]; intros s; simpl.
  - intros [= <-]. by left.
  - destruct (Z.ltb_spec (Index s sep) 0) as [Hneg | Hpos].
    + intros [= <-]. by left.
    + destruct (Index_cut s sep Hpos) as [Hcut _]. rewrite Z.add_0_r.
      set (rest := slice_from (Z.to_nat (Index s sep + len sep)) s) in *.
      destruct (split_loop_cons k rest sep) as (y & l & Hl).
      rewrite Hl. change (last (?x :: y :: l)) with (last (y :: l)). rewrite <- Hl.
      intros Hlast. right. destruct (IH rest Hlast) as [[-> _] | (pre & Hpre)].
      * by eexists.
      * exists (slice_to (Z.to_nat (Index s sep)) s +:+ sep +:+ pre).
        rewrite Hcut at 1. rewrite Hpre. by rewrite !app_assoc_str.
Qed.

(** Every piece sits in the string between separators or the ends. *)
Lemma split_loop_elem (k : nat) (s sep x : string) :
  In x (split_loop k s sep 0) ->
  exists a z, s = a +:+ x +:+ z /\
              (a = "" \/ exists a', a = a' +:+ sep) /\
              (z = "" \/ exists z', z = sep +:+ z').
Proof.
  revert s. induction k as [|k IH]; intros s; simpl.
  - intros [<- | []]. exists "", "". rewrite app_nil, app_empty_r. auto.
  - destruct (Z.ltb_spec (Index s sep) 0) as [Hneg | Hpos].
    + intros [<- | []]. exists "", "". rewrite app_nil, app_empty_r. auto.
    + destruct (Index_cut s sep Hpos) as [Hcut _]. rewrite Z.add_0_r.
      set (rest := slice_from (Z.to_nat (Index s sep + len sep)) s) in *.
      set (head := slice_to (Z.to_nat (Index s sep)) s) in *.
      intros [<- | Hin].
      * exists "", (sep +:+ rest). rewrite app_nil. split; [done |]. split; [by left |].
        right. by eexists.
      * destruct (IH rest Hin) as (a & z & Hrest & Ha & Hz).
        exists (head +:+ sep +:+ a), z. split; [| split; [| done]].
        -- rewrite Hcut at 1. rewrite Hrest. by rewrite !app_assoc_str.
        -- right. destruct Ha as [-> | (a' & ->)].
           ++ exists head. by rewrite app_empty_r.
           ++ exists (head +:+ sep +:+ a'). by rewrite !app_assoc_str.
Qed.

Lemma count_loop_nonneg (f : nat) (s sep : string) : 0 <= count_loop f s sep.
Proof.
  revert s. induction f as [|f IH]; intros s; simpl; [lia |].
  destruct (Index s sep =? -1); [lia |]. specialize (IH (slice_from (Z.to_nat (Index s sep + len sep)) s)). lia.
Qed.

(** With the cuts that [Count] allows, the last piece holds no separator. *)
Lemma split_count_last (f : nat) (s sep t : string) :
  sep <> "" -> (String.length s < f)%nat ->
  last (split_loop (Z.to_nat (count_loop f s sep)) s sep 0) = Some t ->
  Index t sep < 0.
Proof.
  intros Hsep. assert (Hlen : (1 <= String.length sep)%nat) by (destruct sep; simpl; [done | lia]).
  revert s. induction f as [|f IH]; intros s Hf; [lia |]. simpl count_loop.
  pose proof (Index_lower s sep) as Hlow.
  destruct (Z.eqb_spec (Index s sep) (-1)) as [Hnone | Hsome].
  - simpl. intros [= <-]. lia.
  - assert (Hpos : 0 <= Index s sep) by lia.
    destruct (Index_cut s sep Hpos) as [Hcut Hin].
    set (rest := slice_from (Z.to_nat (Index s sep + len sep)) s) in *.
    pose proof (count_loop_nonneg f rest sep) as Hc.
    replace (Z.to_nat (1 + count_loop f rest sep))
      with (S (Z.to_nat (count_loop f rest sep))) by lia.
    simpl split_loop. destruct (Z.ltb_spec (Index s sep) 0); [lia |]. fold rest.
    destruct (split_loop_cons (Z.to_nat (count_loop f rest sep)) rest sep) as (y & l & Hl).
    rewrite Hl. change (last (?x :: y :: l)) with (last (y :: l)). rewrite <- Hl.
    apply IH. unfold rest. rewrite slice_from_length. unfold len in *. lia.
Qed.

(** [Split] with a non-empty separator. *)
Lemma Split_nonempty_sep (s sep : string) :
  sep <> "" ->
  Split s sep = split_loop (Z.to_nat (count_loop (S (String.length s)) s sep)) s sep 0.
Proof.
  intros Hsep. unfold Split, genSplit. simpl (-1 =? 0). cbv iota.
  destruct (String.eqb_spec sep "") as [? | _]; [done |].
  simpl (-1 <? 0). cbv iota. unfold Count, len.
  destruct (Z.eqb_spec (Z.of_nat (String.length sep)) 0) as [Hz | _].
  - destruct sep; [done | simpl in Hz; lia].
  - cbv zeta. change (-1 <? 0) with true. cbv iota. by rewrite Z.add_simpl_r.
Qed.

Lemma Split_cuts_once (s sep : string) :
  sep <> "" -> 0 <= Index s sep ->
  (1 <= Z.to_nat (count_loop (S (String.length s)) s sep))%nat.
Proof.
  intros Hsep Hpos. simpl count_loop.
  destruct (Z.eqb_spec (Index s sep) (-1)); [lia |].
  pose proof (count_loop_nonneg (String.length s)
                (slice_from (Z.to_nat (Index s sep + len sep)) s) sep). lia.
Qed.

(** [explode]: pieces of the string, in order. *)
Lemma explode_loop_last (k : nat) (s t : string) :
  last (explode_loop k s) = Some t -> exists pre, s = pre +:+ t.
Proof.
  revert s. induction k as [|k IH]; intros s; simpl.
  - intros [= <-]. by exists "".
  - destruct k as [|k'] eqn:Hk.
    + simpl. intros [= <-]. exists (slice_to (rune_width s) s). symmetry. apply slice_rejoin.
    + change (last (?x :: explode_loop (S k') ?r)) with (last (explode_loop (S k') r)).
      intros Hlast. destruct (IH _ Hlast) as (pre & Hpre).
      exists (slice_to (rune_width s) s +:+ pre).
      rewrite app_assoc_str, <- Hpre. symmetry. apply slice_rejoin.
Qed.

Lemma explode_loop_elem (k : nat) (s x : string) :
  In x (explode_loop k s) -> exists a z, s = a +:+ x +:+ z.
Proof.
  revert s. induction k as [|k IH]; intros s; simpl.
  - intros [<- | []]. exists "", "". by rewrite app_nil, app_empty_r.
  - intros [<- | Hin].
    + exists "", (slice_from (rune_width s) s). rewrite app_nil. symmetry. apply slice_rejoin.
    + destruct (IH _ Hin) as (a & z & Hrest).
      exists (slice_to (rune_width s) s +:+ a), z.
      rewrite app_assoc_str, <- Hrest. symmetry. apply slice_rejoin.
Qed.

Lemma rune_count_nonneg (f : nat) (s : string) : 0 <= rune_count f s.
Proof.
  revert s. induction f as [|f IH]; intros s; simpl; [lia |].
  destruct s; [lia |]. specialize (IH (slice_from (rune_width (String a s)) (String a s))). lia.
Qed.

Lemma Split_empty_sep (s : string) :
  Split s "" = match s with
               | "" => []
               | _ => explode_loop (Z.to_nat (RuneCountInString s - 1)) s
               end.
Proof.
  unfold Split, genSplit, explode. simpl (-1 =? 0). simpl (String.eqb "" ""). cbv iota.
  simpl (-1 <? 0). simpl orb. cbv iota. unfold RuneCountInString.
  destruct s as [|x s]; [done |]. simpl rune_count.
  pose proof (rune_count_nonneg (String.length s)
                (slice_from (rune_width (String x s)) (String x s))) as Hn.
  destruct (Z.ltb_spec 0 (1 + rune_count (String.length s)
                             (slice_from (rune_width (String x s)) (String x s))));
    [done | lia].
Qed.

(** The last piece of a [Split], when there is one, ends the string, and
    a separator found in the string precedes it. *)
Lemma Split_last (s sep t : string) :
  last (Split s sep) = Some t ->
  0 <= Index s sep ->
  exists pre, s = pre +:+ sep +:+ t.
Proof.
  intros Hlast Hfound. destruct (String.eqb_spec sep "") as [-> | Hsep].
  - rewrite Split_empty_sep in Hlast. destruct s as [|x s]; [done |].
    destruct (explode_loop_last _ _ _ Hlast) as (pre & Hpre). exists pre. by rewrite app_nil.
  - rewrite (Split_nonempty_sep s sep Hsep) in Hlast.
    pose proof (Split_cuts_once s sep Hsep Hfound) as Hcuts.
    destruct (split_loop_last _ _ _ _ Hlast) as [[_ Hone] | Hpre]; [| done].
    destruct (Z.to_nat (count_loop (S (String.length s)) s sep)) as [|k]; [lia |].
    simpl in Hone. destruct (Z.ltb_spec (Index s sep) 0); [lia |].
    injection Hone as _ Htail.
    destruct (split_loop_cons k (slice_from (Z.to_nat (Index s sep + len sep)) s) sep)
      as (y & l & Hl).
    rewrite Hl in Htail. discriminate.
Qed.

Lemma Split_elem (s sep x : string) :
  In x (Split s sep) ->
  exists a z, s = a +:+ x +:+ z /\
              (a = "" \/ exists a', a = a' +:+ sep) /\
              (z = "" \/ exists z', z = sep +:+ z').
Proof.
  intros Hin. destruct (String.eqb_spec sep "") as [-> | Hsep].
  - rewrite Split_empty_sep in Hin. destruct s as [|c s]; [done |].
    destruct (explode_loop_elem _ _ _ Hin) as (a & z & Hs).
    exists a, z. split; [done |]. split; right; [exists a; by rewrite app_empty_r | by exists z].
  - rewrite (Split_nonempty_sep s sep Hsep) in Hin. by eapply split_loop_elem.
Qed.

(** [Split] answers no piece only for an empty string cut at every
    character. *)
Lemma Split_nil (s sep : string) : Split s sep = [] <-> s = "" /\ sep = "".
Proof.
  destruct (String.eqb_spec sep "") as [-> | Hsep].
  - rewrite Split_empty_sep. destruct s as [|x s]; [done |].
    split; [| by intros [? _]].
    destruct (Z.to_nat (RuneCountInString (String x s) - 1)); simpl; done.
  - rewrite (Split_nonempty_sep s sep Hsep).
    destruct (split_loop_cons (Z.to_nat (count_loop (S (String.length s)) s sep)) s sep)
      as (y & l & ->).
    split; [done | by intros [_ ?]].
Qed.

Lemma user_listed_In (user : string) (l : list string) :
  user_listed user l = true <-> In user l.
Proof.
  induction l as [|x l IH]; simpl; [done |].
  destruct (String.eqb_spec user x) as [-> | Hne]; [by split; auto |].
  rewrite IH. split; [by right | by intros [? | ?]].
Qed.

(** A one-byte separator: what follows its last instance is determined. *)
Lemma Index_app_byte_found (b : ascii) (a t : string) :
  0 <= Index (a +:+ String b t) (String b "").
Proof. exact (proj1 (Index_app_bounds a (String b "") t)). Qed.

Lemma after_last_byte (b : ascii) (a1 a2 t1 t2 : string) :
  a1 +:+ String b "" +:+ t1 = a2 +:+ String b "" +:+ t2 ->
  Index t1 (String b "") < 0 -> Index t2 (String b "") < 0 -> t1 = t2.
Proof.
  revert a2. induction a1 as [|x a1 IH]; intros [|y a2];
    rewrite ?app_cons, ?app_nil; intros Heq H1 H2.
  - injection Heq as Heq. exact Heq.
  - injection Heq as _ Heq. rewrite Heq in H1.
    pose proof (Index_app_byte_found b a2 t2) as Hb. lia.
  - injection Heq as _ Heq. rewrite <- Heq in H2.
    pose proof (Index_app_byte_found b a1 t1) as Hb. lia.
  - injection Heq as _ Heq. apply (IH a2); [exact Heq | exact H1 | exact H2].
Qed.

(** A one-byte separator: [Split] takes a joined list apart again. *)
Lemma Index_app_none_byte (b : ascii) (x y : string) :
  Index (x +:+ y) (String b "") < 0 -> Index x (String b "") < 0.
Proof.
  unfold Index. induction x as [|c x IH]; rewrite ?app_nil, ?app_cons.
  - intros _. simpl. unfold HasPrefix, len. simpl. lia.
  - simpl index_at. rewrite !HasPrefix_byte. destruct (Ascii.eqb c b); [done |].
    rewrite (index_at_shift (0 + 1) (x +:+ y)), (index_at_shift (0 + 1) x).
    destruct (Z.ltb_spec (index_at 0 (x +:+ y) (String b "")) 0) as [Hneg | Hpos].
    + intros _. specialize (IH Hneg).
      destruct (Z.ltb_spec (index_at 0 x (String b "")) 0); lia.
    + lia.
Qed.

Lemma count_loop_S (f : nat) (s sep : string) :
  count_loop (S f) s sep
  = if Index s sep =? -1 then 0
    else 1 + count_loop f (slice_from (Z.to_nat (Index s sep + len sep)) s) sep.
Proof. reflexivity. Qed.

Lemma split_loop_S (k : nat) (s sep : string) :
  split_loop (S k) s sep 0
  = if Index s sep <? 0 then [s]
    else slice_to (Z.to_nat (Index s sep + 0)) s
           :: split_loop k (slice_from (Z.to_nat (Index s sep + len sep)) s) sep 0.
Proof. reflexivity. Qed.

Lemma joined_cons (x y : string) (l : list string) (sep : string) :
  joined (x :: y :: l) sep = x +:+ sep +:+ joined (y :: l) sep.
Proof. reflexivity. Qed.

Lemma split_joined_byte (b : ascii) (xs : list string) (f : nat) :
  xs <> [] ->
  (forall x, In x xs -> Index x (String b "") < 0) ->
  (String.length (joined xs (String b "")) < f)%nat ->
  count_loop f (joined xs (String b "")) (String b "") = Z.of_nat (List.length xs - 1) /\
  split_loop (List.length xs - 1) (joined xs (String b "")) (String b "") 0 = xs.
Proof.
  revert f. induction xs as [|x xs IH]; intros f Hne Hfree Hf; [done |].
  destruct xs as [|y xs].
  - simpl joined in *. simpl List.length. simpl split_loop.
    destruct f as [|f]; [lia |]. simpl count_loop.
    pose proof (Hfree x (or_introl eq_refl)) as Hx. pose proof (Index_lower x (String b "")).
    by destruct (Z.eqb_spec (Index x (String b "")) (-1)); [| lia].
  - rewrite joined_cons in *.
    pose proof (Hfree x (or_introl eq_refl)) as Hx.
    pose proof (Index_none_app_byte b x (joined (y :: xs) (String b "")) Hx) as Hidx.
    assert (Hrest : slice_from
                      (Z.to_nat (Index (x +:+ String b "" +:+ joined (y :: xs) (String b ""))
                                   (String b "") + len (String b "")))
                      (x +:+ String b "" +:+ joined (y :: xs) (String b ""))
                    = joined (y :: xs) (String b "")).
    { rewrite Hidx. unfold len.
      replace (Z.to_nat (Z.of_nat (String.length x) + Z.of_nat (String.length (String b ""))))
        with (String.length x + String.length (String b ""))%nat by lia.
      by rewrite slice_from_from, slice_from_app, slice_from_app. }
    destruct f as [|f]; [lia |].
    destruct (IH f) as [Hcount Hsplit]; [done | by intros z Hz; apply Hfree; right | |].
    { rewrite !app_length in Hf. change (String.length (String b "")) with 1%nat in Hf.
      lia. }
    replace (List.length (x :: y :: xs) - 1)%nat with (S (List.length (y :: xs) - 1))
      by (simpl; lia).
    split.
    + rewrite count_loop_S, Hrest.
      destruct (Z.eqb_spec (Index (x +:+ String b "" +:+ joined (y :: xs) (String b ""))
                              (String b "")) (-1)) as [Hm | _];
        [unfold len in Hidx; lia |].
      rewrite Hcount. lia.
    + rewrite split_loop_S, Hrest, Hsplit.
      destruct (Z.ltb_spec (Index (x +:+ String b "" +:+ joined (y :: xs) (String b ""))
                              (String b "")) 0) as [Hm | _];
        [unfold len in Hidx; lia |].
      rewrite Hidx, Z.add_0_r. unfold len. by rewrite Nat2Z.id, slice_to_app.
Qed.

Lemma Split_joined_byte (b : ascii) (xs : list string) :
  xs <> [] ->
  (forall x, In x xs -> Index x (String b "") < 0) ->
  Split (joined xs (String b "")) (String b "") = xs.
Proof.
  intros Hne Hfree. rewrite Split_nonempty_sep by done.
  destruct (split_joined_byte b xs (S (String.length (joined xs (String b "")))) Hne Hfree)
    as [Hcount Hsplit]; [lia |].
  rewrite Hcount, Nat2Z.id. exact Hsplit.
Qed.

(** With a one-byte separator, the last piece of a [Split] is what
    follows the last instance. *)
Lemma Split_last_byte (b : ascii) (pre t : string) :
  Index t (String b "") < 0 ->
  last (Split (pre +:+ String b "" +:+ t) (String b "")) = Some t.
Proof.
  intros Hfree. set (s := pre +:+ String b "" +:+ t).
  pose proof (Index_app_bounds pre (String b "") t) as Hfound. fold s in Hfound.
  assert (Hsome : exists t', last (Split s (String b "")) = Some t').
  { destruct (Split s (String b "")) as [|y l] eqn:Hs.
    - apply Split_nil in Hs as [_ ?]. done.
    - destruct (last (y :: l)) eqn:Hl; [by eexists |]. by apply last_None in Hl. }
  destruct Hsome as (t' & Hlast). rewrite Hlast. f_equal.
  destruct (Split_last s (String b "") t' Hlast) as (pre' & Hpre'); [lia |].
  rewrite Split_nonempty_sep in Hlast by done.
  pose proof (split_count_last (S (String.length s)) s (String b "") t'
                ltac:(done) ltac:(lia) Hlast) as Hfree'.
  symmetry. eapply after_last_byte; [| exact Hfree | exact Hfree'].
  unfold s in Hpre'. exact Hpre'.
Qed.

End SplitFacts.


(** ** Who may subscribe to a channel *)

Section AllowLists.

Import GoStrings.

Lemma Contains_found (s sub : string) : Contains s sub = true <-> 0 <= Index s sub.
Proof. unfold Contains. apply Z.leb_le. Qed.

Lemma last_part_returns (parts : list string) (t : string) :
  last_part parts = Ret t <-> last parts = Some t.
Proof. unfold last_part. destruct (last parts); split; congruence. Qed.

(** X1: [ClientAllowed] admits a client to a channel that contains the
    client boundary only if the channel ends with the boundary followed by
    that client's id. *)
Theorem ClientAllowed_pins_client (c : Boundaries.t) (ch client : string) :
  ClientAllowed c ch client = Ret true ->
  Contains ch (Boundaries.ClientChannelBoundary c) = false \/
  exists pre, ch = pre +:+ Boundaries.ClientChannelBoundary c +:+ client.
Proof.
  unfold ClientAllowed.
  destruct (Contains ch (Boundaries.ClientChannelBoundary c)) eqn:Hc; [| by left].
  simpl. destruct (last_part _) as [t | p] eqn:Hlast; [| done].
  intros [= Heq]. apply String.eqb_eq in Heq. subst t. right.
  apply last_part_returns in Hlast. apply Split_last; [done |]. by apply Contains_found.
Qed.

Lemma ClientAllowed_pins_client_witness :
  ClientAllowed stock_boundaries "news&42" "42" = Ret true /\
  (Contains "news&42" "&" = false \/ exists pre, "news&42" = pre +:+ "&" +:+ "42").
Proof.
  assert (Hrun : ClientAllowed stock_boundaries "news&42" "42" = Ret true) by reflexivity.
  split; [exact Hrun |]. exact (ClientAllowed_pins_client stock_boundaries "news&42" "42" Hrun).
Defined.

(** X2: with a one-byte client boundary, a channel that ends with the
    boundary and a client id free of it admits that client and no other. *)
Theorem ClientAllowed_one_byte_boundary (c : Boundaries.t) (b : ascii)
    (pre client x : string) :
  Boundaries.ClientChannelBoundary c = String b "" ->
  Index client (String b "") < 0 ->
  ClientAllowed c (pre +:+ String b "" +:+ client) x = Ret (String.eqb x client).
Proof.
  intros Hb Hfree. unfold ClientAllowed. rewrite Hb.
  assert (Hc : Contains (pre +:+ String b "" +:+ client) (String b "") = true).
  { apply Contains_found. apply Index_app_bounds. }
  rewrite Hc. simpl. unfold last_part. by rewrite Split_last_byte.
Qed.

Lemma ClientAllowed_one_byte_boundary_witness :
  Boundaries.ClientChannelBoundary stock_boundaries = String "&" "" /\
  Index "42" (String "&" "") < 0 /\
  ClientAllowed stock_boundaries ("news" +:+ String "&" "" +:+ "42") "7"
    = Ret (String.eqb "7" "42").
Proof.
  assert (Hb : Boundaries.ClientChannelBoundary stock_boundaries = String "&" "")
    by reflexivity.
  assert (Hfree : Index "42" (String "&" "") < 0) by (vm_compute; reflexivity).
  split; [exact Hb |]. split; [exact Hfree |].
  exact (ClientAllowed_one_byte_boundary stock_boundaries "&" "news" "42" "7" Hb Hfree).
Defined.

(** X3: [UserAllowed] admits a user to a channel that contains the user
    boundary only if the channel ends with the boundary and a tail in which
    the user's id stands between separators or the ends of the tail. *)
Theorem UserAllowed_lists_user (c : Boundaries.t) (ch user : string) :
  UserAllowed c ch user = Ret true ->
  Contains ch (Boundaries.UserChannelBoundary c) = false \/
  exists pre a z,
    ch = pre +:+ Boundaries.UserChannelBoundary c +:+ a +:+ user +:+ z /\
    (a = "" \/ exists a', a = a' +:+ Boundaries.UserChannelSeparator c) /\
    (z = "" \/ exists z', z = Boundaries.UserChannelSeparator c +:+ z').
Proof.
  unfold UserAllowed.
  destruct (Contains ch (Boundaries.UserChannelBoundary c)) eqn:Hc; [| by left].
  simpl. destruct (last_part _) as [t | p] eqn:Hlast; [| done].
  intros [= Hin]. apply user_listed_In in Hin. right.
  apply last_part_returns in Hlast.
  destruct (Split_last _ _ _ Hlast) as (pre & Hpre); [by apply Contains_found |].
  destruct (Split_elem _ _ _ Hin) as (a & z & Ht & Ha & Hz).
  exists pre, a, z. split; [| done]. by rewrite Hpre, Ht.
Qed.

Lemma UserAllowed_lists_user_witness :
  UserAllowed stock_boundaries "news#1,2,42" "2" = Ret true /\
  (Contains "news#1,2,42" "#" = false \/
   exists pre a z,
     "news#1,2,42" = pre +:+ "#" +:+ a +:+ "2" +:+ z /\
     (a = "" \/ exists a', a = a' +:+ ",") /\
     (z = "" \/ exists z', z = "," +:+ z')).
Proof.
  assert (Hrun : UserAllowed stock_boundaries "news#1,2,42" "2" = Ret true) by reflexivity.
  split; [exact Hrun |]. exact (UserAllowed_lists_user stock_boundaries "news#1,2,42" "2" Hrun).
Defined.

(** X4: with a one-byte user boundary and a one-byte separator, a channel
    that ends with the boundary and a separated list of ids, none holding
    the separator and the list not holding the boundary, admits exactly the
    users of the list. *)
Theorem UserAllowed_allow_list (c : Boundaries.t) (b s : ascii)
    (base : string) (users : list string) (user : string) :
  Boundaries.UserChannelBoundary c = String b "" ->
  Boundaries.UserChannelSeparator c = String s "" ->
  users <> [] ->
  Index (joined users (String s "")) (String b "") < 0 ->
  (forall u, In u users -> Index u (String s "") < 0) ->
  exists r,
    UserAllowed c (base +:+ String b "" +:+ joined users (String s "")) user = Ret r /\
    (r = true <-> In user users).
Proof.
  intros Hb Hs Hne Hfree Hsep. unfold UserAllowed. rewrite Hb, Hs.
  assert (Hc : Contains (base +:+ String b "" +:+ joined users (String s "")) (String b "")
               = true).
  { apply Contains_found. apply Index_app_bounds. }
  rewrite Hc. simpl. unfold last_part. rewrite Split_last_byte by done.
  rewrite Split_joined_byte by done.
  eexists. split; [reflexivity |]. apply user_listed_In.
Qed.

Lemma UserAllowed_allow_list_witness :
  Boundaries.UserChannelBoundary stock_boundaries = String "#" "" /\
  Boundaries.UserChannelSeparator stock_boundaries = String "," "" /\
  ["1"; "2"; "42"] <> @nil string /\
  Index (joined ["1"; "2"; "42"] (String "," "")) (String "#" "") < 0 /\
  (forall u, In u ["1"; "2"; "42"] -> Index u (String "," "") < 0) /\
  exists r,
    UserAllowed stock_boundaries
      ("news" +:+ String "#" "" +:+ joined ["1"; "2"; "42"] (String "," "")) "42" = Ret r /\
    (r = true <-> In "42" ["1"; "2"; "42"]).
Proof.
  assert (Hb : Boundaries.UserChannelBoundary stock_boundaries = String "#" "") by reflexivity.
  assert (Hs : Boundaries.UserChannelSeparator stock_boundaries = String "," "") by reflexivity.
  assert (Hne : ["1"; "2"; "42"] <> @nil string) by discriminate.
  assert (Hfree : Index (joined ["1"; "2"; "42"] (String "," "")) (String "#" "") < 0)
    by (vm_compute; reflexivity).
  assert (Hsep : forall u, In u ["1"; "2"; "42"] -> Index u (String "," "") < 0).
  { intros u [<- | [<- | [<- | []]]]; vm_compute; reflexivity. }
  split; [exact Hb |]. split; [exact Hs |]. split; [exact Hne |].
  split; [exact Hfree |]. split; [exact Hsep |].
  exact (UserAllowed_allow_list stock_boundaries "#" "," "news" ["1"; "2"; "42"] "42"
           Hb Hs Hne Hfree Hsep).
Defined.

(** X5: [ClientAllowed] and [UserAllowed] panic, with an index out of
    range, exactly for the empty channel under an empty boundary; in every
    other case they return. *)
Theorem channel_checks_panic (c : Boundaries.t) (ch who : string) :
  (forall p, ClientAllowed c ch who = Throw p <->
             p = IndexOutOfRange /\ Boundaries.ClientChannelBoundary c = "" /\ ch = "") /\
  (forall p, UserAllowed c ch who = Throw p <->
             p = IndexOutOfRange /\ Boundaries.UserChannelBoundary c = "" /\ ch = "").
Proof.
  assert (Hempty : Contains "" "" = true) by reflexivity.
  split; intros p.
  - unfold ClientAllowed.
    destruct (Contains ch (Boundaries.ClientChannelBoundary c)) eqn:Hc; simpl.
    + unfold last_part. destruct (last (Split ch _)) as [t|] eqn:Hlast.
      * split; [done |]. intros (_ & Hb & ->). rewrite Hb in Hlast. done.
      * apply last_None in Hlast. apply Split_nil in Hlast as [-> ->].
        split; [by intros [= <-] | by intros (-> & _)].
    + split; [done |]. intros (_ & Hb & ->). rewrite Hb in Hc. congruence.
  - unfold UserAllowed.
    destruct (Contains ch (Boundaries.UserChannelBoundary c)) eqn:Hc; simpl.
    + unfold last_part. destruct (last (Split ch _)) as [t|] eqn:Hlast.
      * split; [done |]. intros (_ & Hb & ->). rewrite Hb in Hlast. done.
      * apply last_None in Hlast. apply Split_nil in Hlast as [-> ->].
        split; [by intros [= <-] | by intros (-> & _)].
    + split; [done |]. intros (_ & Hb & ->). rewrite Hb in Hc. congruence.
Qed.

(** What precedes the first instance of a non-empty separator holds none. *)
Lemma Index_head_free (s sep : string) :
  sep <> "" -> 0 <= Index s sep ->
  Index (slice_to (Z.to_nat (Index s sep)) s) sep < 0.
Proof.
  intros Hsep Hfound.
  assert (Hlen : (1 <= String.length sep)%nat) by (destruct sep; simpl; [done | lia]).
  destruct (Index_found s sep Hfound) as [Hle _].
  set (h := slice_to (Z.to_nat (Index s sep)) s).
  assert (Hh : String.length h = Z.to_nat (Index s sep)) by by apply slice_to_length.
  destruct (Z.ltb_spec (Index h sep) 0) as [? | Hin]; [done | exfalso].
  destruct (Index_cut h sep Hin) as [Hcut Hfit].
  destruct (Index_found h sep Hin) as [Hle' _].
  set (u := slice_to (Z.to_nat (Index h sep)) h) in *.
  assert (Hu : String.length u = Z.to_nat (Index h sep)) by by apply slice_to_length.
  pose proof (slice_rejoin (Z.to_nat (Index s sep)) s) as Hs. fold h in Hs.
  rewrite Hcut in Hs. rewrite !app_assoc_str in Hs.
  pose proof (Index_app_bounds u sep
                (slice_from (Z.to_nat (Index h sep + len sep)) h
                   +:+ slice_from (Z.to_nat (Index s sep)) s)) as Hb.
  rewrite Hs in Hb. unfold len in *. lia.
Qed.

(** The namespace under a non-empty boundary. *)
Lemma namespaceName_trimmed (c : Config.t) (ch : string) :
  Config.NamespaceChannelBoundary c <> "" ->
  namespaceName c ch
  = let cTrim := TrimPrefix ch (Config.PrivateChannelPrefix c) in
    if Contains cTrim (Config.NamespaceChannelBoundary c)
    then Ret (slice_to (Z.to_nat (Index cTrim (Config.NamespaceChannelBoundary c))) cTrim)
    else Ret "".
Proof.
  intros Hb. unfold namespaceName. cbv zeta.
  set (cTrim := TrimPrefix ch (Config.PrivateChannelPrefix c)).
  destruct (Contains cTrim (Config.NamespaceChannelBoundary c)) eqn:Hc; [| done].
  apply Contains_found in Hc.
  unfold SplitN, genSplit. simpl (2 =? 0). cbv iota.
  destruct (String.eqb_spec (Config.NamespaceChannelBoundary c) "") as [? | _]; [done |].
  simpl (2 <? 0). cbv iota. change (Z.to_nat (2 - 1)) with 1%nat.
  simpl split_loop.
  destruct (Z.ltb_spec (Index cTrim (Config.NamespaceChannelBoundary c)) 0); [lia |].
  by rewrite Z.add_0_r.
Qed.

(** X6: under a non-empty namespace boundary, [namespaceName] returns for
    every channel, and what it returns starts the channel (the private
    prefix taken off), holds no boundary, and is empty unless a boundary
    follows it. *)
Theorem namespaceName_holds_no_boundary (c : Config.t) (ch : string) :
  Config.NamespaceChannelBoundary c <> "" ->
  exists ns,
    namespaceName c ch = Ret ns /\
    Index ns (Config.NamespaceChannelBoundary c) < 0 /\
    ((ns = "" /\
      Contains (TrimPrefix ch (Config.PrivateChannelPrefix c))
        (Config.NamespaceChannelBoundary c) = false) \/
     exists rest,
       TrimPrefix ch (Config.PrivateChannelPrefix c)
       = ns +:+ Config.NamespaceChannelBoundary c +:+ rest).
Proof.
  intros Hb. rewrite (namespaceName_trimmed c ch Hb). cbv zeta.
  set (cTrim := TrimPrefix ch (Config.PrivateChannelPrefix c)).
  destruct (Contains cTrim (Config.NamespaceChannelBoundary c)) eqn:Hc.
  - apply Contains_found in Hc. eexists. split; [reflexivity |].
    split; [by apply Index_head_free |]. right.
    destruct (Index_cut cTrim _ Hc) as [Hcut _]. by eexists.
  - exists "". split; [done |]. split; [| by left].
    pose proof (Index_lower "" (Config.NamespaceChannelBoundary c)).
    destruct (Z.ltb_spec (Index "" (Config.NamespaceChannelBoundary c)) 0) as [? | Hin];
      [done |].
    destruct (Index_found "" _ Hin) as [_ Hp]. apply HasPrefix_length in Hp.
    rewrite slice_from_length in Hp.
    destruct (Config.NamespaceChannelBoundary c); [congruence | simpl in Hp; lia].
Qed.

Lemma namespaceName_holds_no_boundary_witness :
  Config.NamespaceChannelBoundary Sample.cfg <> "" /\
  exists ns,
    namespaceName Sample.cfg "$chat:room:1" = Ret ns /\
    Index ns ":" < 0.
Proof.
  assert (Hb : Config.NamespaceChannelBoundary Sample.cfg <> "") by discriminate.
  split; [exact Hb |].
  destruct (namespaceName_holds_no_boundary Sample.cfg "$chat:room:1" Hb)
    as (ns & Hrun & Hfree & _).
  exists ns. split; [exact Hrun | exact Hfree].
Defined.

Lemma TrimPrefix_app (p s : string) : TrimPrefix (p +:+ s) p = s.
Proof. unfold TrimPrefix. by rewrite HasPrefix_app, slice_from_app. Qed.

(** X7: a channel and the same channel behind the private prefix have the
    same namespace, provided the channel does not itself start with the
    prefix. *)
Theorem namespaceName_private_prefix (c : Config.t) (ch : string) :
  HasPrefix ch (Config.PrivateChannelPrefix c) = false ->
  namespaceName c (Config.PrivateChannelPrefix c +:+ ch) = namespaceName c ch.
Proof.
  intros Hp. unfold namespaceName. by rewrite (TrimPrefix_none _ _ Hp), TrimPrefix_app.
Qed.

Lemma namespaceName_private_prefix_witness :
  HasPrefix "chat:room" (Config.PrivateChannelPrefix Sample.cfg) = false /\
  namespaceName Sample.cfg ("$" +:+ "chat:room") = namespaceName Sample.cfg "chat:room".
Proof.
  assert (Hp : HasPrefix "chat:room" (Config.PrivateChannelPrefix Sample.cfg) = false)
    by reflexivity.
  split; [exact Hp |]. exact (namespaceName_private_prefix Sample.cfg "chat:room" Hp).
Defined.

End AllowLists.

(** ** What control commands and forced operations leave behind *)

Section ControlFacts.

Context {H E R C G : Type}.
Context `{!Hub H, !Engine E, !Registry R, !Client C, !Nuid G, !ControlCodec}.

Local Abbreviation World := (World H E R C G).

Ltac step :=
  cbv [bind ret get modify lift record logger_Printf Counters_Inc
       call_engine_Publish call_engine_PublishControl call_engine_Subscribe
       call_engine_Unsubscribe call_hub_AddSub call_hub_RemoveSub
       call_hub_UserConnections call_hub_Shutdown call_client_Channels
       call_client_Unsubscribe call_nodes_add call_nuid_Next go close_shutdownCh].

(** X9: a malformed command from another node is answered with
    [ErrBadRequest] and one line in the error log; registry, connections,
    goroutines and calls stay as they were, and the command is counted as
    received. *)
Theorem HandleControl_rejects_malformed (cmd : Command.t) (w : World) :
  Command.UID cmd <> uid w ->
  malformed cmd = true ->
  exists line w',
    HandleControl cmd w = Ret (Some ErrBadRequest, w') /\
    logs w' = logs w ++ [line] /\ level line = ERROR /\
    counters w' = <["node_num_control_received" :=
                     default 0 (counters w !! "node_num_control_received") + 1]> (counters w) /\
    nodes w' = nodes w /\ objects w' = objects w /\
    goroutines w' = goroutines w /\ calls w' = calls w /\ hub w' = hub w.
Proof.
  intros Hpeer Hbad. unfold HandleControl. step. simpl.
  destruct (String.eqb_spec (Command.UID cmd) (uid w)) as [? | _]; [done |].
  unfold malformed in Hbad.
  destruct (String.eqb (Command.Method cmd) "node").
  { destruct (DecodeNode (Command.Params cmd)); [done |]. by eexists _, _. }
  destruct (String.eqb (Command.Method cmd) "unsubscribe").
  { destruct (DecodeUnsubscribe (Command.Params cmd)); [done |]. by eexists _, _. }
  destruct (String.eqb (Command.Method cmd) "disconnect").
  { destruct (DecodeDisconnect (Command.Params cmd)); [done |]. by eexists _, _. }
  by eexists _, _.
Qed.

(** X10: for a non-empty channel, [unsubscribeUser] returns for every
    state of the node.  It calls [Unsubscribe] for that channel on the
    connections of the user one by one, in the order the hub lists them,
    and stops at the first call that is refused: every call but the last
    is answered nil, what [unsubscribeUser] returns is the answer of the
    last call, and when it returns nil every connection of the user was
    called. *)
Theorem unsubscribeUser_one_call_each (user ch : string) (w : World) :
  ch <> "" ->
  exists e w' n,
    unsubscribeUser user ch w = Ret (e, w') /\
    calls w' = calls w ++ map (fun c => ClientUnsubscribe c ch)
                            (take n (hub_UserConnections (hub w) user)) /\
    asked_in_turn (objects w)
      (map (fun c => (c, ch)) (take n (hub_UserConnections (hub w) user)))
      e (objects w') /\
    (e = None -> n = List.length (hub_UserConnections (hub w) user)).
Proof.
  intros Hch. set (cs := hub_UserConnections (hub w) user).
  destruct (unsubscribe_connections_asked cs ch w)
    as (e & w' & l & Hrun & _ & Hcalls & Hasked & Hlist).
  destruct (Hlist (fun Hempty => False_ind _ (Hch Hempty))) as (Hpre & Hall).
  rewrite (calls_to_leave_one_channel ch (objects w) cs Hch) in Hpre, Hall.
  assert (Hl : l = map (fun c => (c, ch)) (take (List.length l) cs)).
  { destruct Hpre as (k & Hk). rewrite <- firstn_map, Hk. by rewrite take_app_length. }
  remember (List.length l) as n eqn:Hn in Hl.
  exists e, w', n. split.
  { unfold unsubscribeUser, call_hub_UserConnections. step. exact Hrun. }
  split; [by rewrite Hcalls, Hl, map_map |].
  split; [by rewrite <- Hl |].
  intros He. by rewrite Hn, (Hall He), length_map.
Qed.


(** X12: a subscription that the hub accepted as the first one stays in
    the hub when [engine.Subscribe] fails: [AddSubscription] returns the
    engine's error and undoes nothing, so the hub counts a subscriber on a
    channel the engine is not subscribed to.  In the same way a failing
    [engine.Unsubscribe] leaves the channel without local subscribers. *)
Theorem subscription_not_rolled_back (ch : string) (c : ClientRef) (w : World)
    (err : Error) :
  HubContract ->
  ((hub_AddSub (hub w) ch c).2 = (true, None) ->
   (engine_Subscribe (engine w) ch).2 = Some err ->
   exists w',
     AddSubscription ch c w = Ret (Some err, w') /\
     hub w' = (hub_AddSub (hub w) ch c).1 /\
     1 <= hub_NumSubscribers (hub w') ch) /\
  ((hub_RemoveSub (hub w) ch c).2 = (true, None) ->
   (engine_Unsubscribe (engine w) ch).2 = Some err ->
   exists w',
     RemoveSubscription ch c w = Ret (Some err, w') /\
     hub w' = (hub_RemoveSub (hub w) ch c).1 /\
     hub_NumSubscribers (hub w') ch = 0).
Proof.
  intros Hhub. split; intros Hanswer Hfail.
  - unfold AddSubscription. step. simpl.
    pose proof (add_done Hhub (hub w) ch c) as Hdone.
    destruct (hub_AddSub (hub w) ch c) as [h' [first e]]. simpl in *.
    injection Hanswer as -> ->. simpl. step. simpl.
    destruct (engine_Subscribe (engine w) ch) as [e' r]. simpl in *. subst r.
    eexists. split; [reflexivity |]. simpl. split; [done |]. by apply Hdone.
  - unfold RemoveSubscription. step. simpl.
    pose proof (remove_done Hhub (hub w) ch c) as Hdone.
    destruct (hub_RemoveSub (hub w) ch c) as [h' [empty e]]. simpl in *.
    injection Hanswer as -> ->. simpl. step. simpl.
    destruct (engine_Unsubscribe (engine w) ch) as [e' r]. simpl in *. subst r.
    eexists. split; [reflexivity |]. simpl. split; [done |].
    destruct (Hdone eq_refl) as [_ Hempty]. by apply Hempty.
Qed.

End ControlFacts.

(** ** These on the sample collaborators *)

Section MoreScenarios.

(** A command of "n1" with the unknown method "ping", handled by "n2". *)
Lemma HandleControl_rejects_malformed_witness :
  let cmd := {| Command.UID := "n1"; Command.Method := "ping"; Command.Params := "" |} in
  Command.UID cmd <> uid Sample.n2 /\ malformed cmd = true /\
  exists line w',
    HandleControl cmd Sample.n2 = Ret (Some ErrBadRequest, w') /\
    logs w' = logs Sample.n2 ++ [line] /\ calls w' = calls Sample.n2.
Proof.
  intros cmd.
  assert (Hpeer : Command.UID cmd <> uid Sample.n2) by discriminate.
  assert (Hbad : malformed cmd = true) by reflexivity.
  split; [exact Hpeer |]. split; [exact Hbad |].
  destruct (HandleControl_rejects_malformed cmd Sample.n2 Hpeer Hbad)
    as (line & w' & Hrun & Hlog & _ & _ & _ & _ & _ & Hcalls & _).
  exists line, w'. split; [exact Hrun |]. split; [exact Hlog | exact Hcalls].
Defined.

(** User "u" leaves "b" on "n3": "c3" leaves it, "c1" refuses, and "c2",
    which the hub lists last, is not called. *)
Lemma unsubscribeUser_one_call_each_witness :
  "b" <> "" /\
  hub_UserConnections (hub Sample.n3) "u" = ["c3"; "c1"; "c2"] /\
  (exists w', unsubscribeUser "u" "b" Sample.n3
              = Ret (Some (ErrOther "unsubscribe failed"), w') /\
              calls w' = [ClientUnsubscribe "c3" "b"; ClientUnsubscribe "c1" "b"]) /\
  exists e w' n,
    unsubscribeUser "u" "b" Sample.n3 = Ret (e, w') /\
    calls w' = calls Sample.n3 ++ map (fun c => ClientUnsubscribe c "b")
                                    (take n (hub_UserConnections (hub Sample.n3) "u")) /\
    asked_in_turn (objects Sample.n3)
      (map (fun c => (c, "b")) (take n (hub_UserConnections (hub Sample.n3) "u")))
      e (objects w').
Proof.
  assert (Hch : "b" <> "") by discriminate.
  split; [exact Hch |]. split; [vm_compute; reflexivity |].
  split; [eexists; split; vm_compute; reflexivity |].
  destruct (unsubscribeUser_one_call_each "u" "b" Sample.n3 Hch)
    as (e & w' & n & Hrun & Hcalls & Hasked & _).
  exists e, w', n. split; [exact Hrun |]. split; [exact Hcalls | exact Hasked].
Defined.

(** The first subscription to "news" on a node whose engine refuses
    subscriptions: the error comes back and the hub counts the subscriber. *)
Lemma subscription_not_rolled_back_witness :
  (hub_AddSub (hub Sample2.n1_deaf) "news" "c1").2 = (true, None) /\
  (engine_Subscribe (engine Sample2.n1_deaf) "news").2 = Some (ErrOther "subscribe failed") /\
  exists w',
    AddSubscription "news" "c1" Sample2.n1_deaf = Ret (Some (ErrOther "subscribe failed"), w') /\
    1 <= hub_NumSubscribers (hub w') "news".
Proof.
  assert (Hfirst : (hub_AddSub (hub Sample2.n1_deaf) "news" "c1").2 = (true, None))
    by (vm_compute; reflexivity).
  assert (Hfail : (engine_Subscribe (engine Sample2.n1_deaf) "news").2
                  = Some (ErrOther "subscribe failed")) by reflexivity.
  split; [exact Hfirst |]. split; [exact Hfail |].
  destruct (proj1 (subscription_not_rolled_back "news" "c1" Sample2.n1_deaf
                     (ErrOther "subscribe failed") SpecHub_keeps_contract) Hfirst Hfail)
    as (w' & Hrun & _ & Hcount).
  exists w'. split; [exact Hrun | exact Hcount].
Defined.


End MoreScenarios.

(** ** Messages from the engine, joins and leaves, reads *)

Section NodeRestFacts.

Context {H E R C G : Type}.
Context `{!Hub H, !Engine E, !Registry R, !Client C, !Nuid G, !ControlCodec}.
Context `{!HubRest H, !EngineRest E, !MessageDecoder}.

Local Abbreviation World := (World H E R C G).

Ltac walk :=
  cbv [bind ret get modify lift record logger_Printf Counters_Inc step_hub step_engine].

(** The handlers of decoded messages, in full: the message is counted,
    and the hub is asked to broadcast it when the channel has local
    subscribers. *)
Lemma HandlePublication_exact (ch : string) (p : Publication.t) (w : World) :
  let counted :=
    set_counters (<["node_num_publication_received" :=
                     default 0 (counters w !! "node_num_publication_received") + 1]>
                    (counters w)) w in
  HandlePublication ch p w
  = if 0 <? hub_NumSubscribers (hub w) ch
    then Ret ((hub_BroadcastPublication (hub w) ch p).2,
              set_hub (hub_BroadcastPublication (hub w) ch p).1 counted)
    else Ret (None, counted).
Proof.
  unfold HandlePublication. walk. simpl.
  destruct (0 <? hub_NumSubscribers (hub w) ch); simpl; [| done].
  by destruct (hub_BroadcastPublication (hub w) ch p).
Qed.

Lemma HandleJoin_exact (ch : string) (j : Join.t) (w : World) :
  let counted :=
    set_counters (<["node_num_join_received" :=
                     default 0 (counters w !! "node_num_join_received") + 1]>
                    (counters w)) w in
  HandleJoin ch j w
  = if 0 <? hub_NumSubscribers (hub w) ch
    then Ret ((hub_BroadcastJoin (hub w) ch j).2,
              set_hub (hub_BroadcastJoin (hub w) ch j).1 counted)
    else Ret (None, counted).
Proof.
  unfold HandleJoin. walk. simpl.
  destruct (0 <? hub_NumSubscribers (hub w) ch); simpl; [| done].
  by destruct (hub_BroadcastJoin (hub w) ch j).
Qed.

Lemma HandleLeave_exact (ch : string) (l : Leave.t) (w : World) :
  let counted :=
    set_counters (<["node_num_leave_received" :=
                     default 0 (counters w !! "node_num_leave_received") + 1]>
                    (counters w)) w in
  HandleLeave ch l w
  = if 0 <? hub_NumSubscribers (hub w) ch
    then Ret ((hub_BroadcastLeave (hub w) ch l).2,
              set_hub (hub_BroadcastLeave (hub w) ch l).1 counted)
    else Ret (None, counted).
Proof.
  unfold HandleLeave. walk. simpl.
  destruct (0 <? hub_NumSubscribers (hub w) ch); simpl; [| done].
  by destruct (hub_BroadcastLeave (hub w) ch l).
Qed.

(** X13: [HandleClientMessage] returns for every message, and the error
    it returns is the decoder's.  A payload that does not decode is handed
    back with the decoder's error and leaves the node as it was, not even
    counted; a message of another type is ignored.  A message that decodes
    is counted as received under the counter of its type; when its channel
    has local subscribers the hub is asked to broadcast it and becomes
    what the broadcast leaves, and an error of the broadcast is not
    returned; when the channel has no local subscriber the hub is not
    asked and the counter is all that changes. *)
Theorem HandleClientMessage_reports_decoding_only (message : Message.t) (w : World) :
  let ch := Message.Channel message in
  let counted (name : string) :=
    set_counters (<[name := default 0 (counters w !! name) + 1]> (counters w)) w in
  exists w',
    HandleClientMessage message w = Ret (undecodable message, w') /\
    (undecodable message <> None -> w' = w) /\
    (forall code, Message.Type_ message = MessageTypeOther code -> w' = w) /\
    (forall p, Message.Type_ message = MessageTypePublication ->
       DecodePublication (Message.Data message) = DecodedOk p ->
       if 0 <? hub_NumSubscribers (hub w) ch
       then hub w' = (hub_BroadcastPublication (hub w) ch p).1 /\
            counters w' = counters (counted "node_num_publication_received")
       else w' = counted "node_num_publication_received") /\
    (forall j, Message.Type_ message = MessageTypeJoin ->
       DecodeJoin (Message.Data message) = DecodedOk j ->
       if 0 <? hub_NumSubscribers (hub w) ch
       then hub w' = (hub_BroadcastJoin (hub w) ch j).1 /\
            counters w' = counters (counted "node_num_join_received")
       else w' = counted "node_num_join_received") /\
    (forall l, Message.Type_ message = MessageTypeLeave ->
       DecodeLeave (Message.Data message) = DecodedOk l ->
       if 0 <? hub_NumSubscribers (hub w) ch
       then hub w' = (hub_BroadcastLeave (hub w) ch l).1 /\
            counters w' = counters (counted "node_num_leave_received")
       else w' = counted "node_num_leave_received").
Proof.
  intros ch counted. unfold HandleClientMessage, undecodable.
  destruct (Message.Type_ message) as [| | | code].
  - destruct (DecodePublication (Message.Data message)) as [p | err].
    + unfold bind. rewrite HandlePublication_exact. fold ch. cbv zeta.
      destruct (0 <? hub_NumSubscribers (hub w) ch) eqn:Hsubs; eexists;
        (split; [reflexivity |]); (split; [done |]); (split; [done |]);
        (split; [| by split]); intros p' _ [= <-]; by rewrite ?Hsubs.
    + exists w. split; [done |]. by repeat split.
  - destruct (DecodeJoin (Message.Data message)) as [j | err].
    + unfold bind. rewrite HandleJoin_exact. fold ch. cbv zeta.
      destruct (0 <? hub_NumSubscribers (hub w) ch) eqn:Hsubs; eexists;
        (split; [reflexivity |]); (split; [done |]); (split; [done |]);
        (split; [done |]); (split; [| done]); intros j' _ [= <-]; by rewrite ?Hsubs.
    + exists w. split; [done |]. by repeat split.
  - destruct (DecodeLeave (Message.Data message)) as [l | err].
    + unfold bind. rewrite HandleLeave_exact. fold ch. cbv zeta.
      destruct (0 <? hub_NumSubscribers (hub w) ch) eqn:Hsubs; eexists;
        (split; [reflexivity |]); (split; [done |]); (split; [done |]);
        (split; [done |]); (split; [done |]); intros l' _ [= <-]; by rewrite ?Hsubs.
    + exists w. split; [done |]. by repeat split.
  - exists w. split; [done |]. by repeat split.
Qed.

(** X14: [PublishJoin] and [PublishLeave] without options, for a channel
    whose namespace does not resolve, return a channel that delivers
    [ErrNamespaceNotFound] and leave the world untouched: the engine is not
    stepped and nothing is counted as sent.  With options given or
    resolved, the message is counted once and the engine's channel is
    returned. *)
Theorem PublishJoin_PublishLeave_namespace (ch : string) (j : Join.t) (l : Leave.t)
    (w : World) :
  (forall o, ChannelOpts ch w = Ret ((o, false), w) ->
     PublishJoin ch j None w = Ret (makeErrChan (Some ErrNamespaceNotFound), w) /\
     PublishLeave ch l None w = Ret (makeErrChan (Some ErrNamespaceNotFound), w)) /\
  (forall opts o,
     opts = Some o \/ (opts = None /\ ChannelOpts ch w = Ret ((o, true), w)) ->
     (exists w',
        PublishJoin ch j opts w = Ret ((engine_PublishJoin (engine w) ch j o).2, w') /\
        engine w' = (engine_PublishJoin (engine w) ch j o).1 /\
        counters w' = <["node_num_join_sent" :=
                         default 0 (counters w !! "node_num_join_sent") + 1]>
                        (counters w)) /\
     (exists w',
        PublishLeave ch l opts w = Ret ((engine_PublishLeave (engine w) ch l o).2, w') /\
        engine w' = (engine_PublishLeave (engine w) ch l o).1 /\
        counters w' = <["node_num_leave_sent" :=
                         default 0 (counters w !! "node_num_leave_sent") + 1]>
                        (counters w))).
Proof.
  split.
  - intros o Hres. unfold PublishJoin, PublishLeave. unfold bind at 1 3.
    by rewrite Hres.
  - intros opts o Hres. split.
    + assert (Hrun : PublishJoin ch j opts w
                     = bind (Counters_Inc "node_num_join_sent")
                         (fun _ => step_engine (fun e => engine_PublishJoin e ch j o)) w).
      { destruct Hres as [-> | [-> Hres]]; [done |].
        unfold PublishJoin. unfold bind at 1. by rewrite Hres. }
      rewrite Hrun. walk. simpl.
      destruct (engine_PublishJoin (engine w) ch j o) as [e' c]. by eexists.
    + assert (Hrun : PublishLeave ch l opts w
                     = bind (Counters_Inc "node_num_leave_sent")
                         (fun _ => step_engine (fun e => engine_PublishLeave e ch l o)) w).
      { destruct Hres as [-> | [-> Hres]]; [done |].
        unfold PublishLeave. unfold bind at 1. by rewrite Hres. }
      rewrite Hrun. walk. simpl.
      destruct (engine_PublishLeave (engine w) ch l o) as [e' c]. by eexists.
Qed.

(** X15: the reads differ in what they do with an error of the engine.
    [Presence] hides it: it answers [ErrInternalServerError] with no
    presence and writes the engine's error to the log.  [History] and
    [LastMessageID] hand the engine's error back as it is, with no
    publications and an empty id, and log nothing.  Without an error,
    [LastMessageID] answers the uid of the first publication of the
    history it asked for with limit 1, and the empty id when there is none. *)
Theorem reads_on_engine_error (ch : string) (w : World) :
  (forall err, (engine_Presence (engine w) ch).2.2 = Some err ->
     exists w',
       Presence ch w = Ret ((∅, Some ErrInternalServerError), w') /\
       logs w' = logs w ++ [{| level := ERROR; format := "error getting presence: %v";
                               args := [ArgError err] |}]) /\
  (forall err, (engine_History (engine w) ch 0).2.2 = Some err ->
     exists w', History ch w = Ret (([], Some err), w') /\ logs w' = logs w) /\
  (forall err, (engine_History (engine w) ch 1).2.2 = Some err ->
     exists w', LastMessageID ch w = Ret (("", Some err), w') /\ logs w' = logs w) /\
  ((engine_History (engine w) ch 1).2.2 = None ->
     exists w',
       LastMessageID ch w
       = Ret ((match (engine_History (engine w) ch 1).2.1 with
               | [] => ""
               | p0 :: _ => Publication.UID p0
               end, None), w')).
Proof.
  split; [| split; [| split]].
  - intros err Herr. unfold Presence. walk. simpl.
    destruct (engine_Presence (engine w) ch) as [e' [presence r]]. simpl in *. subst r.
    simpl. by eexists.
  - intros err Herr. unfold History. walk. simpl.
    destruct (engine_History (engine w) ch 0) as [e' [pubs r]]. simpl in *. subst r.
    simpl. by eexists.
  - intros err Herr. unfold LastMessageID. walk. simpl.
    destruct (engine_History (engine w) ch 1) as [e' [pubs r]]. simpl in *. subst r.
    simpl. by eexists.
  - intros Hok. unfold LastMessageID. walk. simpl.
    destruct (engine_History (engine w) ch 1) as [e' [pubs r]]. simpl in *. subst r.
    simpl. destruct pubs; by eexists.
Qed.

End NodeRestFacts.

(** The node with the lossy hub: a publication that decodes is broadcast,
    the broadcast fails, and [HandleClientMessage] answers nil. *)
Example lossy_broadcast_not_reported :
  let message := {| Message.Type_ := MessageTypePublication; Message.Channel := "news";
                    Message.Data := "p1" |} in
  HandlePublication "news"
    {| Publication.UID := "p1"; Publication.Data := "p1"; Publication.Info := None |}
    Sample3.n_lossy
  = Ret (Some (ErrOther "send buffer full"),
         set_counters {["node_num_publication_received" := 1]} Sample3.n_lossy) /\
  HandleClientMessage message Sample3.n_lossy
  = Ret (None, set_counters {["node_num_publication_received" := 1]} Sample3.n_lossy).
Proof. split; vm_compute; reflexivity. Qed.

(** ** Node information on the control channel *)

Section GossipFacts.

Context {H E R C G MR : Type}.
Context `{!Hub H, !Engine E, !Registry R, !Client C, !Nuid G, !ControlCodec}.
Context `{!HubRest H, !EngineRest E, !MetricsRest MR}.

Local Abbreviation World := (World H E R C G).

Ltac pace :=
  cbv [bind ret get modify lift record logger_Printf logger_Println Counters_Inc
       step_hub step_engine nodeCmd publishControl call_nodes_add
       call_engine_PublishControl].

(** What one [pubNode] leaves behind. *)
Lemma pubNode_returns (rd : Readings.t) (g : Gossip.t MR) (w : World) :
  let node := {| ControlNode.UID := uid w;
                 ControlNode.Name := Config.Name (config w);
                 ControlNode.Version := version w;
                 ControlNode.StartedAt := startedAt w;
                 ControlNode.MetricsUpdateInterval := Readings.MetricsUpdateInterval rd;
                 ControlNode.Metrics := if Gossip.metricsOnce g then ∅
                                        else Gossip.metricsSnapshot g |} in
  let cmd := {| Command.UID := uid w; Command.Method := "node";
                Command.Params := (EncodeNode node).1 |} in
  exists g' w',
    pubNode rd g w = Ret ((recv (engine_PublishControl (engine w) cmd).2, g'), w') /\
    calls w' = calls w ++ [RegistryAdd node; EnginePublishControl cmd] /\
    nodes w' = registry_add (nodes w) node /\
    engine w' = (engine_PublishControl (engine w) cmd).1 /\
    hub w' = hub w /\ objects w' = objects w /\ logs w' = logs w /\
    uid w' = uid w /\ config w' = config w /\ version w' = version w /\
    startedAt w' = startedAt w /\
    Gossip.metricsOnce g' = true /\
    Gossip.metricsSnapshot g' = Gossip.metricsSnapshot g /\
    Gossip.rest g' = Gossip.rest g /\
    Gossip.loops g' = Gossip.loops g /\
    (Gossip.metricsOnce g = true -> g' = g) /\
    (Gossip.metricsOnce g = false ->
     Gossip.Gauges g' !! "node_num_clients" = Some (hub_NumClients (hub w))).
Proof.
  intros node cmd. subst node cmd. unfold pubNode.
  destruct g as [snapshot once gauges rest0 loops0]. simpl.
  destruct once; pace; simpl.
  - destruct (engine_PublishControl _ _) as [e' c] eqn:He. simpl.
    eexists _, _. split; [reflexivity |]. simpl.
    rewrite <- app_assoc. simpl. do 14 (split; [done |]). split; done.
  - destruct (engine_PublishControl _ _) as [e' c] eqn:He. simpl.
    eexists _, _. split; [reflexivity |]. simpl.
    rewrite <- app_assoc. simpl. do 14 (split; [done |]). split; [done |].
    intros _. rewrite !lookup_insert_ne by done. apply lookup_insert_eq.
Qed.



(** X16: [pubNode] returns for every state of the node.  It adds the
    information about the node to the node's own registry first and then
    publishes one "node" command with the node's uid and the encoded
    information; it answers what the engine delivers for that command, and
    the entry in the registry stays when the engine delivers an error.
    The metrics of the information are the snapshot when the once has not
    run and nothing when it has.  Nothing is logged and the hub is as
    before. *)
Theorem pubNode_registers_then_publishes (rd : Readings.t) (g : Gossip.t MR) (w : World) :
  let node := {| ControlNode.UID := uid w;
                 ControlNode.Name := Config.Name (config w);
                 ControlNode.Version := version w;
                 ControlNode.StartedAt := startedAt w;
                 ControlNode.MetricsUpdateInterval := Readings.MetricsUpdateInterval rd;
                 ControlNode.Metrics := if Gossip.metricsOnce g then ∅
                                        else Gossip.metricsSnapshot g |} in
  let cmd := {| Command.UID := uid w; Command.Method := "node";
                Command.Params := (EncodeNode node).1 |} in
  exists g' w',
    pubNode rd g w = Ret ((recv (engine_PublishControl (engine w) cmd).2, g'), w') /\
    calls w' = calls w ++ [RegistryAdd node; EnginePublishControl cmd] /\
    nodes w' = registry_add (nodes w) node /\
    engine w' = (engine_PublishControl (engine w) cmd).1 /\
    hub w' = hub w /\ logs w' = logs w.
Proof.
  intros node cmd.
  destruct (pubNode_returns rd g w)
    as (g' & w' & Hrun & Hcalls & Hnodes & Hengine & Hhub & _ & Hlogs & _).
  exists g', w'. by repeat split.
Qed.



(** X19: the command that [pubNode] publishes, handled by a node with
    another uid, makes that node add to its registry what its decoder
    makes of the encoded information (the information itself when the
    codec loses nothing), and is answered with nil. *)
Theorem pubNode_reaches_peer (rd : Readings.t) (g : Gossip.t MR) (w peer : World)
    (node' : ControlNode.t) :
  let node := {| ControlNode.UID := uid w;
                 ControlNode.Name := Config.Name (config w);
                 ControlNode.Version := version w;
                 ControlNode.StartedAt := startedAt w;
                 ControlNode.MetricsUpdateInterval := Readings.MetricsUpdateInterval rd;
                 ControlNode.Metrics := if Gossip.metricsOnce g then ∅
                                        else Gossip.metricsSnapshot g |} in
  uid peer <> uid w ->
  DecodeNode (EncodeNode node).1 = DecodedOk node' ->
  exists e g' w' cmd peer',
    pubNode rd g w = Ret ((e, g'), w') /\
    last (calls w') = Some (EnginePublishControl cmd) /\
    HandleControl cmd peer = Ret (None, peer') /\
    nodes peer' = registry_add (nodes peer) node' /\
    calls peer' = calls peer ++ [RegistryAdd node'] /\
    engine peer' = engine peer /\ hub peer' = hub peer /\ logs peer' = logs peer.
Proof.
  intros node Huid Hdecode.
  destruct (pubNode_returns rd g w) as (g' & w' & Hrun & Hcalls & _).
  eexists _, g', w', _, _. split; [exact Hrun |].
  split; [rewrite Hcalls, last_app; reflexivity |].
  unfold HandleControl. pace. simpl.
  destruct (String.eqb_spec (uid w) (uid peer)) as [Heq | _]; [by rewrite Heq in Huid |].
  fold node. rewrite Hdecode. simpl. by repeat split.
Qed.

(** X20: [Run] installs the engine it is given.  When the engine does not
    start, [Run] answers the engine's error: nothing is registered or
    published and no loop is started.  When it starts, [Run] answers nil
    whatever becomes of the first [pubNode]: the node's information is in
    its registry, one command is published, the three loops are started,
    and an error delivered for the command is logged as critical and not
    returned. *)
Theorem Run_outcomes (e : E) (rd : Readings.t) (g : Gossip.t MR) (w : World) :
  (forall err, (engine_Run e).2 = Some err ->
     Run e rd g w = Ret ((Some err, g), set_engine (engine_Run e).1 w)) /\
  ((engine_Run e).2 = None ->
   exists g' w' node cmd,
     Run e rd g w = Ret ((None, g'), w') /\
     calls w' = calls w ++ [RegistryAdd node; EnginePublishControl cmd] /\
     ControlNode.UID node = uid w /\ Command.Method cmd = "node" /\
     nodes w' = registry_add (nodes w) node /\
     engine w' = (engine_PublishControl (engine_Run e).1 cmd).1 /\
     Gossip.loops g' = Gossip.loops g ++ [sendNodePingMsg; cleanNodeInfo; updateMetrics] /\
     logs w' = logs w ++
               match recv (engine_PublishControl (engine_Run e).1 cmd).2 with
               | Some err => [{| level := CRITICAL; format := ""; args := [ArgError err] |}]
               | None => []
               end).
Proof.
  split.
  - intros err Herr. unfold Run. pace. simpl.
    destruct (engine_Run e) as [e' r]. simpl in *. by subst r.
  - intros Hok. unfold Run. unfold bind at 1. unfold modify at 1.
    unfold bind at 1. unfold step_engine.
    cbv [bind get modify ret]. simpl.
    destruct (engine_Run e) as [e' r]. simpl in *. subst r.
    destruct (pubNode_returns rd g (set_engine e' (set_engine e w)))
      as (g1 & w1 & Hrun & Hcalls & Hnodes & Hengine & _ & _ & Hlogs & _ & _ & _ & _ &
          _ & _ & _ & Hloops & _).
    simpl in Hrun, Hcalls, Hnodes, Hengine, Hlogs.
    rewrite Hrun. simpl.
    destruct (recv _) as [err |] eqn:Herr; pace; simpl.
    + eexists _, _, _, _. split; [reflexivity |]. simpl.
      split; [exact Hcalls |]. split; [reflexivity |]. split; [reflexivity |].
      split; [exact Hnodes |]. split; [exact Hengine |].
      split; [by rewrite Hloops |]. by rewrite Hlogs, Herr.
    + eexists _, _, _, _. split; [reflexivity |]. simpl.
      split; [exact Hcalls |]. split; [reflexivity |]. split; [reflexivity |].
      split; [exact Hnodes |]. split; [exact Hengine |].
      split; [by rewrite Hloops |]. by rewrite Hlogs, Herr, app_nil_r.
Qed.

End GossipFacts.

(** ** Scenarios with the lossy hub and the stores *)

Section RestScenarios.

(** On the node with the lossy hub, for the channel "news" with its one
    subscriber: a publication without data is refused by the decoder,
    handed back with the decoder's error, and the node is as before; a
    publication that decodes is counted, and the error of the broadcast
    is not returned. *)
Lemma HandleClientMessage_reports_decoding_only_witness :
  let empty := {| Message.Type_ := MessageTypePublication; Message.Channel := "news";
                   Message.Data := "" |} in
  let good := {| Message.Type_ := MessageTypePublication; Message.Channel := "news";
                  Message.Data := "p1" |} in
  (undecodable empty = Some (ErrOther "empty publication") /\
   HandleClientMessage empty Sample3.n_lossy
   = Ret (Some (ErrOther "empty publication"), Sample3.n_lossy)) /\
  (exists p w',
     DecodePublication (Message.Data good) = DecodedOk p /\
     (hub_BroadcastPublication (hub Sample3.n_lossy) "news" p).2
     = Some (ErrOther "send buffer full") /\
     HandleClientMessage good Sample3.n_lossy = Ret (None, w') /\
     counters w' = {["node_num_publication_received" := 1]}).
Proof.
  intros empty good.
  assert (Hbad : undecodable empty = Some (ErrOther "empty publication"))
    by reflexivity.
  split.
  - split; [exact Hbad |].
    destruct (HandleClientMessage_reports_decoding_only empty Sample3.n_lossy)
      as (w' & Hrun & Hsame & _).
    rewrite Hrun, Hbad. rewrite (Hsame ltac:(by rewrite Hbad)). reflexivity.
  - destruct (HandleClientMessage_reports_decoding_only good Sample3.n_lossy)
      as (w' & Hrun & _ & _ & Hpub & _).
    eexists _, w'. split; [reflexivity |]. split; [reflexivity |].
    split; [exact Hrun |].
    exact (proj2 (Hpub _ eq_refl eq_refl)).
Defined.

(** On the node with the sample configuration, "x:foo" has no namespace
    and "news" resolves to the plain options. *)
Lemma PublishJoin_PublishLeave_namespace_witness :
  let j := {| Join.Info := Sample3.someone "c1" |} in
  let l := {| Leave.Info := Sample3.someone "c1" |} in
  (ChannelOpts "x:foo" Sample3.n_lossy = Ret ((Sample.plain, false), Sample3.n_lossy) /\
   PublishJoin "x:foo" j None Sample3.n_lossy
   = Ret (makeErrChan (Some ErrNamespaceNotFound), Sample3.n_lossy) /\
   PublishLeave "x:foo" l None Sample3.n_lossy
   = Ret (makeErrChan (Some ErrNamespaceNotFound), Sample3.n_lossy)) /\
  (ChannelOpts "news" Sample3.n_lossy = Ret ((Sample.plain, true), Sample3.n_lossy) /\
   exists w',
     PublishJoin "news" j None Sample3.n_lossy = Ret (chan_of None, w') /\
     counters w' = {["node_num_join_sent" := 1]}).
Proof.
  intros j l.
  assert (Hbad : ChannelOpts "x:foo" Sample3.n_lossy
                 = Ret ((Sample.plain, false), Sample3.n_lossy)) by reflexivity.
  assert (Hgood : ChannelOpts "news" Sample3.n_lossy
                  = Ret ((Sample.plain, true), Sample3.n_lossy)) by reflexivity.
  split.
  - split; [exact Hbad |].
    exact (proj1 (PublishJoin_PublishLeave_namespace "x:foo" j l Sample3.n_lossy)
             Sample.plain Hbad).
  - split; [exact Hgood |].
    destruct (proj1 (proj2 (PublishJoin_PublishLeave_namespace "news" j l Sample3.n_lossy)
                       None Sample.plain (or_intror (conj eq_refl Hgood))))
      as (w' & Hrun & _ & Hcount).
    exists w'. split; [exact Hrun | exact Hcount].
Defined.

(** Reads on a node whose engine cannot read, and the last message id on
    a node whose engine keeps "p2" and "p1". *)
Lemma reads_on_engine_error_witness :
  let down := Sample3.node_on Sample3.silent Sample3.unreadable_engine in
  let stocked := Sample3.node_on Sample3.silent Sample3.stocked_engine in
  (exists w', Presence "news" down = Ret ((∅, Some ErrInternalServerError), w') /\
              logs w' = [{| level := ERROR; format := "error getting presence: %v";
                            args := [ArgError (ErrOther "storage is down")] |}]) /\
  (exists w', History "news" down = Ret (([], Some (ErrOther "storage is down")), w') /\
              logs w' = []) /\
  (exists w', LastMessageID "news" down
              = Ret (("", Some (ErrOther "storage is down")), w') /\
              logs w' = []) /\
  (exists w', LastMessageID "news" stocked = Ret (("p2", None), w')).
Proof.
  intros down stocked.
  destruct (reads_on_engine_error "news" down) as (Hpresence & Hhistory & Hlast & _).
  destruct (reads_on_engine_error "news" stocked) as (_ & _ & _ & Hid).
  split; [exact (Hpresence (ErrOther "storage is down") eq_refl) |].
  split; [exact (Hhistory (ErrOther "storage is down") eq_refl) |].
  split; [exact (Hlast (ErrOther "storage is down") eq_refl) |].
  exact (Hid eq_refl).
Defined.


(** The information of "n1" reaches "n2": with the sample codec, which
    writes the uid, the name and the version, "n2" registers these. *)
Lemma pubNode_reaches_peer_witness :
  let heard := {| ControlNode.UID := "n1"; ControlNode.Name := "sample";
                  ControlNode.Version := "2.0"; ControlNode.StartedAt := 0;
                  ControlNode.MetricsUpdateInterval := 0; ControlNode.Metrics := ∅ |} in
  uid Sample3.peer <> uid Sample3.n_lossy /\
  exists e g' w' cmd peer',
    pubNode Sample3.calm Sample3.fresh Sample3.n_lossy = Ret ((e, g'), w') /\
    last (calls w') = Some (EnginePublishControl cmd) /\
    HandleControl cmd Sample3.peer = Ret (None, peer') /\
    nodes peer' = registry_add (nodes Sample3.peer) heard /\
    calls peer' = calls Sample3.peer ++ [RegistryAdd heard] /\
    engine peer' = engine Sample3.peer /\ hub peer' = hub Sample3.peer /\
    logs peer' = logs Sample3.peer.
Proof.
  intros heard.
  assert (Huid : uid Sample3.peer <> uid Sample3.n_lossy) by discriminate.
  split; [exact Huid |].
  exact (pubNode_reaches_peer Sample3.calm Sample3.fresh Sample3.n_lossy Sample3.peer
           heard Huid eq_refl).
Defined.

(** [Run] with an engine that does not start, and with an engine that
    starts and is cut off from the control channel. *)
Lemma Run_outcomes_witness :
  Run Sample3.broken_engine Sample3.calm Sample3.fresh Sample3.n_lossy
  = Ret ((Some (ErrOther "engine does not start"), Sample3.fresh),
         set_engine Sample3.broken_engine Sample3.n_lossy) /\
  exists g' w',
    Run Sample3.cut_off_engine Sample3.calm Sample3.fresh Sample3.n_lossy
    = Ret ((None, g'), w') /\
    Gossip.loops g' = [sendNodePingMsg; cleanNodeInfo; updateMetrics] /\
    length (calls w') = 2%nat /\
    length (logs w') = 1%nat.
Proof.
  split.
  - exact (proj1 (Run_outcomes Sample3.broken_engine Sample3.calm Sample3.fresh
                    Sample3.n_lossy) (ErrOther "engine does not start") eq_refl).
  - assert (Hstarts : (engine_Run Sample3.cut_off_engine).2 = None) by reflexivity.
    destruct (proj2 (Run_outcomes Sample3.cut_off_engine Sample3.calm Sample3.fresh
                       Sample3.n_lossy) Hstarts)
      as (g' & w' & node & cmd & Hrun & Hcalls & _ & _ & _ & _ & Hloops & Hlogs).
    exists g', w'. split; [exact Hrun |]. split; [exact Hloops |].
    split; [by rewrite Hcalls |].
    rewrite Hlogs. reflexivity.
Defined.

End RestScenarios.
